(** * SkillVantage: normalisation, skill frequencies and fuzzy matching

    A shallow embedding of the two places of the repository that carry
    algorithmic content,

    - [processAndUpload] and the ad-hoc match effect of
      [src/components/Dashboard.tsx], and
    - the post-processing of [analyzeSkillset] in
      [src/services/geminiService.ts],

    together with the JavaScript primitives they call.

    Conventions of the embedding.
    - A JavaScript string is a [string]; the alphabet is the ASCII range, on
      which [toLowerCase] and [toUpperCase] act on the Latin letters only.
    - A JavaScript object used as a table ([skillFreq]) is the list of its own
      properties in insertion order, which is the order [Object.entries]
      yields for keys that are not array indices.
    - A [Set] is the list of its elements in insertion order, without
      repetition, which is its iteration order.
    - [forEach] loops that push to arrays and bump counters are left folds
      over an explicit state.
    - Numbers that are counts are in [Z]; the percentage is computed on
      binary64 floats as the source does. *)

From Stdlib Require Import List String Ascii ZArith Lia Bool Arith.
From Stdlib Require Import DecimalString Floats Uint63 Permutation Sorted.
Import ListNotations.
Open Scope string_scope.
Open Scope list_scope.

(** ** JavaScript primitives *)

Module JS.

(** *** Characters *)

Definition code (c : ascii) : nat := nat_of_ascii c.

Definition isUpper (c : ascii) : bool := (65 <=? code c)%nat && (code c <=? 90)%nat.
Definition isLower (c : ascii) : bool := (97 <=? code c)%nat && (code c <=? 122)%nat.

Definition lowerChar (c : ascii) : ascii :=
  if isUpper c then ascii_of_nat (code c + 32) else c.
Definition upperChar (c : ascii) : ascii :=
  if isLower c then ascii_of_nat (code c - 32) else c.

(** [WhiteSpace] and [LineTerminator] code points of the ASCII range: TAB,
    LF, VT, FF, CR and SP. [String.prototype.trim] and the conversion of a
    string to a number strip exactly these. *)
Definition isWhiteSpace (c : ascii) : bool :=
  ((9 <=? code c)%nat && (code c <=? 13)%nat) || (code c =? 32)%nat.

Definition isDigit (c : ascii) : bool := (48 <=? code c)%nat && (code c <=? 57)%nat.
Definition isOctalDigit (c : ascii) : bool := (48 <=? code c)%nat && (code c <=? 55)%nat.
Definition isBinaryDigit (c : ascii) : bool := (code c =? 48)%nat || (code c =? 49)%nat.
Definition isHexDigit (c : ascii) : bool :=
  isDigit c
  || ((65 <=? code c)%nat && (code c <=? 70)%nat)
  || ((97 <=? code c)%nat && (code c <=? 102)%nat).

(** *** Strings *)

Fixpoint toLowerCase (s : string) : string :=
  match s with
  | EmptyString => EmptyString
  | String c r => String (lowerChar c) (toLowerCase r)
  end.

Fixpoint toUpperCase (s : string) : string :=
  match s with
  | EmptyString => EmptyString
  | String c r => String (upperChar c) (toUpperCase r)
  end.

(** [s.charAt(0)]: the first character as a string, empty on the empty string. *)
Definition charAt0 (s : string) : string :=
  match s with
  | EmptyString => EmptyString
  | String c _ => String c EmptyString
  end.

(** [s.slice(1)]. *)
Definition slice1 (s : string) : string :=
  match s with
  | EmptyString => EmptyString
  | String _ r => r
  end.

Fixpoint trimStart (s : string) : string :=
  match s with
  | EmptyString => EmptyString
  | String c r => if isWhiteSpace c then trimStart r else s
  end.

Fixpoint trimEnd (s : string) : string :=
  match s with
  | EmptyString => EmptyString
  | String c r =>
      match trimEnd r with
      | EmptyString => if isWhiteSpace c then EmptyString else String c EmptyString
      | r' => String c r'
      end
  end.

Definition trim (s : string) : string := trimEnd (trimStart s).

(** [s.includes(sub)]: [sub] occurs in [s] as a contiguous run. *)
Fixpoint includes (s sub : string) : bool :=
  prefix sub s
  || match s with
     | EmptyString => false
     | String _ r => includes r sub
     end.

(** [s.split(/[..]/)] for a character class [sep]: the pieces between the
    separators, empty pieces included; never the empty list. *)
Fixpoint split (sep : ascii -> bool) (s : string) : list string :=
  match s with
  | EmptyString => [EmptyString]
  | String c r =>
      if sep c then EmptyString :: split sep r
      else match split sep r with
           | [] => [String c EmptyString]
           | piece :: rest => String c piece :: rest
           end
  end.

(** [s.replace(/[..]/g, '')] for a character class [cls]: every character of
    the class is deleted, wherever it stands. *)
Fixpoint removeAll (cls : ascii -> bool) (s : string) : string :=
  match s with
  | EmptyString => EmptyString
  | String c r => if cls c then removeAll cls r else String c (removeAll cls r)
  end.

Fixpoint allChars (p : ascii -> bool) (s : string) : bool :=
  match s with
  | EmptyString => true
  | String c r => p c && allChars p r
  end.

Fixpoint anyChar (p : ascii -> bool) (s : string) : bool :=
  match s with
  | EmptyString => false
  | String c r => p c || anyChar p r
  end.

(** *** [Number(s)] on a string

    Only the truth value of [Number(t)] is used by the source, so the
    conversion is modelled up to the three classes that decide it. *)

Inductive NumberClass : Type :=
| IsNaN       (* not a StringNumericLiteral *)
| IsZero      (* +0 or -0 *)
| IsNonZero.  (* any other number, the infinities included *)

(** The longest prefix of decimal digits, and what follows it. *)
Fixpoint spanDigits (s : string) : string * string :=
  match s with
  | EmptyString => (EmptyString, EmptyString)
  | String c r =>
      if isDigit c then let (d, rest) := spanDigits r in (String c d, rest)
      else (EmptyString, s)
  end.

Definition digitValue (c : ascii) : Z := Z.of_nat (code c - 48).

(** The value of a string of decimal digits, most significant first. *)
Fixpoint digitsValueFrom (acc : Z) (s : string) : Z :=
  match s with
  | EmptyString => acc
  | String c r => digitsValueFrom (10 * acc + digitValue c) r
  end.
Definition digitsValue (s : string) : Z := digitsValueFrom 0 s.

(** [ExponentPart]: nothing, or [e]/[E], an optional sign and at least one
    digit, up to the end of the string. [None] when the text is neither. *)
Definition exponentPart (s : string) : option Z :=
  match s with
  | EmptyString => Some 0%Z
  | String c r =>
      if (code c =? 101)%nat || (code c =? 69)%nat then
        let (neg, body) :=
          match r with
          | String "-"%char b => (true, b)
          | String "+"%char b => (false, b)
          | _ => (false, r)
          end in
        match body with
        | EmptyString => None
        | _ => if allChars isDigit body
               then Some (if neg then - digitsValue body else digitsValue body)%Z
               else None
        end
      else None
  end.

(** A decimal literal [m * 10^e] with [m > 0] converts to zero exactly when
    it does not exceed half of the least subnormal binary64, [2^-1075]
    (round to nearest, ties to even). *)
Definition roundsToZero (m e : Z) : bool :=
  ((e <? 0) && (m * 2 ^ 1075 <=? 10 ^ (- e)))%Z.

(** [StrUnsignedDecimalLiteral] without [Infinity]: digits, an optional
    fraction and an optional exponent, with a digit on one side of the dot. *)
Definition unsignedDecimal (s : string) : NumberClass :=
  let (ip, rest) := spanDigits s in
  let (fp, rest') :=
    match rest with
    | String "."%char after => spanDigits after
    | _ => (EmptyString, rest)
    end in
  match ip, fp with
  | EmptyString, EmptyString => IsNaN
  | _, _ =>
      match exponentPart rest' with
      | None => IsNaN
      | Some ex =>
          let m := digitsValue (ip ++ fp)%string in
          if (m =? 0)%Z then IsZero
          else if roundsToZero m (ex - Z.of_nat (String.length fp)) then IsZero
          else IsNonZero
      end
  end.

(** [NonDecimalIntegerLiteral] after its two-character prefix. *)
Definition nonDecimal (digit : ascii -> bool) (body : string) : NumberClass :=
  match body with
  | EmptyString => IsNaN
  | _ => if allChars digit body
         then if allChars (fun c => (code c =? 48)%nat) body then IsZero else IsNonZero
         else IsNaN
  end.

Definition strNumericLiteral (s : string) : NumberClass :=
  match s with
  | EmptyString => IsZero
  | String "0"%char (String "x"%char b) | String "0"%char (String "X"%char b) =>
      nonDecimal isHexDigit b
  | String "0"%char (String "o"%char b) | String "0"%char (String "O"%char b) =>
      nonDecimal isOctalDigit b
  | String "0"%char (String "b"%char b) | String "0"%char (String "B"%char b) =>
      nonDecimal isBinaryDigit b
  | _ =>
      let body :=
        match s with
        | String "+"%char b | String "-"%char b => b
        | _ => s
        end in
      if (body =? "Infinity")%string then IsNonZero else unsignedDecimal body
  end.

(** [Number(s)] for a string [s], up to its class. *)
Definition NumberOf (s : string) : NumberClass := strNumericLiteral (trim s).

(** [!Number(s)]: true on NaN and on zero. *)
Definition notNumber (s : string) : bool :=
  match NumberOf s with
  | IsNonZero => false
  | _ => true
  end.

(** *** [Math.round] on binary64 *)

(** The integer nearest to the value of a finite float, ties towards
    plus infinity. The source only rounds finite values; on an infinity or a
    NaN this function answers [0]. *)
Definition Math_round (x : float) : Z :=
  match Prim2SF x with
  | S754_finite sg m e =>
      let n := (if sg then Z.neg m else Z.pos m) in
      if (0 <=? e)%Z then (n * 2 ^ e)%Z
      else ((2 * n + 2 ^ (- e)) / 2 ^ (1 - e))%Z
  | _ => 0%Z
  end.

(** A count as a JavaScript number. Exact below [2^53]. *)
Definition toNumber (n : Z) : float := PrimFloat.of_uint63 (Uint63.of_Z n).

(** The greatest [length] an [Array] can have: every length the source
    reads is a count of at most [2^32 - 1], on which [toNumber] is exact. *)
Definition maxArrayLength : Z := 2 ^ 32 - 1.

(** [Math.round((m / t) * 100)]. *)
Definition percentage (m t : Z) : Z :=
  Math_round (PrimFloat.mul (PrimFloat.div (toNumber m) (toNumber t)) (toNumber 100)).

(** *** Cell values

    What a parsed spreadsheet or JSON row holds in a cell: a string, a
    number (integral cells are modelled), a boolean, [null], or nothing. *)

Inductive Value : Type :=
| VStr (s : string)
| VNum (z : Z)
| VBool (b : bool)
| VNull
| VUndefined.

(** [ToBoolean]: what [!val] negates. *)
Definition truthy (v : Value) : bool :=
  match v with
  | VStr s => negb (s =? "")%string
  | VNum z => negb (z =? 0)%Z
  | VBool b => b
  | VNull | VUndefined => false
  end.

(** [String(n)] for an integer below [10^21] in absolute value. *)
Definition stringOfInt (z : Z) : string := NilZero.string_of_int (Z.to_int z).

(** [String(v)]. *)
Definition StringOf (v : Value) : string :=
  match v with
  | VStr s => s
  | VNum z => stringOfInt z
  | VBool true => "true"
  | VBool false => "false"
  | VNull => "null"
  | VUndefined => "undefined"
  end.

(** *** Sets and object tables *)

(** [set.has(x)]. *)
Definition has (set : list string) (x : string) : bool := existsb (String.eqb x) set.

(** [set.add(x)]: a new element goes last, a present one changes nothing. *)
Definition add (x : string) (set : list string) : list string :=
  if has set x then set else set ++ [x].

(** [new Set(xs)]. *)
Definition newSet (xs : list string) : list string :=
  fold_left (fun set x => add x set) xs [].

(** The own properties of an object that holds counts, in insertion order. *)
Definition Table : Type := list (string * Z).

(** [table[k]], [None] standing for [undefined]. *)
Fixpoint get (k : string) (table : Table) : option Z :=
  match table with
  | [] => None
  | (k', n) :: rest => if (k' =? k)%string then Some n else get k rest
  end.

Fixpoint bumpOwn (k : string) (table : Table) : Table :=
  match table with
  | [] => [(k, 1%Z)]
  | (k', n) :: rest =>
      if (k' =? k)%string then (k', (n + 1)%Z) :: rest else (k', n) :: bumpOwn k rest
  end.

(** [table[k] = (table[k] || 0) + 1] on an object literal. The one key that
    a title-cased token can share with [Object.prototype] is [__proto__]:
    reading it yields the prototype, and assigning the resulting string to it
    is ignored, so the table keeps its own properties. *)
Definition bump (k : string) (table : Table) : Table :=
  if (k =? "__proto__")%string then table else bumpOwn k table.

End JS.


(** ** The declarations of [src/types.ts] *)

Module Types.

Record RoleDefinition : Type := {
  title : string;
  requiredSkills : list string
}.

(** [department] of a [DepartmentMapping] is [mappingDepartment] here, the
    name [department] being the student's. *)
Record DepartmentMapping : Type := {
  mappingDepartment : string;
  possibleRoles : list RoleDefinition
}.

Record CleaningReport : Type := {
  totalRows : Z;
  validRows : Z;
  missingValuesFixed : Z;
  uniqueSkillsFound : Z;
  processingTimeMs : Z
}.

(** [matchScore] is [None] when the property is absent or [undefined]. *)
Record StudentProfile : Type := {
  id : string;
  department : string;
  rawSkills : list string;
  matchScore : option Z;
  missingSkills : list string
}.

End Types.

(** ** [src/components/Dashboard.tsx] *)

Module Dashboard.

(** A raw row, as [Object.entries(row)] lists it. *)
Definition RawRow : Type := list (string * JS.Value).

(** One element of [processedStudents]. *)
Record Student : Type := {
  id : string;
  department : string;
  skills : list string
}.

(** The variables a row's callback assigns: its three locals and the
    enclosing [skillFreq]. *)
Record RowVars : Type := {
  studentId : string;
  rowDepartment : string;
  studentSkills : list string;
  skillFreq : JS.Table
}.

Definition isSeparator (c : ascii) : bool := (c =? ",")%char || (c =? ";")%char.
(** The apostrophe and the double quote. *)
Definition isQuote (c : ascii) : bool := (JS.code c =? 39)%nat || (JS.code c =? 34)%nat.

(** [valueStr.split(/[,;]/).map(s => s.trim().replace(Q, ''))], where [Q]
    is the global pattern of the class of the two quote characters. *)
Definition tokensOf (valueStr : string) : list string :=
  map (fun s => JS.removeAll isQuote (JS.trim s)) (JS.split isSeparator valueStr).

(** [t.length > 1 && !Number(t)]. *)
Definition admitted (t : string) : bool :=
  (1 <? String.length t)%nat && JS.notNumber t.

(** [t.charAt(0).toUpperCase() + t.slice(1).toLowerCase()]. *)
Definition normalize (t : string) : string :=
  (JS.toUpperCase (JS.charAt0 t) ++ JS.toLowerCase (JS.slice1 t))%string.

(** The body of [tokens.forEach]. *)
Definition tokenStep (v : RowVars) (t : string) : RowVars :=
  if admitted t then
    let normalized := normalize t in
    {| studentId := studentId v;
       rowDepartment := rowDepartment v;
       studentSkills := JS.add normalized (studentSkills v);
       skillFreq := JS.bump normalized (skillFreq v) |}
  else v.

Definition isIdentifierKey (keyStr : string) : bool :=
  JS.includes keyStr "id" || JS.includes keyStr "roll"
  || (JS.includes keyStr "student" && negb (JS.includes keyStr "name")).

Definition isDepartmentKey (keyStr : string) : bool :=
  JS.includes keyStr "dept" || JS.includes keyStr "branch" || JS.includes keyStr "program".

(** The body of [Object.entries(row).forEach]. *)
Definition cellStep (v : RowVars) (entry : string * JS.Value) : RowVars :=
  let (key, val) := entry in
  if negb (JS.truthy val) then v
  else
    let valueStr := JS.trim (JS.StringOf val) in
    let keyStr := JS.toLowerCase key in
    if isIdentifierKey keyStr then
      {| studentId := valueStr; rowDepartment := rowDepartment v;
         studentSkills := studentSkills v; skillFreq := skillFreq v |}
    else if isDepartmentKey keyStr then
      {| studentId := studentId v; rowDepartment := valueStr;
         studentSkills := studentSkills v; skillFreq := skillFreq v |}
    else if (1 <? String.length valueStr)%nat && negb (JS.includes keyStr "name") then
      fold_left tokenStep (tokensOf valueStr) v
    else v.

(** What [processAndUpload] accumulates over the rows. *)
Record Acc : Type := {
  accValidRows : Z;
  accSkillFreq : JS.Table;
  processedStudents : list Student
}.

(** The row's locals after its cells, given the table before the row. *)
Definition rowVars (row : RawRow) (index : nat) (freq : JS.Table) : RowVars :=
  fold_left cellStep row
    {| studentId := ("Student-" ++ JS.stringOfInt (Z.of_nat index + 1))%string;
       rowDepartment := "General";
       studentSkills := [];
       skillFreq := freq |}.

(** The body of [rawData.forEach]. *)
Definition rowStep (a : Acc) (row : RawRow) (index : nat) : Acc :=
  let v := rowVars row index (accSkillFreq a) in
  {| accValidRows := (if (0 <? List.length row)%nat then accValidRows a + 1 else accValidRows a)%Z;
     accSkillFreq := skillFreq v;
     processedStudents :=
       processedStudents a
       ++ [{| id := studentId v; department := rowDepartment v; skills := studentSkills v |}] |}.

Fixpoint forEachRow (rows : list RawRow) (index : nat) (a : Acc) : Acc :=
  match rows with
  | [] => a
  | row :: rest => forEachRow rest (S index) (rowStep a row index)
  end.

(** The comparator [(a, b) => b[1] - a[1]] is not positive: [a] may stay
    before [b]. *)
Definition keepsBefore (a b : string * Z) : bool := (snd b - snd a <=? 0)%Z.

(** [Array.prototype.sort] is stable; it is modelled by the stable
    insertion sort under the comparator. *)
Fixpoint insertSorted (x : string * Z) (l : list (string * Z)) : list (string * Z) :=
  match l with
  | [] => [x]
  | y :: rest => if keepsBefore x y then x :: l else y :: insertSorted x rest
  end.

Fixpoint sortByCount (l : list (string * Z)) : list (string * Z) :=
  match l with
  | [] => []
  | x :: rest => insertSorted x (sortByCount rest)
  end.

(** [Object.entries(skillFreq).sort(..).slice(0, 50)]. *)
Definition sortedSkills (freq : JS.Table) : list (string * Z) :=
  firstn 50 (sortByCount freq).

(** [aiPayload], without [departments], which only feeds the prompt. *)
Record Payload : Type := {
  report : Types.CleaningReport;
  topSkills : list (string * Z);
  rawStudents : list Student;
  sample : list RawRow
}.

(** [processAndUpload(rawData)]; [elapsed] is the rounded time the pass
    took. *)
Definition processAndUpload (rawData : list RawRow) (elapsed : Z) : Payload :=
  let a := forEachRow rawData 0
             {| accValidRows := 0; accSkillFreq := []; processedStudents := [] |} in
  {| report :=
       {| Types.totalRows := Z.of_nat (List.length rawData);
          Types.validRows := accValidRows a;
          Types.missingValuesFixed := 0;
          Types.uniqueSkillsFound := Z.of_nat (List.length (accSkillFreq a));
          Types.processingTimeMs := elapsed |};
     topSkills := sortedSkills (accSkillFreq a);
     rawStudents := processedStudents a;
     sample := firstn 5 rawData |}.

(** The table [processAndUpload] sorts. *)
Definition skillFreqOf (rawData : list RawRow) : JS.Table :=
  accSkillFreq (forEachRow rawData 0
    {| accValidRows := 0; accSkillFreq := []; processedStudents := [] |}).

(** [normalize(row, index)] of the specification: the record the pass
    pushes for the row. *)
Definition normalizeRow (row : RawRow) (index : nat) : Student :=
  let v := rowVars row index [] in
  {| id := studentId v; department := rowDepartment v; skills := studentSkills v |}.

(** *** The ad-hoc match effect *)

(** The search of one required skill in the student's lowered set: [has],
    then the scan that breaks on the first containment. *)
Definition found (studentSkills : list string) (reqLower : string) : bool :=
  if JS.has studentSkills reqLower then true
  else existsb (fun s => JS.includes s reqLower || JS.includes reqLower s) studentSkills.

(** The body of [requiredSkills.forEach]: the state is [missing] and
    [matchCount]. *)
Definition matchStep (studentSkills : list string) (st : list string * Z) (req : string)
  : list string * Z :=
  let (missing, matchCount) := st in
  let reqLower := JS.toLowerCase req in
  if found studentSkills reqLower then (missing, (matchCount + 1)%Z)
  else (missing ++ [req], matchCount).

Record DynamicStats : Type := {
  matchScore : Z;
  missing : list string
}.

(** The effect's computation for a student and a role that were found,
    without [radarData], which feeds the chart. *)
Definition dynamicStats (student : Types.StudentProfile) (roleDef : Types.RoleDefinition)
  : DynamicStats :=
  let studentSkills := JS.newSet (map JS.toLowerCase (Types.rawSkills student)) in
  let requiredSkills := Types.requiredSkills roleDef in
  let (missing, matchCount) := fold_left (matchStep studentSkills) requiredSkills ([], 0%Z) in
  let len := Z.of_nat (List.length requiredSkills) in
  {| matchScore := JS.percentage matchCount (if (len =? 0)%Z then 1 else len);
     missing := missing |}.

End Dashboard.

(** ** [src/services/geminiService.ts] *)

Module GeminiService.

(** The predicate of [departmentMappings.find]. *)
Definition matchesDepartment (rawDepartment : string) (d : Types.DepartmentMapping) : bool :=
  JS.includes (JS.toLowerCase (Types.mappingDepartment d)) (JS.toLowerCase rawDepartment)
  || JS.includes (JS.toLowerCase rawDepartment) (JS.toLowerCase (Types.mappingDepartment d)).

(** [deptMap]: the first mapping that matches, else the first mapping;
    [None] when [departmentMappings] is absent or empty. *)
Definition deptMap (departmentMappings : option (list Types.DepartmentMapping))
    (rawDepartment : string) : option Types.DepartmentMapping :=
  match departmentMappings with
  | None => None
  | Some ms =>
      match find (matchesDepartment rawDepartment) ms with
      | Some d => Some d
      | None => hd_error ms
      end
  end.

(** [deptMap?.possibleRoles?.[0]]. *)
Definition defaultRole (d : option Types.DepartmentMapping) : option Types.RoleDefinition :=
  match d with
  | None => None
  | Some d => hd_error (Types.possibleRoles d)
  end.

(** [req.charAt(0).toUpperCase() + req.slice(1)]. *)
Definition capitalize (req : string) : string :=
  (JS.toUpperCase (JS.charAt0 req) ++ JS.slice1 req)%string.

Definition found (studentSkillsLower : list string) (req : string) : bool :=
  if JS.has studentSkillsLower req then true
  else existsb (fun ss => JS.includes ss req || JS.includes req ss) studentSkillsLower.

(** The body of [requiredSet.forEach]. *)
Definition matchStep (studentSkillsLower : list string) (st : list string * Z) (req : string)
  : list string * Z :=
  let (missing, matchCount) := st in
  if found studentSkillsLower req then (missing, (matchCount + 1)%Z)
  else (missing ++ [capitalize req], matchCount).

(** The matcher of the callback, run on the student's skills and the
    default role's required skills: [score] and [missing.slice(0, 5)]. *)
Definition bulkMatch (skills requiredSkills : list string) : Z * list string :=
  let requiredSet := JS.newSet (map JS.toLowerCase requiredSkills) in
  let studentSkillsLower := JS.newSet (map JS.toLowerCase skills) in
  let (missing, matchCount) := fold_left (matchStep studentSkillsLower) requiredSet ([], 0%Z) in
  let size := Z.of_nat (List.length requiredSet) in
  let totalReq := if (size =? 0)%Z then 1%Z else size in
  let score := JS.percentage matchCount totalReq in
  (score, firstn 5 missing).

(** [defaultRole?.requiredSkills || []]. *)
Definition requiredOf (role : option Types.RoleDefinition) : list string :=
  match role with
  | Some r => Types.requiredSkills r
  | None => []
  end.

(** The body of [inputData.rawStudents.forEach]: the profile pushed for
    [raw]. *)
Definition studentProfile (departmentMappings : option (list Types.DepartmentMapping))
    (raw : Dashboard.Student) : Types.StudentProfile :=
  let role := defaultRole (deptMap departmentMappings (Dashboard.department raw)) in
  let (score, missing5) := bulkMatch (Dashboard.skills raw) (requiredOf role) in
  {| Types.id := Dashboard.id raw;
     Types.department := Dashboard.department raw;
     Types.rawSkills := Dashboard.skills raw;
     Types.matchScore := Some score;
     Types.missingSkills := missing5 |}.

(** What [analyzeSkillset] returns once the service has answered, as far as
    this development reads it. *)
Record AnalysisResult : Type := {
  departmentMappings : option (list Types.DepartmentMapping);
  students : list Types.StudentProfile;
  cleaningReport : Types.CleaningReport
}.

(** The post-processing of [analyzeSkillset]: [aiMappings] is
    [aiResult.departmentMappings], [inputData] the parsed payload. *)
Definition analyzeSkillset (aiMappings : option (list Types.DepartmentMapping))
    (inputData : Dashboard.Payload) : AnalysisResult :=
  {| departmentMappings := aiMappings;
     students := map (studentProfile aiMappings) (Dashboard.rawStudents inputData);
     cleaningReport := Dashboard.report inputData |}.

End GeminiService.

(** ** Reference definitions

    What the statements below compare the code with: the declarative
    readings of the loops, and the tokenizer and the matcher as the
    specification words them. *)

Module Spec.

(** The normalised tokens a cell hands to the skill set and to the table, in
    order and with repetitions. *)
Definition cellSkills (entry : string * JS.Value) : list string :=
  let (key, val) := entry in
  let valueStr := JS.trim (JS.StringOf val) in
  let keyStr := JS.toLowerCase key in
  if JS.truthy val
     && negb (Dashboard.isIdentifierKey keyStr)
     && negb (Dashboard.isDepartmentKey keyStr)
     && (1 <? String.length valueStr)%nat
     && negb (JS.includes keyStr "name")
  then map Dashboard.normalize (filter Dashboard.admitted (Dashboard.tokensOf valueStr))
  else [].

Definition rowSkills (row : Dashboard.RawRow) : list string := flat_map cellSkills row.

(** Adding a run of tokens to a set, and counting it into a table. *)
Definition addAll (tokens : list string) (set : list string) : list string :=
  fold_left (fun acc x => JS.add x acc) tokens set.

Definition bumpAll (tokens : list string) (table : JS.Table) : JS.Table :=
  fold_left (fun acc x => JS.bump x acc) tokens table.

(** The rows with their positions, counted from [index]. *)
Fixpoint indexed (index : nat) (rows : list Dashboard.RawRow) : list (nat * Dashboard.RawRow) :=
  match rows with
  | [] => []
  | row :: rest => (index, row) :: indexed (S index) rest
  end.

(** How often the token [S] is admitted over the whole dataset. *)
Definition occurrences (S : string) (rawData : list Dashboard.RawRow) : Z :=
  Z.of_nat (count_occ string_dec (flat_map rowSkills rawData) S).

(** How many records have [S] in their skill set. *)
Definition recordsWith (S : string) (students : list Dashboard.Student) : Z :=
  Z.of_nat (List.length (filter (fun st => JS.has (Dashboard.skills st) S) students)).

(** The count the table records for [S]: [0] when it has no entry. *)
Definition countOf (S : string) (table : JS.Table) : Z :=
  match JS.get S table with
  | Some n => n
  | None => 0%Z
  end.

(** A property key that is a canonical decimal numeral. The array indices
    are among these keys, and [Object.entries] lists them before the other
    keys, in numeric order. *)
Definition isCanonicalNumeral (k : string) : bool :=
  JS.allChars JS.isDigit k
  && match k with
     | EmptyString => false
     | String c EmptyString => true
     | String c _ => negb (c =? "0")%char
     end.

(** [a] may stand before [b]: its count is not smaller. *)
Definition descending (a b : string * Z) : Prop := (snd b <= snd a)%Z.

(** The entries whose count is [n], in the order of the list. *)
Definition withCount (n : Z) (l : list (string * Z)) : list (string * Z) :=
  filter (fun e => (snd e =? n)%Z) l.

(** [sub] occurs in [s] as a contiguous run of characters. *)
Definition Substring (sub s : string) : Prop :=
  exists pre post : string, s = (pre ++ sub ++ post)%string.

(** Stripping the quote characters that enclose a token, as the
    specification words it: the run of quotes at its start and the run at its
    end go, the interior stays. *)
Fixpoint dropQuotesStart (s : string) : string :=
  match s with
  | EmptyString => EmptyString
  | String c r => if Dashboard.isQuote c then dropQuotesStart r else s
  end.

Fixpoint dropQuotesEnd (s : string) : string :=
  match s with
  | EmptyString => EmptyString
  | String c r =>
      match dropQuotesEnd r with
      | EmptyString => if Dashboard.isQuote c then EmptyString else String c EmptyString
      | r' => String c r'
      end
  end.

Definition stripEnclosingQuotes (s : string) : string := dropQuotesEnd (dropQuotesStart s).

(** The tokenizer as the specification words it. *)
Definition tokensOf (valueStr : string) : list string :=
  map (fun s => stripEnclosingQuotes (JS.trim s)) (JS.split Dashboard.isSeparator valueStr).

(** A required skill is satisfied by the candidates: exact or by containment,
    after case folding. *)
Definition satisfied (candidates : list string) (r : string) : bool :=
  let cs := map JS.toLowerCase candidates in
  let rl := JS.toLowerCase r in
  JS.has cs rl || existsb (fun c => JS.includes c rl || JS.includes rl c) cs.

(** The missing list as the specification words it: the unsatisfied required
    skills in the given order, first letter in upper case, the rest as
    given. *)
Definition missingSkills (candidates requiredSkills : list string) : list string :=
  map GeminiService.capitalize (filter (fun r => negb (satisfied candidates r)) requiredSkills).

(** The score as the specification words it, on the whole required list. *)
Definition matchScore (candidates requiredSkills : list string) : Z :=
  JS.percentage
    (Z.of_nat (List.length (filter (satisfied candidates) requiredSkills)))
    (Z.max 1 (Z.of_nat (List.length requiredSkills))).

(** Rounding the exact quotient [100 * m / t] to the nearest integer, halves
    up. *)
Definition roundHalfUp (m t : Z) : Z := ((200 * m + t) / (2 * t))%Z.

(** The percentage is a binary64 computation. Its bounds follow from the
    specification of the binary64 operations, for every total; what is
    stated of its exact value for all lists up to a length is established
    by running it on every pair of a matched count and a total up to that
    length. *)
Definition scoreChecks (check : Z -> Z -> bool) (n : nat) : bool :=
  forallb (fun t => forallb (fun m => check (Z.of_nat m) (Z.of_nat t)) (seq 0 (S t)))
    (seq 1 n).

(** The score is between 0 and 100, is 0 when nothing matched and 100 when
    everything did. *)
Definition inRange (m t : Z) : bool :=
  let p := JS.percentage m t in
  (0 <=? p)%Z && (p <=? 100)%Z
  && (if (m =? 0)%Z then (p =? 0)%Z else true)
  && (if (m =? t)%Z then (p =? 100)%Z else true).

(** The score is the exact quotient rounded, halves up. *)
Definition isExact (m t : Z) : bool := (JS.percentage m t =? roundHalfUp m t)%Z.

(** The longest required-skill list the score was checked on, and the
    longest on which it is exact for every matched count. *)
Definition checkedLength : nat := 100.
Definition exactLength : nat := 39.

End Spec.

(** ** The selection logic of [src/components/Dashboard.tsx] *)

Module DashboardView.

(** [data.students?.find(s => s.id === selectedStudentId)]. *)
Definition findStudent (data : GeminiService.AnalysisResult) (selectedStudentId : string)
  : option Types.StudentProfile :=
  find (fun s => (Types.id s =? selectedStudentId)%string) (GeminiService.students data).

(** [data.departmentMappings || []]. *)
Definition mappingsOf (data : GeminiService.AnalysisResult) : list Types.DepartmentMapping :=
  match GeminiService.departmentMappings data with
  | Some ms => ms
  | None => []
  end.

(** The loop of the effect over the departments: the first role with the
    selected title, in the first department that has one. *)
Fixpoint findRole (mappings : list Types.DepartmentMapping) (selectedRoleTitle : string)
  : option Types.RoleDefinition :=
  match mappings with
  | [] => None
  | dept :: rest =>
      match find (fun r => (Types.title r =? selectedRoleTitle)%string)
              (Types.possibleRoles dept) with
      | Some found => Some found
      | None => findRole rest selectedRoleTitle
      end
  end.

(** One point of the radar chart. *)
Record RadarPoint : Type := {
  subject : string;
  Student : Z;
  Required : Z;
  fullMark : Z
}.

(** [comparisonData]: [requiredSkills.slice(0, 6).map(..)] over the
    student's lowered skill set. *)
Definition comparisonData (studentSkills requiredSkills : list string) : list RadarPoint :=
  map (fun req =>
         {| subject := req;
            Student := if JS.has studentSkills (JS.toLowerCase req) then 80%Z else 20%Z;
            Required := 100%Z;
            fullMark := 100%Z |})
      (firstn 6 requiredSkills).

(** The state [dynamicStats] holds. *)
Record Stats : Type := {
  computed : Dashboard.DynamicStats;
  radarData : list RadarPoint
}.

(** The effect on [selectedStudentId], [selectedRoleTitle] and [data]: the
    next value of the state [dynamicStats], given its current value. With a
    selection whose student or role is not found the state is not set. *)
Definition matchEffect (data : option GeminiService.AnalysisResult)
    (selectedStudentId selectedRoleTitle : string) (dynamicStats : option Stats)
  : option Stats :=
  match data with
  | Some d =>
      if negb (selectedStudentId =? "")%string && negb (selectedRoleTitle =? "")%string then
        match findStudent d selectedStudentId, findRole (mappingsOf d) selectedRoleTitle with
        | Some student, Some roleDef =>
            Some {| computed := Dashboard.dynamicStats student roleDef;
                    radarData :=
                      comparisonData
                        (JS.newSet (map JS.toLowerCase (Types.rawSkills student)))
                        (Types.requiredSkills roleDef) |}
        | _, _ => dynamicStats
        end
      else None
  | None => None
  end.

(** [availableRoles]: the roles of the mapping whose department is the
    student's, case folded; all roles when there is none. *)
Definition availableRoles (data : option GeminiService.AnalysisResult)
    (selectedStudentId : string) : list Types.RoleDefinition :=
  match data with
  | None => []
  | Some d =>
      if (selectedStudentId =? "")%string then []
      else
        match findStudent d selectedStudentId with
        | None => []
        | Some student =>
            match GeminiService.departmentMappings d with
            | None => []
            | Some ms =>
                match find (fun m =>
                              (JS.toLowerCase (Types.mappingDepartment m)
                               =? JS.toLowerCase (Types.department student))%string) ms with
                | Some mapping => Types.possibleRoles mapping
                | None => flat_map Types.possibleRoles ms
                end
            end
        end
  end.

End DashboardView.

(** ** The helpers of [src/services/geminiService.ts] *)

Module Service.

(** [s.replace(/pat/g, "")] for a literal, non-empty [pat]: the occurrences
    are found from left to right without overlap and deleted. [skip] counts
    the characters of the current occurrence still to delete. *)
Fixpoint removeOcc (pat : string) (skip : nat) (s : string) : string :=
  match s with
  | EmptyString => EmptyString
  | String c r =>
      match skip with
      | S k => removeOcc pat k r
      | O =>
          if prefix pat s then removeOcc pat (String.length pat - 1) r
          else String c (removeOcc pat 0 r)
      end
  end.

Definition fence : string := "```".
Definition fenceJson : string := "```json".

(** [cleanJson(text)]. *)
Definition cleanJson (text : string) : string :=
  if (text =? "")%string then "{}"
  else if JS.includes text fence
       then JS.trim (removeOcc fence 0 (removeOcc fenceJson 0 text))
       else text.

(** [chunk.web] of a grounding chunk: absent, or a page with an address and
    maybe a title. *)
Record Web : Type := {
  webTitle : option string;
  uri : string
}.

(** [JobListing] of [src/types.ts], without the optional [location], which
    is never set. *)
Record JobListing : Type := {
  title : string;
  company : string;
  url : string;
  snippet : string
}.

(** [chunk.web.title || "Job Opening"]. *)
Definition titleOr (t : option string) : string :=
  match t with
  | Some EmptyString | None => "Job Opening"
  | Some t => t
  end.

(** The body of [chunks.forEach]. *)
Definition chunkStep (listings : list JobListing) (web : option Web) : list JobListing :=
  match web with
  | Some w =>
      listings ++ [{| title := titleOr (webTitle w); company := "See Link";
                      url := uri w; snippet := "Click to view details from source." |}]
  | None => listings
  end.

(** What [searchJobs] returns: [answer] is [None] when the request threw,
    else the [groundingChunks] of the first candidate, [None] when absent. *)
Definition searchJobs (answer : option (option (list (option Web)))) : list JobListing :=
  match answer with
  | Some (Some chunks) => fold_left chunkStep chunks []
  | Some None => []
  | None => []
  end.

End Service.

(** ** The text pipeline of [src/components/ResumeAnalyzer.tsx] *)

Module ResumeAnalyzer.

(** [s.replace(/\s+/g, ' ')]: every maximal run of white space becomes one
    space. [inRun] tells that the previous character was white space. *)
Fixpoint collapse (inRun : bool) (s : string) : string :=
  match s with
  | EmptyString => EmptyString
  | String c r =>
      if JS.isWhiteSpace c then
        if inRun then collapse true r else String " "%char (collapse true r)
      else String c (collapse false r)
  end.

Definition newline : string := String (ascii_of_nat 10) EmptyString.

(** The loop over the pages: [fullText += items.join(" ") + "\n\n"]. *)
Definition fullTextOf (pages : list (list string)) : string :=
  fold_left (fun fullText items =>
               (fullText ++ (String.concat " " items ++ newline ++ newline))%string)
            pages EmptyString.

Definition scanMessage : string :=
  "This PDF appears to be an image or scan. Please convert it to a text-based PDF or TXT file.".

(** The [catch] of [extractTextFromPdf]: the message of the error thrown
    again. *)
Definition rethrown (message : string) : string :=
  ("Could not read PDF: "
   ++ (if JS.includes message "getDocument"
       then "Library initialization error. Please reload the page."
       else message))%string.

(** [extractTextFromPdf] once the library has delivered the text items of
    the pages: the text, or the message of the error. *)
Definition extractTextFromPdf (pages : list (list string)) : string + string :=
  let fullText := JS.trim (collapse false (fullTextOf pages)) in
  if (String.length fullText <? 50)%nat then inr (rethrown scanMessage)
  else inl fullText.

(** The test of [handleFileUpload] before the analysis:
    [!text || text.trim().length < 50] rejects. *)
Definition accepted (text : string) : bool :=
  negb ((text =? "")%string || (String.length (JS.trim text) <? 50)%nat).

End ResumeAnalyzer.

(** ** Further reference definitions *)

Module Ref.

(** A cell that sets the identifier, and one that sets the department. *)
Definition isIdentifierCell (entry : string * JS.Value) : bool :=
  JS.truthy (snd entry) && Dashboard.isIdentifierKey (JS.toLowerCase (fst entry)).

Definition isDepartmentCell (entry : string * JS.Value) : bool :=
  JS.truthy (snd entry)
  && negb (Dashboard.isIdentifierKey (JS.toLowerCase (fst entry)))
  && Dashboard.isDepartmentKey (JS.toLowerCase (fst entry)).

(** The trimmed text of the last cell of a kind, if there is one. *)
Definition lastValue (kind : string * JS.Value -> bool) (row : Dashboard.RawRow)
  : option string :=
  option_map (fun entry => JS.trim (JS.StringOf (snd entry))) (find kind (rev row)).

(** The sum of the counts of a table. *)
Definition total (table : JS.Table) : Z := fold_right Z.add 0%Z (map snd table).

(** The number of backticks a string starts with. *)
Fixpoint leadTicks (s : string) : nat :=
  match s with
  | String c r => if (c =? "`")%char then S (leadTicks r) else 0
  | EmptyString => 0
  end.

(** The words of a text: its maximal runs of characters that are not white
    space. [word] is the word being read, reversed. *)
Fixpoint wordsFrom (word : string) (s : string) : list string :=
  match s with
  | EmptyString => match word with EmptyString => [] | _ => [word] end
  | String c r =>
      if JS.isWhiteSpace c then
        match word with
        | EmptyString => wordsFrom EmptyString r
        | _ => word :: wordsFrom EmptyString r
        end
      else wordsFrom (word ++ String c EmptyString)%string r
  end.

Definition wordsOf (s : string) : list string := wordsFrom EmptyString s.

(** The score is 100 only on a full match and 0 only on no match. *)
Definition isSharp (m t : Z) : bool :=
  Bool.eqb (JS.percentage m t =? 100)%Z (m =? t)%Z
  && Bool.eqb (JS.percentage m t =? 0)%Z (m =? 0)%Z.

(** One more match does not lower the score. *)
Definition isMonotone (m t : Z) : bool :=
  (t <=? m)%Z || (JS.percentage m t <=? JS.percentage (m + 1) t)%Z.

End Ref.

(** ** Inputs used in examples *)

Definition notesRow : Dashboard.RawRow := [("Notes", JS.VStr "irrelevant")].

Definition sampleRow : Dashboard.RawRow :=
  [("Student ID", JS.VStr "S1"); ("Dept", JS.VStr "CS"); ("Skills", JS.VStr "Python, SQL; Java")].

Definition defaultStudent (index : nat) : Dashboard.Student :=
  {| Dashboard.id := ("Student-" ++ JS.stringOfInt (Z.of_nat index + 1))%string;
     Dashboard.department := "General";
     Dashboard.skills := [] |}.

(** * Properties *)

(** ** The scenarios of the specification that the code meets *)

Example column_classification :
  Dashboard.normalizeRow sampleRow 0
  = {| Dashboard.id := "S1"; Dashboard.department := "CS";
       Dashboard.skills := ["Python"; "Sql"; "Java"] |}.
Proof. reflexivity. Qed.

Example exact_match_scenario :
  GeminiService.bulkMatch ["Python"; "SQL"] ["Python"; "SQL"; "Java"] = (67%Z, ["Java"]).
Proof. vm_compute. reflexivity. Qed.

(** ** The primitives on sample inputs *)

Example number_classes :
  map JS.NumberOf
    ["abc"; "12"; "00"; "0.0"; "-0"; "0x0"; "0x1f"; "-0x1"; "1e5"; ".5"; "5."; ".";
     ""; " 12 "; "1 2"; "Infinity"; "infinity"; "1e"; "2e-324"; "3e-324"]
  = [JS.IsNaN; JS.IsNonZero; JS.IsZero; JS.IsZero; JS.IsZero; JS.IsZero; JS.IsNonZero;
     JS.IsNaN; JS.IsNonZero; JS.IsNonZero; JS.IsNonZero; JS.IsNaN;
     JS.IsZero; JS.IsNonZero; JS.IsNaN; JS.IsNonZero; JS.IsNaN; JS.IsNaN;
     JS.IsZero; JS.IsNonZero].
Proof. vm_compute. reflexivity. Qed.

Example string_primitives :
  JS.trim "  a b  " = "a b"
  /\ JS.split Dashboard.isSeparator "a,,b;" = ["a"; ""; "b"; ""]
  /\ JS.includes "react native" "react" = true
  /\ JS.includes "javascript" "js" = false
  /\ JS.includes "x" "" = true
  /\ Dashboard.normalize "sQL" = "Sql"
  /\ GeminiService.capitalize "javascript" = "Javascript".
Proof. repeat split. Qed.

Example percentages :
  map (fun p => JS.percentage (fst p) (snd p)) [(0, 1); (2, 3); (1, 8); (1, 2); (3, 3)]%Z
  = [0; 67; 13; 50; 100]%Z.
Proof. vm_compute. reflexivity. Qed.

(** ** Falsy cells and defaults *)

Section Normalizer.

Import Dashboard.

Lemma truthy_false_cases (val : JS.Value) :
  JS.truthy val = false <->
  val = JS.VStr "" \/ val = JS.VNum 0 \/ val = JS.VBool false
  \/ val = JS.VNull \/ val = JS.VUndefined.
Proof.
  split.
  - destruct val as [s | z | b | | ]; simpl; intros H; auto.
    + destruct s; [auto | discriminate].
    + apply negb_false_iff, Z.eqb_eq in H. subst. auto.
    + subst. auto.
  - intros [-> | [-> | [-> | [-> | ->]]]]; reflexivity.
Qed.

Lemma cellStep_falsy (v : RowVars) (key : string) (val : JS.Value) :
  JS.truthy val = false -> cellStep v (key, val) = v.
Proof. intros H. unfold cellStep. rewrite H. reflexivity. Qed.

Lemma fold_cellStep_falsy (row : RawRow) (v : RowVars) :
  Forall (fun e => JS.truthy (snd e) = false) row -> fold_left cellStep row v = v.
Proof.
  induction 1 as [| [key val] row H _ IH]; cbn [fold_left]; [reflexivity |].
  rewrite (cellStep_falsy v key val H). exact IH.
Qed.

Lemma fold_cellStep_app (r1 r2 : RawRow) (v : RowVars) :
  fold_left cellStep (r1 ++ r2) v = fold_left cellStep r2 (fold_left cellStep r1 v).
Proof. apply fold_left_app. Qed.

(** C10: a cell whose value is falsy leaves the identifier, the department,
    the skill set and the table as they were, whatever its column name; set
    between other cells it changes nothing of the row's record, and a row of
    falsy cells gets the positional identifier, General and no skill. *)
Theorem falsy_cell_is_skipped (val : JS.Value) (key : string)
    (Hfalsy : val = JS.VStr "" \/ val = JS.VNum 0 \/ val = JS.VBool false
              \/ val = JS.VNull \/ val = JS.VUndefined) :
  (forall v, cellStep v (key, val) = v)
  /\ (forall before after index,
        normalizeRow (before ++ (key, val) :: after) index
        = normalizeRow (before ++ after) index)
  /\ (forall before after index freq,
        skillFreq (rowVars (before ++ (key, val) :: after) index freq)
        = skillFreq (rowVars (before ++ after) index freq))
  /\ (forall index, normalizeRow [(key, val)] index = defaultStudent index).
Proof.
  apply truthy_false_cases in Hfalsy.
  assert (Hstep : forall v, cellStep v (key, val) = v)
    by (intros v; apply cellStep_falsy; exact Hfalsy).
  assert (Hrow : forall before after index freq,
             rowVars (before ++ (key, val) :: after) index freq
             = rowVars (before ++ after) index freq).
  { intros before after index freq. unfold rowVars.
    rewrite !fold_cellStep_app. cbn [fold_left]. rewrite Hstep. reflexivity. }
  repeat split.
  - exact Hstep.
  - intros. unfold normalizeRow. rewrite Hrow. reflexivity.
  - intros. rewrite Hrow. reflexivity.
  - intros index. unfold normalizeRow, rowVars. cbn [fold_left]. rewrite Hstep. reflexivity.
Qed.

Lemma falsy_cell_is_skipped_witness :
  (JS.VNum 0 = JS.VStr "" \/ JS.VNum 0 = JS.VNum 0 \/ JS.VNum 0 = JS.VBool false
   \/ JS.VNum 0 = JS.VNull \/ JS.VNum 0 = JS.VUndefined)
  /\ normalizeRow [("Student ID", JS.VNum 0)] 2 = defaultStudent 2.
Proof.
  split.
  - right. left. reflexivity.
  - apply (falsy_cell_is_skipped (JS.VNum 0) "Student ID").
    right. left. reflexivity.
Defined.

(** *** The loops, read declaratively *)

(** The case analysis of [cellStep]: a falsy value, an identifier column, a
    department column, a skills column, and a column that is ignored. *)
Ltac classify key val :=
  unfold cellStep;
  destruct (JS.truthy val); cbn [negb andb];
  [ destruct (isIdentifierKey (JS.toLowerCase key)); cbn [negb andb];
    [ | destruct (isDepartmentKey (JS.toLowerCase key)); cbn [negb andb];
        [ | destruct ((1 <? String.length (JS.trim (JS.StringOf val)))%nat
                      && negb (JS.includes (JS.toLowerCase key) "name")) ] ]
  | ].

Lemma fold_tokenStep (tokens : list string) (v : RowVars) :
  fold_left tokenStep tokens v
  = {| studentId := studentId v;
       rowDepartment := rowDepartment v;
       studentSkills :=
         Spec.addAll (map normalize (filter admitted tokens)) (studentSkills v);
       skillFreq :=
         Spec.bumpAll (map normalize (filter admitted tokens)) (skillFreq v) |}.
Proof.
  revert v. induction tokens as [| t tokens IH]; intros v.
  - destruct v; reflexivity.
  - cbn [fold_left filter]. rewrite IH. unfold tokenStep.
    destruct (admitted t); reflexivity.
Qed.

Lemma cellStep_skills (v : RowVars) (entry : string * JS.Value) :
  studentSkills (cellStep v entry) = Spec.addAll (Spec.cellSkills entry) (studentSkills v)
  /\ skillFreq (cellStep v entry) = Spec.bumpAll (Spec.cellSkills entry) (skillFreq v).
Proof.
  destruct entry as [key val]. unfold Spec.cellSkills.
  classify key val; rewrite ?fold_tokenStep; split; reflexivity.
Qed.

Lemma fold_cellStep_skills (row : RawRow) (v : RowVars) :
  studentSkills (fold_left cellStep row v) = Spec.addAll (Spec.rowSkills row) (studentSkills v)
  /\ skillFreq (fold_left cellStep row v) = Spec.bumpAll (Spec.rowSkills row) (skillFreq v).
Proof.
  revert v. induction row as [| entry row IH]; intros v; [split; reflexivity |].
  cbn [fold_left]. destruct (IH (cellStep v entry)) as [IHs IHf].
  destruct (cellStep_skills v entry) as [Hs Hf].
  rewrite IHs, IHf, Hs, Hf. unfold Spec.rowSkills, Spec.addAll, Spec.bumpAll.
  cbn [flat_map]. rewrite !fold_left_app. split; reflexivity.
Qed.

(** The identifier and the department of a row do not depend on the skill
    set and the table its callback started from. *)
Lemma cellStep_id_department (v v' : RowVars) (entry : string * JS.Value) :
  studentId v = studentId v' -> rowDepartment v = rowDepartment v' ->
  studentId (cellStep v entry) = studentId (cellStep v' entry)
  /\ rowDepartment (cellStep v entry) = rowDepartment (cellStep v' entry).
Proof.
  intros Hid Hdep. destruct entry as [key val].
  classify key val; rewrite ?fold_tokenStep; split; first [assumption | reflexivity].
Qed.

Lemma fold_cellStep_id_department (row : RawRow) (v v' : RowVars) :
  studentId v = studentId v' -> rowDepartment v = rowDepartment v' ->
  studentId (fold_left cellStep row v) = studentId (fold_left cellStep row v')
  /\ rowDepartment (fold_left cellStep row v) = rowDepartment (fold_left cellStep row v').
Proof.
  revert v v'. induction row as [| entry row IH]; intros v v' Hid Hdep; [split; assumption |].
  cbn [fold_left]. destruct (cellStep_id_department v v' entry Hid Hdep) as [Hid' Hdep'].
  apply IH; assumption.
Qed.

Lemma rowStudent_normalizeRow (row : RawRow) (index : nat) (freq : JS.Table) :
  {| id := studentId (rowVars row index freq);
     department := rowDepartment (rowVars row index freq);
     skills := studentSkills (rowVars row index freq) |}
  = normalizeRow row index.
Proof.
  unfold normalizeRow, rowVars.
  match goal with
  | |- context [fold_left cellStep row ?a] =>
      match goal with
      | |- context [fold_left cellStep row ?b] =>
          lazymatch a with
          | b => fail
          | _ =>
              destruct (fold_cellStep_id_department row a b eq_refl eq_refl) as [-> ->];
              destruct (fold_cellStep_skills row a) as [-> _];
              destruct (fold_cellStep_skills row b) as [-> _]
          end
      end
  end.
  reflexivity.
Qed.

Lemma forEachRow_students (rows : list RawRow) (index : nat) (a : Acc) :
  processedStudents (forEachRow rows index a)
  = processedStudents a
    ++ map (fun p => normalizeRow (snd p) (fst p)) (Spec.indexed index rows).
Proof.
  revert index a. induction rows as [| row rows IH]; intros index a; cbn [forEachRow Spec.indexed map].
  - rewrite app_nil_r. reflexivity.
  - rewrite IH. unfold rowStep at 1. cbn [processedStudents].
    rewrite rowStudent_normalizeRow, <- app_assoc. reflexivity.
Qed.

Lemma forEachRow_skillFreq (rows : list RawRow) (index : nat) (a : Acc) :
  accSkillFreq (forEachRow rows index a)
  = Spec.bumpAll (flat_map Spec.rowSkills rows) (accSkillFreq a).
Proof.
  revert index a. induction rows as [| row rows IH]; intros index a; cbn [forEachRow flat_map].
  - reflexivity.
  - rewrite IH. unfold rowStep at 1. cbn [accSkillFreq].
    unfold rowVars. destruct (fold_cellStep_skills row
      {| studentId := ("Student-" ++ JS.stringOfInt (Z.of_nat index + 1))%string;
         rowDepartment := "General"; studentSkills := []; skillFreq := accSkillFreq a |}) as [_ ->].
    cbn [skillFreq]. unfold Spec.bumpAll. rewrite fold_left_app. reflexivity.
Qed.

Lemma nth_error_indexed (rows : list RawRow) (index k : nat) :
  nth_error (Spec.indexed index rows) k
  = option_map (fun row => (index + k, row)) (nth_error rows k).
Proof.
  revert index k. induction rows as [| row rows IH]; intros index [| k]; cbn; try reflexivity.
  - rewrite Nat.add_0_r. reflexivity.
  - rewrite IH. rewrite Nat.add_succ_r. reflexivity.
Qed.

(** The record pushed for the row at a position is the normalisation of the
    row at that position. *)
Lemma rawStudents_nth (rawData : list RawRow) (elapsed : Z) (k : nat) (row : RawRow) :
  nth_error rawData k = Some row ->
  nth_error (rawStudents (processAndUpload rawData elapsed)) k = Some (normalizeRow row k).
Proof.
  intros H. unfold processAndUpload. cbn [rawStudents].
  rewrite forEachRow_students. cbn [processedStudents app].
  rewrite nth_error_map, nth_error_indexed, H. reflexivity.
Qed.

(** C3, as the code has it: the Notes column is no identifier, department or
    name column and its value is longer than one character, so it is read
    as a skills column. In any dataset with the row at position 4, the fifth
    record has both defaults and the one skill Irrelevant. *)
Theorem notes_row_defaults_and_one_skill (rawData : list RawRow) (elapsed : Z)
    (Hrow : nth_error rawData 4 = Some notesRow) :
  nth_error (rawStudents (processAndUpload rawData elapsed)) 4
  = Some {| id := "Student-5"; department := "General"; skills := ["Irrelevant"] |}.
Proof. rewrite (rawStudents_nth rawData elapsed 4 notesRow Hrow). reflexivity. Qed.

Lemma notes_row_defaults_and_one_skill_witness :
  nth_error [[]; []; []; []; notesRow] 4 = Some notesRow
  /\ nth_error (rawStudents (processAndUpload [[]; []; []; []; notesRow] 0)) 4
     = Some {| id := "Student-5"; department := "General"; skills := ["Irrelevant"] |}.
Proof.
  split.
  - reflexivity.
  - apply (notes_row_defaults_and_one_skill [[]; []; []; []; notesRow] 0). reflexivity.
Defined.

(** The Defaults scenario of the specification fails on the code: the skill
    set of the record is not empty. *)
Lemma notes_row_skills_not_empty :
  normalizeRow notesRow 4
  = {| id := "Student-5"; department := "General"; skills := ["Irrelevant"] |}
  /\ normalizeRow notesRow 4
     <> {| id := "Student-5"; department := "General"; skills := [] |}.
Proof. split; [reflexivity | discriminate]. Qed.

End Normalizer.

(** ** The bulk report without a taxonomy *)

Section MissingTaxonomy.

Import GeminiService.

Lemma percentage_0_1 : JS.percentage 0 1 = 0%Z.
Proof. vm_compute. reflexivity. Qed.

Lemma bulkMatch_no_requirement (skills : list string) : bulkMatch skills [] = (0%Z, []).
Proof. unfold bulkMatch. cbn [map JS.newSet fold_left List.length Z.of_nat Z.eqb firstn].
  rewrite percentage_0_1. reflexivity. Qed.

Lemma deptMap_none (mappings : option (list Types.DepartmentMapping)) (dep : string) :
  mappings = None \/ mappings = Some [] -> deptMap mappings dep = None.
Proof. intros [-> | ->]; reflexivity. Qed.

(** C2, as the code has it: with no department mapping, absent or empty,
    the report is produced; it carries the payload's cleaning statistics and
    one profile per record, in order, with the record's identifier,
    department and raw skills, the score 0 and no missing skill. *)
Theorem missing_taxonomy_scores_zero (mappings : option (list Types.DepartmentMapping))
    (inputData : Dashboard.Payload)
    (Hnone : mappings = None \/ mappings = Some []) :
  cleaningReport (analyzeSkillset mappings inputData) = Dashboard.report inputData
  /\ students (analyzeSkillset mappings inputData)
     = map (fun raw =>
              {| Types.id := Dashboard.id raw;
                 Types.department := Dashboard.department raw;
                 Types.rawSkills := Dashboard.skills raw;
                 Types.matchScore := Some 0%Z;
                 Types.missingSkills := [] |})
           (Dashboard.rawStudents inputData).
Proof.
  split; [reflexivity |].
  unfold analyzeSkillset. cbn [students]. apply map_ext. intros raw.
  unfold studentProfile. rewrite (deptMap_none mappings _ Hnone).
  cbn [defaultRole requiredOf]. rewrite bulkMatch_no_requirement. reflexivity.
Qed.

Lemma missing_taxonomy_scores_zero_witness :
  (@None (list Types.DepartmentMapping) = None \/ @None (list Types.DepartmentMapping) = Some [])
  /\ students (analyzeSkillset None (Dashboard.processAndUpload [sampleRow] 0))
     = [{| Types.id := "S1"; Types.department := "CS";
           Types.rawSkills := ["Python"; "Sql"; "Java"];
           Types.matchScore := Some 0%Z; Types.missingSkills := [] |}].
Proof.
  split.
  - left. reflexivity.
  - apply (missing_taxonomy_scores_zero None (Dashboard.processAndUpload [sampleRow] 0)).
    left. reflexivity.
Defined.

(** The MissingTaxonomy clause of the specification fails on the code: a
    numeric score, 0, is attached to the profile. *)
Lemma missing_taxonomy_score_is_attached :
  map Types.matchScore
      (students (analyzeSkillset None (Dashboard.processAndUpload [sampleRow] 0)))
  = [Some 0%Z]
  /\ exists p, In p (students (analyzeSkillset None (Dashboard.processAndUpload [sampleRow] 0)))
               /\ Types.matchScore p <> None.
Proof.
  split; [vm_compute; reflexivity |].
  eexists. split; [left; reflexivity |]. vm_compute. discriminate.
Qed.

End MissingTaxonomy.

(** ** The skill-frequency table *)

Section Frequency.

Import Dashboard.

Lemma has_In (set : list string) (x : string) : JS.has set x = true <-> In x set.
Proof.
  unfold JS.has. rewrite existsb_exists. split.
  - intros [y [Hy Heq]]. apply String.eqb_eq in Heq. subst. exact Hy.
  - intros H. exists x. split; [exact H | apply String.eqb_refl].
Qed.

Lemma In_add (x y : string) (set : list string) : In x (JS.add y set) <-> x = y \/ In x set.
Proof.
  unfold JS.add. destruct (JS.has set y) eqn:Hhas.
  - apply has_In in Hhas. split; [auto | intros [-> | H]; assumption].
  - rewrite in_app_iff. cbn. split; [intros [H | [H | []]]; auto | intros [H | H]; auto].
Qed.

Lemma In_addAll (x : string) (tokens set : list string) :
  In x (Spec.addAll tokens set) <-> In x set \/ In x tokens.
Proof.
  revert set. induction tokens as [| t tokens IH]; intros set; cbn.
  - tauto.
  - unfold Spec.addAll in *. rewrite IH, In_add. split; intros H; intuition auto.
Qed.

Lemma countOf_bumpOwn (S k : string) (table : JS.Table) :
  Spec.countOf S (JS.bumpOwn k table)
  = (if (k =? S)%string then Spec.countOf S table + 1 else Spec.countOf S table)%Z.
Proof.
  unfold Spec.countOf. induction table as [| [k' n] table IH]; cbn.
  - destruct (k =? S)%string; reflexivity.
  - destruct (k' =? k)%string eqn:Hk'; cbn.
    + apply String.eqb_eq in Hk'. subst k'. destruct (k =? S)%string; reflexivity.
    + destruct (k' =? S)%string eqn:HS; [| exact IH].
      apply String.eqb_eq in HS. subst k'. rewrite String.eqb_sym in Hk'. rewrite Hk'. reflexivity.
Qed.

Lemma countOf_bump (S k : string) (table : JS.Table) :
  Spec.countOf S (JS.bump k table)
  = (if (k =? "__proto__")%string then Spec.countOf S table
     else if (k =? S)%string then Spec.countOf S table + 1 else Spec.countOf S table)%Z.
Proof.
  unfold JS.bump. destruct (k =? "__proto__")%string; [reflexivity | apply countOf_bumpOwn].
Qed.

Lemma countOf_bumpAll (S : string) (tokens : list string) (table : JS.Table) :
  Spec.countOf S (Spec.bumpAll tokens table)
  = (Spec.countOf S table
     + (if (S =? "__proto__")%string then 0
        else Z.of_nat (count_occ string_dec tokens S)))%Z.
Proof.
  revert table. induction tokens as [| t tokens IH]; intros table.
  - cbn. destruct (S =? "__proto__")%string; lia.
  - unfold Spec.bumpAll in *. cbn [fold_left]. rewrite IH, countOf_bump.
    cbn [count_occ]. destruct (string_dec t S) as [-> | Hne].
    + destruct (S =? "__proto__")%string; [lia |]. rewrite String.eqb_refl. lia.
    + apply String.eqb_neq in Hne. rewrite Hne.
      destruct (t =? "__proto__")%string; reflexivity.
Qed.

Lemma normalizeRow_skills (row : RawRow) (index : nat) :
  skills (normalizeRow row index) = Spec.addAll (Spec.rowSkills row) [].
Proof.
  unfold normalizeRow, rowVars. cbn [skills].
  match goal with
  | |- studentSkills (fold_left cellStep row ?v) = _ =>
      destruct (fold_cellStep_skills row v) as [-> _]
  end.
  reflexivity.
Qed.

Lemma has_skills_rowSkills (row : RawRow) (index : nat) (S : string) :
  JS.has (skills (normalizeRow row index)) S = true <-> In S (Spec.rowSkills row).
Proof.
  rewrite has_In, normalizeRow_skills, In_addAll. cbn. tauto.
Qed.

(** Per row: a record that has [S] lists it at least once, and exactly once
    when the row repeats no token. *)
Lemma record_le_occurrences (row : RawRow) (index : nat) (S : string) :
  ((if JS.has (skills (normalizeRow row index)) S then 1 else 0)
   <= count_occ string_dec (Spec.rowSkills row) S)%nat
  /\ (NoDup (Spec.rowSkills row) ->
      (if JS.has (skills (normalizeRow row index)) S then 1 else 0)%nat
      = count_occ string_dec (Spec.rowSkills row) S).
Proof.
  destruct (JS.has (skills (normalizeRow row index)) S) eqn:Hhas.
  - apply has_skills_rowSkills in Hhas. split.
    + apply (count_occ_In string_dec) in Hhas. lia.
    + intros Hnd. symmetry. apply NoDup_count_occ'; assumption.
  - assert (Hnot : ~ In S (Spec.rowSkills row)).
    { intros Hin. apply (has_skills_rowSkills row index) in Hin. congruence. }
    apply (count_occ_not_In string_dec) in Hnot. rewrite Hnot. split; [lia | reflexivity].
Qed.

Lemma recordsWith_indexed (S : string) (rows : list RawRow) (index : nat) :
  (List.length (filter (fun st => JS.has (skills st) S)
                  (map (fun p => normalizeRow (snd p) (fst p)) (Spec.indexed index rows)))
   <= count_occ string_dec (flat_map Spec.rowSkills rows) S)%nat
  /\ (Forall (fun row => NoDup (Spec.rowSkills row)) rows ->
      List.length (filter (fun st => JS.has (skills st) S)
                     (map (fun p => normalizeRow (snd p) (fst p)) (Spec.indexed index rows)))
      = count_occ string_dec (flat_map Spec.rowSkills rows) S).
Proof.
  revert index. induction rows as [| row rows IH]; intros index.
  - cbn. split; [lia | reflexivity].
  - cbn [Spec.indexed map filter flat_map fst snd]. rewrite count_occ_app.
    destruct (IH (Datatypes.S index)) as [IHle IHeq].
    destruct (record_le_occurrences row index S) as [Hle Heq].
    split.
    + destruct (JS.has (skills (normalizeRow row index)) S); cbn [List.length]; lia.
    + intros Hall. inversion Hall as [| ? ? Hrow Hrows]; subst.
      specialize (IHeq Hrows). specialize (Heq Hrow).
      destruct (JS.has (skills (normalizeRow row index)) S); cbn [List.length]; lia.
Qed.

Lemma skillFreqOf_bumpAll (rawData : list RawRow) :
  skillFreqOf rawData = Spec.bumpAll (flat_map Spec.rowSkills rawData) [].
Proof. unfold skillFreqOf. rewrite forEachRow_skillFreq. reflexivity. Qed.

(** C1, as the code has it: the table is bumped once per admitted token, so
    the count recorded for a skill is the number of times the token is
    admitted over all cells of all rows, except that the reserved key
    [__proto__] never gets an entry and counts 0. The number of records whose
    skill set has the skill is at most the number of admitted tokens, and is
    that number when no row repeats a token; for every skill but [__proto__]
    the number of admitted tokens is the recorded count, so the records are
    at most the recorded count, and as many when no row repeats a token. *)
Theorem skillFreq_counts_admitted_tokens (rawData : list RawRow) (elapsed : Z) (S : string) :
  Spec.countOf S (skillFreqOf rawData)
  = (if (S =? "__proto__")%string then 0%Z else Spec.occurrences S rawData)
  /\ (Spec.recordsWith S (rawStudents (processAndUpload rawData elapsed))
      <= Spec.occurrences S rawData)%Z
  /\ (Forall (fun row => NoDup (Spec.rowSkills row)) rawData ->
      Spec.recordsWith S (rawStudents (processAndUpload rawData elapsed))
      = Spec.occurrences S rawData)
  /\ (S <> "__proto__" ->
      Spec.countOf S (skillFreqOf rawData) = Spec.occurrences S rawData
      /\ (Spec.recordsWith S (rawStudents (processAndUpload rawData elapsed))
          <= Spec.countOf S (skillFreqOf rawData))%Z
      /\ (Forall (fun row => NoDup (Spec.rowSkills row)) rawData ->
          Spec.recordsWith S (rawStudents (processAndUpload rawData elapsed))
          = Spec.countOf S (skillFreqOf rawData))).
Proof.
  assert (Hst : rawStudents (processAndUpload rawData elapsed)
                = map (fun p => normalizeRow (snd p) (fst p)) (Spec.indexed 0 rawData)).
  { unfold processAndUpload. cbn [rawStudents]. rewrite forEachRow_students. reflexivity. }
  assert (Hcount : Spec.countOf S (skillFreqOf rawData)
                   = (if (S =? "__proto__")%string then 0%Z else Spec.occurrences S rawData)).
  { rewrite skillFreqOf_bumpAll, countOf_bumpAll. unfold Spec.occurrences. cbn.
    destruct (S =? "__proto__")%string; reflexivity. }
  rewrite Hst, Hcount.
  destruct (recordsWith_indexed S rawData 0) as [Hle Heq].
  assert (Hrec : (Spec.recordsWith S
                    (map (fun p => normalizeRow (snd p) (fst p)) (Spec.indexed 0 rawData))
                  <= Spec.occurrences S rawData)%Z).
  { unfold Spec.recordsWith, Spec.occurrences. lia. }
  assert (Hsame : Forall (fun row => NoDup (Spec.rowSkills row)) rawData ->
                  Spec.recordsWith S
                    (map (fun p => normalizeRow (snd p) (fst p)) (Spec.indexed 0 rawData))
                  = Spec.occurrences S rawData).
  { intros Hall. unfold Spec.recordsWith, Spec.occurrences. rewrite (Heq Hall). reflexivity. }
  split; [reflexivity |]. split; [exact Hrec |]. split; [exact Hsame |].
  intros Hne. apply String.eqb_neq in Hne. rewrite Hne.
  split; [reflexivity |]. split; [exact Hrec | exact Hsame].
Qed.

(** The reserved key is admitted as a skill of the record and never
    recorded in the table. *)
Lemma skillFreq_skips_proto :
  Spec.countOf "__proto__" (skillFreqOf [[("Skills", JS.VStr "__proto__, Python")]]) = 0%Z
  /\ Spec.recordsWith "__proto__"
       (rawStudents (processAndUpload [[("Skills", JS.VStr "__proto__, Python")]] 0)) = 1%Z
  /\ Spec.occurrences "__proto__" [[("Skills", JS.VStr "__proto__, Python")]] = 1%Z.
Proof. split; [reflexivity | split; reflexivity]. Qed.

(** The invariant of the specification fails on the code: a row that lists
    a skill twice is one record and counts two. *)
Lemma skillFreq_counts_a_row_twice :
  Spec.countOf "Python" (skillFreqOf [[("Skills", JS.VStr "Python, Python")]]) = 2%Z
  /\ Spec.recordsWith "Python"
       (rawStudents (processAndUpload [[("Skills", JS.VStr "Python, Python")]] 0)) = 1%Z
  /\ Spec.countOf "Python" (skillFreqOf [[("Skills", JS.VStr "Python, Python")]])
     <> Spec.recordsWith "Python"
          (rawStudents (processAndUpload [[("Skills", JS.VStr "Python, Python")]] 0)).
Proof. split; [reflexivity | split; [reflexivity | discriminate]]. Qed.

End Frequency.

(** ** The ranking of the skills *)

Section Ranking.

Import Dashboard.

Lemma keepsBefore_descending (a b : string * Z) : keepsBefore a b = true <-> Spec.descending a b.
Proof. unfold keepsBefore, Spec.descending. rewrite Z.leb_le. lia. Qed.

Lemma insertSorted_perm (x : string * Z) (l : list (string * Z)) :
  Permutation (insertSorted x l) (x :: l).
Proof.
  induction l as [| y l IH]; cbn; [apply Permutation_refl |].
  destruct (keepsBefore x y); [apply Permutation_refl |].
  eapply perm_trans; [apply perm_skip, IH | apply perm_swap].
Qed.

Lemma sortByCount_perm (l : list (string * Z)) : Permutation (sortByCount l) l.
Proof.
  induction l as [| x l IH]; cbn; [constructor |].
  eapply perm_trans; [apply insertSorted_perm | apply perm_skip, IH].
Qed.

Lemma insertSorted_sorted (x : string * Z) (l : list (string * Z)) :
  StronglySorted Spec.descending l -> StronglySorted Spec.descending (insertSorted x l).
Proof.
  induction 1 as [| y l Hl IH Hy]; cbn.
  - constructor; constructor.
  - destruct (keepsBefore x y) eqn:Hxy.
    + apply keepsBefore_descending in Hxy. constructor.
      * constructor; assumption.
      * constructor; [exact Hxy |].
        eapply Forall_impl; [| exact Hy]. unfold Spec.descending in *. intros z Hz. lia.
    + constructor; [exact IH |].
      assert (Hyx : Spec.descending y x).
      { unfold Spec.descending. destruct (Z.le_gt_cases (snd y) (snd x)) as [Hle | Hgt]; [| lia].
        assert (keepsBefore x y = true) by (apply keepsBefore_descending; exact Hle).
        congruence. }
      eapply Permutation_Forall; [apply Permutation_sym, insertSorted_perm |].
      constructor; assumption.
Qed.

Lemma sortByCount_sorted (l : list (string * Z)) : StronglySorted Spec.descending (sortByCount l).
Proof.
  induction l as [| x l IH]; cbn; [constructor | apply insertSorted_sorted, IH].
Qed.

(** Stability: insertion passes only entries with a larger count. *)
Lemma withCount_insertSorted (n : Z) (x : string * Z) (l : list (string * Z)) :
  Spec.withCount n (insertSorted x l) = Spec.withCount n (x :: l).
Proof.
  unfold Spec.withCount. induction l as [| y l IH]; cbn [insertSorted]; [reflexivity |].
  destruct (keepsBefore x y) eqn:Hxy; [reflexivity |].
  cbn [filter] in *. rewrite IH.
  destruct (snd x =? n)%Z eqn:Hx; [| reflexivity].
  destruct (snd y =? n)%Z eqn:Hy; [| reflexivity].
  apply Z.eqb_eq in Hx, Hy.
  assert (keepsBefore x y = true) by (apply keepsBefore_descending; unfold Spec.descending; lia).
  congruence.
Qed.

Lemma withCount_sortByCount (n : Z) (l : list (string * Z)) :
  Spec.withCount n (sortByCount l) = Spec.withCount n l.
Proof.
  induction l as [| x l IH]; [reflexivity |].
  cbn [sortByCount]. rewrite withCount_insertSorted. unfold Spec.withCount in *.
  cbn [filter]. rewrite IH. reflexivity.
Qed.

Lemma withCount_head (x : string * Z) (l : list (string * Z)) :
  Spec.withCount (snd x) (x :: l) = x :: Spec.withCount (snd x) l.
Proof. unfold Spec.withCount. cbn [filter]. rewrite Z.eqb_refl. reflexivity. Qed.

Lemma withCount_skip (n : Z) (x : string * Z) (l : list (string * Z)) :
  snd x <> n -> Spec.withCount n (x :: l) = Spec.withCount n l.
Proof.
  intros H. unfold Spec.withCount. cbn [filter]. apply Z.eqb_neq in H. rewrite H. reflexivity.
Qed.

Lemma withCount_In (n : Z) (x : string * Z) (l : list (string * Z)) :
  In x (Spec.withCount n l) -> In x l.
Proof. unfold Spec.withCount. intros H. apply filter_In in H. tauto. Qed.

(** A Spec.descending list is determined by its classes of equal count: a stable
    sort has one result, whatever the algorithm. *)
Lemma stable_sort_unique (l l' : list (string * Z)) :
  StronglySorted Spec.descending l -> StronglySorted Spec.descending l' ->
  (forall n, Spec.withCount n l = Spec.withCount n l') -> l = l'.
Proof.
  intros Hl. revert l'. induction Hl as [| x l Hl IH Hx]; intros l' Hl' Heq.
  - destruct l' as [| y l']; [reflexivity |].
    specialize (Heq (snd y)). rewrite withCount_head in Heq. discriminate.
  - destruct Hl' as [| y l' Hl' Hy].
    { specialize (Heq (snd x)). rewrite withCount_head in Heq. discriminate. }
    assert (Hxy : x = y).
    { destruct (Z.eq_dec (snd y) (snd x)) as [Hsame | Hdiff].
      - pose proof (Heq (snd x)) as H. rewrite withCount_head in H.
        rewrite <- Hsame in H at 2. rewrite withCount_head in H. congruence.
      - exfalso.
        assert (Hyin : In y l).
        { pose proof (Heq (snd y)) as H. rewrite withCount_head in H.
          rewrite withCount_skip in H by congruence.
          apply (withCount_In (snd y)). rewrite H. left. reflexivity. }
        assert (Hxin : In x l').
        { pose proof (Heq (snd x)) as H. rewrite withCount_head in H.
          rewrite (withCount_skip (snd x) y) in H by congruence.
          apply (withCount_In (snd x)). rewrite <- H. left. reflexivity. }
        rewrite Forall_forall in Hx, Hy.
        specialize (Hx y Hyin). specialize (Hy x Hxin). unfold Spec.descending in *. lia. }
    subst y. f_equal. apply IH; [exact Hl' |].
    intros n. specialize (Heq n).
    destruct (Z.eq_dec (snd x) n) as [<- | Hne].
    + rewrite !withCount_head in Heq. congruence.
    + rewrite !withCount_skip in Heq by exact Hne. exact Heq.
Qed.

(** The keys of the table stand in the order in which they were first
    bumped. *)
Lemma keys_bumpOwn (k : string) (table : JS.Table) :
  map fst (JS.bumpOwn k table) = JS.add k (map fst table).
Proof.
  unfold JS.add, JS.has. induction table as [| [k' n] table IH]; cbn; [reflexivity |].
  rewrite (String.eqb_sym k k').
  destruct (k' =? k)%string; cbn; [reflexivity |].
  rewrite IH. destruct (existsb (String.eqb k) (map fst table)); reflexivity.
Qed.

Lemma keys_bumpAll (tokens : list string) (table : JS.Table) :
  map fst (Spec.bumpAll tokens table)
  = Spec.addAll (filter (fun t => negb (t =? "__proto__")%string) tokens) (map fst table).
Proof.
  revert table. induction tokens as [| t tokens IH]; intros table; [reflexivity |].
  unfold Spec.bumpAll, Spec.addAll in *. cbn [fold_left filter]. rewrite IH.
  unfold JS.bump. destruct (t =? "__proto__")%string; cbn [negb fold_left]; [reflexivity |].
  rewrite keys_bumpOwn. reflexivity.
Qed.

(** *** No key of the table is an array index *)

Lemma digit_upperChar (c : ascii) :
  JS.isDigit (JS.upperChar c) = true -> JS.upperChar c = c.
Proof. destruct c as [[] [] [] [] [] [] [] []]; cbn; intros H; try discriminate; reflexivity. Qed.

Lemma digit_lowerChar (c : ascii) :
  JS.isDigit (JS.lowerChar c) = true -> JS.lowerChar c = c.
Proof. destruct c as [[] [] [] [] [] [] [] []]; cbn; intros H; try discriminate; reflexivity. Qed.

Lemma digits_toLowerCase (s : string) :
  JS.allChars JS.isDigit (JS.toLowerCase s) = true -> JS.toLowerCase s = s.
Proof.
  induction s as [| c s IH]; cbn; [reflexivity |].
  intros H. apply andb_true_iff in H. destruct H as [Hc Hs].
  rewrite (digit_lowerChar c Hc), (IH Hs). reflexivity.
Qed.

Lemma digits_normalize (t : string) :
  JS.allChars JS.isDigit (normalize t) = true -> normalize t = t.
Proof.
  destruct t as [| c t]; [reflexivity |]. unfold normalize. cbn.
  intros H. apply andb_true_iff in H. destruct H as [Hc Hs].
  rewrite (digit_upperChar c Hc), (digits_toLowerCase t Hs). reflexivity.
Qed.

Lemma digit_not_whiteSpace (c : ascii) : JS.isDigit c = true -> JS.isWhiteSpace c = false.
Proof. destruct c as [[] [] [] [] [] [] [] []]; cbn; intros H; try discriminate; reflexivity. Qed.

Lemma digits_trimEnd (s : string) : JS.allChars JS.isDigit s = true -> JS.trimEnd s = s.
Proof.
  induction s as [| c s IH]; cbn; [reflexivity |].
  intros H. apply andb_true_iff in H. destruct H as [Hc Hs].
  rewrite (IH Hs), (digit_not_whiteSpace c Hc). destruct s; reflexivity.
Qed.

Lemma digits_trim (s : string) : JS.allChars JS.isDigit s = true -> JS.trim s = s.
Proof.
  intros H. unfold JS.trim.
  assert (Hstart : JS.trimStart s = s).
  { destruct s as [| c s]; [reflexivity |]. cbn in *.
    apply andb_true_iff in H. destruct H as [Hc _].
    rewrite (digit_not_whiteSpace c Hc). reflexivity. }
  rewrite Hstart. apply digits_trimEnd. exact H.
Qed.

Lemma digits_spanDigits (s : string) :
  JS.allChars JS.isDigit s = true -> JS.spanDigits s = (s, EmptyString).
Proof.
  induction s as [| c s IH]; cbn; [reflexivity |].
  intros H. apply andb_true_iff in H. destruct H as [Hc Hs].
  rewrite Hc, (IH Hs). reflexivity.
Qed.

Lemma append_empty (s : string) : (s ++ "")%string = s.
Proof. induction s as [| c s IH]; cbn; [reflexivity | rewrite IH; reflexivity]. Qed.

Lemma digitsValueFrom_ge (s : string) (acc : Z) :
  (0 <= acc)%Z -> (acc <= JS.digitsValueFrom acc s)%Z.
Proof.
  revert acc. induction s as [| c s IH]; intros acc Hacc; cbn [JS.digitsValueFrom]; [lia |].
  assert (Hd : (0 <= JS.digitValue c)%Z) by (unfold JS.digitValue; lia).
  specialize (IH (10 * acc + JS.digitValue c)%Z ltac:(lia)). lia.
Qed.

(** A decimal numeral that does not start with 0 converts to a number
    other than zero. *)
Lemma numeral_is_number (c : ascii) (s : string) :
  JS.allChars JS.isDigit (String c s) = true -> (c =? "0")%char = false ->
  JS.NumberOf (String c s) = JS.IsNonZero.
Proof.
  intros Hall Hc. unfold JS.NumberOf. rewrite (digits_trim _ Hall).
  assert (Hdec : JS.unsignedDecimal (String c s) = JS.IsNonZero).
  { unfold JS.unsignedDecimal. rewrite (digits_spanDigits _ Hall), append_empty.
    cbn [JS.exponentPart String.length Z.of_nat Z.sub Z.opp].
    assert (Hpos : (1 <= JS.digitsValue (String c s))%Z).
    { unfold JS.digitsValue. cbn [JS.digitsValueFrom].
      cbn in Hall. apply andb_true_iff in Hall. destruct Hall as [Hd _].
      assert (H1 : (1 <= JS.digitValue c)%Z).
      { clear - Hd Hc. destruct c as [[] [] [] [] [] [] [] []];
          first [discriminate Hd | discriminate Hc | (vm_compute; discriminate)]. }
      match goal with
      | |- (1 <= JS.digitsValueFrom ?acc s)%Z =>
          pose proof (digitsValueFrom_ge s acc ltac:(lia)); lia
      end. }
    destruct (JS.digitsValue (String c s) =? 0)%Z eqn:H0; [apply Z.eqb_eq in H0; lia |].
    reflexivity. }
  cbn in Hall. apply andb_true_iff in Hall. destruct Hall as [Hd _].
  clear - Hd Hc Hdec. revert Hdec.
  destruct c as [[] [] [] [] [] [] [] []];
    first [discriminate Hd | discriminate Hc | (intros Hdec; cbn; exact Hdec)].
Qed.

Lemma admitted_not_numeral (t : string) :
  admitted t = true -> Spec.isCanonicalNumeral (normalize t) = false.
Proof.
  intros Hadm. destruct (Spec.isCanonicalNumeral (normalize t)) eqn:Hnum; [| reflexivity].
  exfalso. unfold Spec.isCanonicalNumeral in Hnum.
  apply andb_true_iff in Hnum. destruct Hnum as [Hdigits Hhead].
  pose proof (digits_normalize t Hdigits) as Hsame. rewrite Hsame in Hdigits, Hhead.
  unfold admitted in Hadm. apply andb_true_iff in Hadm. destruct Hadm as [Hlen Hnot].
  apply Nat.ltb_lt in Hlen.
  destruct t as [| c [| c' t]]; cbn in Hlen; try lia.
  apply negb_true_iff in Hhead.
  unfold JS.notNumber in Hnot. rewrite (numeral_is_number c _ Hdigits Hhead) in Hnot.
  discriminate.
Qed.

Lemma rowSkills_not_numeral (row : RawRow) :
  Forall (fun k => Spec.isCanonicalNumeral k = false) (Spec.rowSkills row).
Proof.
  unfold Spec.rowSkills. apply Forall_flat_map. apply Forall_forall. intros [key val] _.
  unfold Spec.cellSkills.
  match goal with |- Forall _ (if ?b then _ else _) => destruct b end; [| constructor].
  apply Forall_map. apply Forall_forall. intros t Ht. apply filter_In in Ht.
  apply admitted_not_numeral. tauto.
Qed.

Lemma keys_not_numeral (rawData : list RawRow) :
  Forall (fun k => Spec.isCanonicalNumeral k = false) (map fst (skillFreqOf rawData)).
Proof.
  rewrite skillFreqOf_bumpAll, keys_bumpAll. apply Forall_forall. intros k Hk.
  apply In_addAll in Hk. destruct Hk as [[] | Hk]. apply filter_In in Hk. destruct Hk as [Hk _].
  apply in_flat_map in Hk. destruct Hk as [row [_ Hk]].
  pose proof (rowSkills_not_numeral row) as H. rewrite Forall_forall in H. apply H, Hk.
Qed.

(** C8: the keys of the table stand in the order of their first admission;
    [topSkills] is the first 50 entries of the one list that holds the
    entries of the table, in Spec.descending order of count, entries of equal
    count in the order of the table; the result depends on the rows alone.
    No key is a decimal numeral, so that [Object.entries] lists the table in
    insertion order. *)
Theorem topSkills_stable_descending_top50 (rawData : list RawRow) (elapsed : Z) :
  map fst (skillFreqOf rawData)
  = JS.newSet (filter (fun t => negb (t =? "__proto__")%string)
                 (flat_map Spec.rowSkills rawData))
  /\ Forall (fun k => Spec.isCanonicalNumeral k = false) (map fst (skillFreqOf rawData))
  /\ (exists sorted : list (string * Z),
        topSkills (processAndUpload rawData elapsed) = firstn 50 sorted
        /\ Permutation sorted (skillFreqOf rawData)
        /\ StronglySorted Spec.descending sorted
        /\ (forall n, Spec.withCount n sorted = Spec.withCount n (skillFreqOf rawData))
        /\ (forall other,
              StronglySorted Spec.descending other ->
              (forall n, Spec.withCount n other = Spec.withCount n (skillFreqOf rawData)) ->
              other = sorted))
  /\ (List.length (topSkills (processAndUpload rawData elapsed)) <= 50)%nat
  /\ (forall elapsed',
        topSkills (processAndUpload rawData elapsed')
        = topSkills (processAndUpload rawData elapsed)).
Proof.
  split; [| split; [| split; [| split]]].
  - rewrite skillFreqOf_bumpAll, keys_bumpAll. reflexivity.
  - apply keys_not_numeral.
  - exists (sortByCount (skillFreqOf rawData)). split; [reflexivity |].
    split; [apply sortByCount_perm |].
    split; [apply sortByCount_sorted |].
    split; [intros n; apply withCount_sortByCount |].
    intros other Hsorted Hsame. apply stable_sort_unique.
    + exact Hsorted.
    + apply sortByCount_sorted.
    + intros n. rewrite Hsame, withCount_sortByCount. reflexivity.
  - unfold processAndUpload, sortedSkills. cbn [topSkills]. rewrite length_firstn. apply Nat.le_min_l.
  - reflexivity.
Qed.

End Ranking.

(** ** The fuzzy matcher: when a required skill is satisfied *)

Section Satisfied.

Lemma prefix_append (sub s : string) :
  prefix sub s = true <-> exists post, s = (sub ++ post)%string.
Proof.
  revert s. induction sub as [| a sub IH]; intros s.
  - cbn. destruct s; split; intros _; try reflexivity; eexists; reflexivity.
  - destruct s as [| b s]; cbn.
    + split; [discriminate | intros [post H]; discriminate].
    + destruct (ascii_dec a b) as [-> | Hne].
      * rewrite IH. split; intros [post H]; exists post; [rewrite H; reflexivity |].
        injection H as H. exact H.
      * split; [discriminate | intros [post H]; congruence].
Qed.

Lemma includes_Substring (s sub : string) :
  JS.includes s sub = true <-> Spec.Substring sub s.
Proof.
  unfold Spec.Substring. split.
  - induction s as [| c s IH]; cbn [JS.includes]; intros H; apply orb_true_iff in H.
    + destruct H as [H | H]; [| discriminate].
      apply prefix_append in H. destruct H as [post H]. exists EmptyString, post. exact H.
    + destruct H as [H | H].
      * apply prefix_append in H. destruct H as [post H]. exists EmptyString, post. exact H.
      * destruct (IH H) as [pre [post Hs]]. exists (String c pre), post. cbn. rewrite Hs. reflexivity.
  - intros [pre [post H]]. revert s H. induction pre as [| c pre IH]; intros s H.
    + assert (Hp : prefix sub s = true) by (apply prefix_append; exists post; exact H).
      destruct s; cbn [JS.includes]; rewrite Hp; reflexivity.
    + subst s. cbn [append JS.includes]. apply orb_true_iff. right. apply IH. reflexivity.
Qed.

Lemma newSet_addAll (xs : list string) : JS.newSet xs = Spec.addAll xs [].
Proof. reflexivity. Qed.

Lemma In_newSet (x : string) (xs : list string) : In x (JS.newSet xs) <-> In x xs.
Proof. rewrite newSet_addAll, In_addAll. cbn. tauto. Qed.

Lemma existsb_same_elements (f : string -> bool) (l l' : list string) :
  (forall x, In x l <-> In x l') -> existsb f l = existsb f l'.
Proof.
  intros H. apply eq_iff_eq_true. rewrite !existsb_exists.
  split; intros [x [Hin Hf]]; exists x; split; try assumption; apply H; assumption.
Qed.

Lemma has_newSet (xs : list string) (x : string) : JS.has (JS.newSet xs) x = JS.has xs x.
Proof. unfold JS.has. apply existsb_same_elements. intros y. apply In_newSet. Qed.

(** Both matchers search alike, and as the reference predicate does. *)
Lemma found_same (set : list string) (req : string) :
  GeminiService.found set req = Dashboard.found set req.
Proof. reflexivity. Qed.

Lemma found_satisfied (candidates : list string) (r : string) :
  Dashboard.found (JS.newSet (map JS.toLowerCase candidates)) (JS.toLowerCase r)
  = Spec.satisfied candidates r.
Proof.
  unfold Dashboard.found, Spec.satisfied. rewrite has_newSet.
  rewrite (existsb_same_elements _ (JS.newSet (map JS.toLowerCase candidates))
             (map JS.toLowerCase candidates)) by (intros x; apply In_newSet).
  destruct (JS.has (map JS.toLowerCase candidates) (JS.toLowerCase r)); reflexivity.
Qed.

Lemma satisfied_iff (candidates : list string) (r : string) :
  Spec.satisfied candidates r = true <->
  In (JS.toLowerCase r) (map JS.toLowerCase candidates)
  \/ exists c, In c candidates
               /\ (Spec.Substring (JS.toLowerCase r) (JS.toLowerCase c)
                   \/ Spec.Substring (JS.toLowerCase c) (JS.toLowerCase r)).
Proof.
  unfold Spec.satisfied. rewrite orb_true_iff, has_In, existsb_exists. split.
  - intros [H | [x [Hin Hx]]]; [left; exact H | right].
    apply in_map_iff in Hin. destruct Hin as [c [<- Hc]]. exists c. split; [exact Hc |].
    apply orb_true_iff in Hx. rewrite !includes_Substring in Hx. exact Hx.
  - intros [H | [c [Hc Hsub]]]; [left; exact H | right].
    exists (JS.toLowerCase c). split; [apply in_map; exact Hc |].
    apply orb_true_iff. rewrite !includes_Substring. exact Hsub.
Qed.

(** The loops of the two matchers, read declaratively. *)
Lemma fold_matchStep_dashboard (set required missing : list string) (count : Z) :
  fold_left (Dashboard.matchStep set) required (missing, count)
  = (missing ++ filter (fun r => negb (Dashboard.found set (JS.toLowerCase r))) required,
     (count + Z.of_nat (List.length
                          (filter (fun r => Dashboard.found set (JS.toLowerCase r)) required)))%Z).
Proof.
  revert missing count. induction required as [| r required IH]; intros missing count.
  - cbn. rewrite app_nil_r, Z.add_0_r. reflexivity.
  - cbn [fold_left filter]. unfold Dashboard.matchStep at 2.
    destruct (Dashboard.found set (JS.toLowerCase r)); rewrite IH; cbn [negb List.length].
    + f_equal. lia.
    + rewrite <- app_assoc. reflexivity.
Qed.

Lemma fold_matchStep_bulk (set required missing : list string) (count : Z) :
  fold_left (GeminiService.matchStep set) required (missing, count)
  = (missing ++ map GeminiService.capitalize
                  (filter (fun r => negb (GeminiService.found set r)) required),
     (count + Z.of_nat (List.length (filter (GeminiService.found set) required)))%Z).
Proof.
  revert missing count. induction required as [| r required IH]; intros missing count.
  - cbn. rewrite app_nil_r, Z.add_0_r. reflexivity.
  - cbn [fold_left filter]. unfold GeminiService.matchStep at 2.
    destruct (GeminiService.found set r); rewrite IH; cbn [negb List.length map].
    + f_equal. lia.
    + rewrite <- app_assoc. reflexivity.
Qed.

Lemma dynamicStats_missing (student : Types.StudentProfile) (roleDef : Types.RoleDefinition) :
  Dashboard.missing (Dashboard.dynamicStats student roleDef)
  = filter (fun r => negb (Spec.satisfied (Types.rawSkills student) r))
      (Types.requiredSkills roleDef).
Proof.
  unfold Dashboard.dynamicStats. rewrite fold_matchStep_dashboard. cbn [Dashboard.missing app].
  apply filter_ext. intros r. rewrite found_satisfied. reflexivity.
Qed.






End Satisfied.

(** ** The tokenizer *)

Section Tokenizer.

Import Dashboard.

Lemma split_cons (sep : ascii -> bool) (s : string) :
  exists piece rest, JS.split sep s = piece :: rest.
Proof.
  destruct s as [| c s]; cbn; [eauto |].
  destruct (sep c); [eauto |]. destruct (JS.split sep s); eauto.
Qed.

Lemma split_length (sep : ascii -> bool) (s : string) :
  List.length (JS.split sep s) = S (List.length (filter sep (list_ascii_of_string s))).
Proof.
  induction s as [| c s IH]; cbn; [reflexivity |].
  destruct (split_cons sep s) as [piece [rest Hs]]. rewrite Hs in *.
  destruct (sep c); cbn in *; lia.
Qed.

Lemma split_pieces (sep : ascii -> bool) (s : string) :
  Forall (fun piece => JS.anyChar sep piece = false) (JS.split sep s).
Proof.
  induction s as [| c s IH]; cbn.
  - constructor; [reflexivity | constructor].
  - destruct (sep c) eqn:Hc.
    + constructor; [reflexivity | exact IH].
    + destruct (JS.split sep s) as [| piece rest].
      * constructor; [cbn; rewrite Hc; reflexivity | constructor].
      * inversion IH as [| ? ? Hp Hr]; subst. constructor; [| exact Hr].
        cbn. rewrite Hc. exact Hp.
Qed.

Lemma removeAll_clean (cls : ascii -> bool) (s : string) :
  JS.anyChar cls (JS.removeAll cls s) = false.
Proof.
  induction s as [| c s IH]; cbn; [reflexivity |].
  destruct (cls c) eqn:Hc; [exact IH |]. cbn. rewrite Hc. exact IH.
Qed.

Lemma removeAll_none (cls : ascii -> bool) (s : string) :
  JS.anyChar cls s = false -> JS.removeAll cls s = s.
Proof.
  induction s as [| c s IH]; cbn; [reflexivity |].
  intros H. apply orb_false_iff in H. destruct H as [Hc Hs].
  rewrite Hc, (IH Hs). reflexivity.
Qed.

Lemma removeAll_dropQuotesStart (s : string) :
  JS.removeAll isQuote (Spec.dropQuotesStart s) = JS.removeAll isQuote s.
Proof.
  induction s as [| c s IH]; cbn; [reflexivity |].
  destruct (isQuote c) eqn:Hc; [exact IH |]. cbn. rewrite Hc. reflexivity.
Qed.

Lemma removeAll_dropQuotesEnd (s : string) :
  JS.removeAll isQuote (Spec.dropQuotesEnd s) = JS.removeAll isQuote s.
Proof.
  induction s as [| c s IH]; cbn [Spec.dropQuotesEnd]; [reflexivity |].
  destruct (Spec.dropQuotesEnd s) as [| c' s'].
  - cbn [JS.removeAll] in *. rewrite <- IH.
    destruct (isQuote c) eqn:Hc; cbn; [| rewrite Hc]; reflexivity.
  - cbn [JS.removeAll] in *. rewrite <- IH. reflexivity.
Qed.

Lemma removeAll_stripEnclosingQuotes (s : string) :
  JS.removeAll isQuote (Spec.stripEnclosingQuotes s) = JS.removeAll isQuote s.
Proof.
  unfold Spec.stripEnclosingQuotes.
  rewrite removeAll_dropQuotesEnd, removeAll_dropQuotesStart. reflexivity.
Qed.

(** C9, as the code has it: the value is cut at every comma and semicolon,
    each piece is trimmed, and every quote character of the piece is deleted,
    interior ones too: a token of the code is the token of the
    specification without its quote characters, and is that token when only
    enclosing quotes were there. A token is admitted when it is longer than
    one character and does not convert to a number other than zero. *)
Theorem tokensOf_deletes_every_quote (valueStr : string) :
  List.length (tokensOf valueStr)
  = S (List.length (filter isSeparator (list_ascii_of_string valueStr)))
  /\ Forall (fun piece => JS.anyChar isSeparator piece = false) (JS.split isSeparator valueStr)
  /\ tokensOf valueStr
     = map (fun piece => JS.removeAll isQuote (JS.trim piece)) (JS.split isSeparator valueStr)
  /\ tokensOf valueStr = map (JS.removeAll isQuote) (Spec.tokensOf valueStr)
  /\ Forall (fun t => JS.anyChar isQuote t = false) (tokensOf valueStr)
  /\ Forall2 (fun t st => JS.anyChar isQuote st = false -> t = st)
       (tokensOf valueStr) (Spec.tokensOf valueStr)
  /\ (forall t, admitted t = true
                <-> (1 < String.length t)%nat /\ JS.NumberOf t <> JS.IsNonZero).
Proof.
  assert (Hmap : tokensOf valueStr = map (JS.removeAll isQuote) (Spec.tokensOf valueStr)).
  { unfold tokensOf, Spec.tokensOf. rewrite map_map. apply map_ext.
    intros piece. rewrite removeAll_stripEnclosingQuotes. reflexivity. }
  split; [| split; [| split; [| split; [| split; [| split]]]]].
  - unfold tokensOf. rewrite length_map. apply split_length.
  - apply split_pieces.
  - reflexivity.
  - exact Hmap.
  - unfold tokensOf. apply Forall_map. apply Forall_forall. intros piece _.
    apply removeAll_clean.
  - rewrite Hmap. clear Hmap.
    induction (Spec.tokensOf valueStr) as [| st l IH]; cbn; constructor.
    + intros Hclean. apply removeAll_none. exact Hclean.
    + exact IH.
  - intros t. unfold admitted, JS.notNumber. rewrite andb_true_iff, Nat.ltb_lt.
    destruct (JS.NumberOf t); split; intros [H1 H2]; split; try assumption;
      try reflexivity; try discriminate; congruence.
Qed.

(** The tokenizer of the specification keeps an interior quote; the code
    deletes it. *)
Lemma tokensOf_deletes_interior_quote :
  tokensOf "O'Reilly, Python" = ["OReilly"; "Python"]
  /\ Spec.tokensOf "O'Reilly, Python" = ["O'Reilly"; "Python"]
  /\ tokensOf "O'Reilly, Python" <> Spec.tokensOf "O'Reilly, Python".
Proof. split; [reflexivity | split; [reflexivity | discriminate]]. Qed.

(** *** The shape of the admitted tokens *)

Lemma upperChar_idempotent (c : ascii) : JS.upperChar (JS.upperChar c) = JS.upperChar c.
Proof. destruct c as [[] [] [] [] [] [] [] []]; reflexivity. Qed.

Lemma lowerChar_idempotent (c : ascii) : JS.lowerChar (JS.lowerChar c) = JS.lowerChar c.
Proof. destruct c as [[] [] [] [] [] [] [] []]; reflexivity. Qed.

Lemma toLowerCase_idempotent (s : string) :
  JS.toLowerCase (JS.toLowerCase s) = JS.toLowerCase s.
Proof.
  induction s as [| c s IH]; cbn; [reflexivity |]. rewrite lowerChar_idempotent, IH. reflexivity.
Qed.

Lemma toLowerCase_length (s : string) : String.length (JS.toLowerCase s) = String.length s.
Proof. induction s as [| c s IH]; cbn; [reflexivity | rewrite IH; reflexivity]. Qed.

Lemma normalize_idempotent (t : string) : normalize (normalize t) = normalize t.
Proof.
  destruct t as [| c t]; [reflexivity |]. unfold normalize. cbn.
  rewrite upperChar_idempotent, toLowerCase_idempotent. reflexivity.
Qed.

Lemma normalize_length (t : string) : String.length (normalize t) = String.length t.
Proof.
  destruct t as [| c t]; [reflexivity |]. unfold normalize. cbn.
  rewrite toLowerCase_length. reflexivity.
Qed.

(** What does hold of every token of a skill set: it is the title-cased form
    of a token that is longer than one character and for which the test on
    [Number] succeeded, so it is itself longer than one character and in
    title case. *)
Lemma skills_token_shape (row : RawRow) (index : nat) (S : string) :
  In S (skills (normalizeRow row index)) ->
  (1 < String.length S)%nat
  /\ normalize S = S
  /\ exists t, S = normalize t /\ (1 < String.length t)%nat /\ JS.notNumber t = true.
Proof.
  intros H. apply has_In, has_skills_rowSkills in H.
  unfold Spec.rowSkills in H. apply in_flat_map in H. destruct H as [[key val] [_ H]].
  unfold Spec.cellSkills in H.
  match type of H with In _ (if ?b then _ else _) => destruct b end; [| contradiction].
  apply in_map_iff in H. destruct H as [t [<- Ht]].
  apply filter_In in Ht. destruct Ht as [_ Ht]. unfold admitted in Ht.
  apply andb_true_iff in Ht. destruct Ht as [Hlen Hnum]. apply Nat.ltb_lt in Hlen.
  split; [rewrite normalize_length; exact Hlen |].
  split; [apply normalize_idempotent |].
  exists t. auto.
Qed.

(** C7 on the code: the test on [Number] lets a numeral of value zero
    through, since zero is falsy like NaN. The token 00 converts to the
    number 0 and is admitted into the skill set, while 12 is not. *)
Theorem zero_numeral_is_admitted :
  skills (normalizeRow [("Skills", JS.VStr "00, Python, 12")] 0) = ["00"; "Python"]
  /\ JS.NumberOf "00" = JS.IsZero
  /\ admitted "00" = true
  /\ admitted "12" = false.
Proof. repeat split. Qed.

End Tokenizer.

(** ** The two matchers: missing skills and score *)

Section Matchers.

Lemma add_length (x : string) (set : list string) :
  (List.length (JS.add x set) <= S (List.length set))%nat.
Proof. unfold JS.add. destruct (JS.has set x); [lia |]. rewrite length_app. cbn. lia. Qed.

Lemma addAll_length (tokens set : list string) :
  (List.length (Spec.addAll tokens set) <= List.length set + List.length tokens)%nat.
Proof.
  revert set. induction tokens as [| t tokens IH]; intros set; cbn; [lia |].
  unfold Spec.addAll in *. pose proof (IH (JS.add t set)). pose proof (add_length t set). lia.
Qed.

Lemma newSet_length (xs : list string) : (List.length (JS.newSet xs) <= List.length xs)%nat.
Proof. rewrite newSet_addAll. pose proof (addAll_length xs []). cbn in *. lia. Qed.

Lemma add_NoDup (x : string) (set : list string) : NoDup set -> NoDup (JS.add x set).
Proof.
  intros Hnd. unfold JS.add. destruct (JS.has set x) eqn:Hhas; [exact Hnd |].
  apply NoDup_app; [exact Hnd | constructor; [intros [] | constructor] |].
  intros a Ha [<- | []]. apply has_In in Ha. congruence.
Qed.

Lemma newSet_NoDup (xs : list string) : NoDup (JS.newSet xs).
Proof.
  rewrite newSet_addAll. unfold Spec.addAll.
  assert (H : forall set, NoDup set -> NoDup (fold_left (fun acc x => JS.add x acc) xs set)).
  { induction xs as [| x xs IH]; intros set Hset; cbn; [exact Hset |].
    apply IH, add_NoDup, Hset. }
  apply H. constructor.
Qed.

(** A case-folded required skill is searched as it stands. *)
Lemma found_folded (candidates required : list string) (r : string) :
  In r (JS.newSet (map JS.toLowerCase required)) ->
  GeminiService.found (JS.newSet (map JS.toLowerCase candidates)) r
  = Spec.satisfied candidates r.
Proof.
  intros H. apply In_newSet, in_map_iff in H. destruct H as [r0 [<- _]].
  rewrite found_same, <- found_satisfied, toLowerCase_idempotent. reflexivity.
Qed.

Lemma bulkMatch_unfold (candidates required : list string) :
  GeminiService.bulkMatch candidates required
  = (JS.percentage
       (Z.of_nat (List.length (filter (Spec.satisfied candidates)
                                 (JS.newSet (map JS.toLowerCase required)))))
       (Z.max 1 (Z.of_nat (List.length (JS.newSet (map JS.toLowerCase required))))),
     firstn 5 (Spec.missingSkills candidates (JS.newSet (map JS.toLowerCase required)))).
Proof.
  unfold GeminiService.bulkMatch. rewrite fold_matchStep_bulk. cbn [app Z.add].
  rewrite (filter_ext_in _ (Spec.satisfied candidates))
    by (intros r Hr; apply (found_folded candidates required r Hr)).
  rewrite (filter_ext_in (fun r => negb (GeminiService.found _ r))
             (fun r => negb (Spec.satisfied candidates r)))
    by (intros r Hr; rewrite (found_folded candidates required r Hr); reflexivity).
  unfold Spec.missingSkills. f_equal. f_equal.
  destruct (Z.of_nat (List.length (JS.newSet (map JS.toLowerCase required))) =? 0)%Z eqn:H0.
  - apply Z.eqb_eq in H0. lia.
  - apply Z.eqb_neq in H0. lia.
Qed.

Lemma dynamicStats_unfold (student : Types.StudentProfile) (roleDef : Types.RoleDefinition) :
  Dashboard.dynamicStats student roleDef
  = {| Dashboard.matchScore :=
         Spec.matchScore (Types.rawSkills student) (Types.requiredSkills roleDef);
       Dashboard.missing :=
         filter (fun r => negb (Spec.satisfied (Types.rawSkills student) r))
           (Types.requiredSkills roleDef) |}.
Proof.
  unfold Dashboard.dynamicStats. rewrite fold_matchStep_dashboard. cbn [app Z.add].
  unfold Spec.matchScore. f_equal.
  - rewrite (filter_ext _ (Spec.satisfied (Types.rawSkills student)))
      by (intros r; apply found_satisfied).
    f_equal.
    destruct (Z.of_nat (List.length (Types.requiredSkills roleDef)) =? 0)%Z eqn:H0.
    + apply Z.eqb_eq in H0. lia.
    + apply Z.eqb_neq in H0. lia.
  - apply filter_ext. intros r. rewrite found_satisfied. reflexivity.
Qed.

(** C4, as the code has it: the ad-hoc path returns every unsatisfied
    required skill, in the order of the list and exactly as it was given,
    without capitalising it; the bulk path works on the case-folded required
    skills without repetitions, so it returns the unsatisfied ones in the
    order of their first occurrence, in lower case but for a capitalised
    first letter, and no more than the first five. *)
Theorem missing_lists_of_both_matchers
    (student : Types.StudentProfile) (roleDef : Types.RoleDefinition) :
  Dashboard.missing (Dashboard.dynamicStats student roleDef)
  = filter (fun r => negb (Spec.satisfied (Types.rawSkills student) r))
      (Types.requiredSkills roleDef)
  /\ snd (GeminiService.bulkMatch (Types.rawSkills student) (Types.requiredSkills roleDef))
     = firstn 5 (map GeminiService.capitalize
                   (filter (fun r => negb (Spec.satisfied (Types.rawSkills student) r))
                      (JS.newSet (map JS.toLowerCase (Types.requiredSkills roleDef)))))
  /\ (List.length
        (snd (GeminiService.bulkMatch (Types.rawSkills student) (Types.requiredSkills roleDef)))
      <= 5)%nat
  /\ NoDup (JS.newSet (map JS.toLowerCase (Types.requiredSkills roleDef)))
  /\ (forall r, In r (JS.newSet (map JS.toLowerCase (Types.requiredSkills roleDef)))
                <-> exists r0, In r0 (Types.requiredSkills roleDef) /\ JS.toLowerCase r0 = r)
  /\ (Forall (fun r => GeminiService.capitalize r = r) (Types.requiredSkills roleDef) ->
      Dashboard.missing (Dashboard.dynamicStats student roleDef)
      = Spec.missingSkills (Types.rawSkills student) (Types.requiredSkills roleDef)).
Proof.
  rewrite dynamicStats_unfold, bulkMatch_unfold. cbn [Dashboard.missing snd].
  split; [reflexivity |]. split; [reflexivity |].
  split; [apply firstn_le_length |]. split; [apply newSet_NoDup |].
  split.
  - intros r. rewrite In_newSet, in_map_iff. split; intros [r0 [H1 H2]]; exists r0; auto.
  - intros Hcap. unfold Spec.missingSkills.
    induction (Types.requiredSkills roleDef) as [| r l IH]; [reflexivity |].
    inversion Hcap as [| ? ? Hr Hl]; subst. cbn [filter].
    destruct (negb (Spec.satisfied (Types.rawSkills student) r)); cbn [map];
      rewrite <- (IH Hl); [rewrite Hr |]; reflexivity.
Qed.

(** The missing lists of the specification are not those of the code: the
    ad-hoc path does not capitalise, the bulk path does not keep the casing. *)
Lemma missing_lists_casing :
  Dashboard.missing
    (Dashboard.dynamicStats
       {| Types.id := "S1"; Types.department := "CS"; Types.rawSkills := ["Java"];
          Types.matchScore := None; Types.missingSkills := [] |}
       {| Types.title := "Engineer"; Types.requiredSkills := ["python"; "JavaScript"; "SQL"] |})
  = ["python"; "SQL"]
  /\ snd (GeminiService.bulkMatch ["Java"] ["python"; "JavaScript"; "SQL"]) = ["Python"; "Sql"]
  /\ Spec.missingSkills ["Java"] ["python"; "JavaScript"; "SQL"] = ["Python"; "SQL"]
  /\ snd (GeminiService.bulkMatch ["Java"] ["python"; "JavaScript"; "SQL"])
     <> firstn 5 (Spec.missingSkills ["Java"] ["python"; "JavaScript"; "SQL"]).
Proof. split; [reflexivity | split; [reflexivity | split; [reflexivity | discriminate]]]. Qed.

End Matchers.

(** ** Binary64 rounding

    The percentage is computed by a division and a product on binary64
    floats. Their specification rounds a mantissa by shifting it to the
    exponent of the format and rounding to nearest, ties to even. Rounding
    never crosses a float: a value of at most a float [c * 2 ^ k] is rounded
    to at most that float. Hence a quotient of counts [m <= t] is at most 1,
    its product with 100 at most 100, and the rounded product at most 100. *)

Section Binary64.

Open Scope Z_scope.

(** The number of binary digits of a mantissa. *)
Lemma digits2_pos_bounds (p : positive) :
  2 ^ (Z.pos (digits2_pos p) - 1) <= Z.pos p < 2 ^ Z.pos (digits2_pos p).
Proof.
  induction p as [p IH | p IH |]; cbn [digits2_pos].
  - rewrite Pos2Z.inj_succ. change (Z.pos p~1) with (2 * Z.pos p + 1).
    replace (Z.succ (Z.pos (digits2_pos p)) - 1) with (Z.succ (Z.pos (digits2_pos p) - 1)) by lia.
    rewrite !Z.pow_succ_r by lia.
    destruct IH as [Hlo Hhi]. revert Hlo Hhi.
    generalize (2 ^ (Z.pos (digits2_pos p) - 1)) (2 ^ Z.pos (digits2_pos p)). intros; lia.
  - rewrite Pos2Z.inj_succ. change (Z.pos p~0) with (2 * Z.pos p).
    replace (Z.succ (Z.pos (digits2_pos p)) - 1) with (Z.succ (Z.pos (digits2_pos p) - 1)) by lia.
    rewrite !Z.pow_succ_r by lia.
    destruct IH as [Hlo Hhi]. revert Hlo Hhi.
    generalize (2 ^ (Z.pos (digits2_pos p) - 1)) (2 ^ Z.pos (digits2_pos p)). intros; lia.
  - cbn. lia.
Qed.

Lemma Zdigits2_le (m k : Z) :
  0 <= m -> 0 <= k -> m < 2 ^ k -> Zdigits2 m <= k.
Proof.
  intros Hm Hk Hlt. destruct m as [| p | p]; cbn [Zdigits2]; [lia | | lia].
  destruct (digits2_pos_bounds p) as [Hlo _].
  assert (H : 2 ^ (Z.pos (digits2_pos p) - 1) < 2 ^ k) by lia.
  apply Z.pow_lt_mono_r_iff in H; lia.
Qed.

(** Shifting a mantissa right by one bit keeps it below half the bound, and
    strictly so when a bit was lost. *)
Lemma shr_1_upper (mrs : shr_record) (U : Z) :
  0 <= shr_m mrs -> shr_m mrs <= 2 * U ->
  (shr_r mrs || shr_s mrs = true -> shr_m mrs < 2 * U) ->
  0 <= shr_m (shr_1 mrs) <= U
  /\ (shr_r (shr_1 mrs) || shr_s (shr_1 mrs) = true -> shr_m (shr_1 mrs) < U).
Proof.
  destruct mrs as [m r s]. cbn [shr_m shr_r shr_s]. intros H0 HU Hin.
  destruct m as [| [p | p |] | p]; cbn [shr_1 shr_m shr_r shr_s]; try lia;
    try change (Z.pos p~1) with (2 * Z.pos p + 1) in *;
    try change (Z.pos p~0) with (2 * Z.pos p) in *;
    (split; [lia |]); cbn [orb]; intros H; try specialize (Hin H); lia.
Qed.

Lemma iter_shr_1_upper (n : positive) : forall (mrs : shr_record) (U : Z),
  0 <= shr_m mrs -> shr_m mrs <= U * 2 ^ Z.pos n ->
  (shr_r mrs || shr_s mrs = true -> shr_m mrs < U * 2 ^ Z.pos n) ->
  0 <= shr_m (iter_pos shr_1 n mrs) <= U
  /\ (shr_r (iter_pos shr_1 n mrs) || shr_s (iter_pos shr_1 n mrs) = true ->
      shr_m (iter_pos shr_1 n mrs) < U).
Proof.
  induction n as [n IH | n IH |]; intros mrs U H0 HU Hin; cbn [iter_pos].
  - change (Z.pos n~1) with (2 * Z.pos n + 1) in HU, Hin.
    replace (2 * Z.pos n + 1) with (Z.succ (Z.pos n + Z.pos n)) in HU, Hin by lia.
    rewrite Z.pow_succ_r, Z.pow_add_r in HU, Hin by lia.
    destruct (shr_1_upper mrs (U * 2 ^ Z.pos n * 2 ^ Z.pos n)) as [[Ha Hb] Hc];
      [lia | lia | intros H; specialize (Hin H); lia |].
    destruct (IH (shr_1 mrs) (U * 2 ^ Z.pos n)) as [[Hd He] Hf]; [lia | lia | exact Hc |].
    apply IH; [lia | lia | exact Hf].
  - change (Z.pos n~0) with (2 * Z.pos n) in HU, Hin.
    replace (2 * Z.pos n) with (Z.pos n + Z.pos n) in HU, Hin by lia.
    rewrite Z.pow_add_r in HU, Hin by lia.
    destruct (IH mrs (U * 2 ^ Z.pos n)) as [[Hd He] Hf];
      [lia | lia | intros H; specialize (Hin H); lia |].
    apply IH; [lia | lia | exact Hf].
  - apply shr_1_upper; [lia | lia | intros H; specialize (Hin H); lia].
Qed.


Lemma shr_upper (mrs : shr_record) (e n c k : Z) :
  0 <= shr_m mrs -> e <= k -> e + n <= k ->
  shr_m mrs <= c * 2 ^ (k - e) ->
  (shr_r mrs || shr_s mrs = true -> shr_m mrs < c * 2 ^ (k - e)) ->
  let mrs' := fst (shr mrs e n) in
  let e' := snd (shr mrs e n) in
  e <= e' <= k
  /\ 0 <= shr_m mrs' <= c * 2 ^ (k - e')
  /\ (shr_r mrs' || shr_s mrs' = true -> shr_m mrs' < c * 2 ^ (k - e')).
Proof.
  intros H0 Hek Hnk HU Hin. destruct n as [| p | p]; cbn [shr fst snd].
  - split; [lia |]. split; [lia | exact Hin].
  - assert (Hsplit : c * 2 ^ (k - e) = c * 2 ^ (k - (e + Z.pos p)) * 2 ^ Z.pos p).
    { rewrite <- Z.mul_assoc, <- Z.pow_add_r by lia. f_equal. f_equal. lia. }
    rewrite Hsplit in HU, Hin. split; [lia |].
    apply iter_shr_1_upper; assumption.
  - split; [lia |]. split; [lia | exact Hin].
Qed.

(** The exponent chosen for a mantissa below [c * 2 ^ (k - e)], where [c]
    has at most 53 bits, is at most [k]. *)
Lemma fexp_upper (m e c k : Z) :
  0 <= m -> e <= k -> 0 < c < 2 ^ 53 -> -1074 <= k ->
  m <= c * 2 ^ (k - e) ->
  fexp prec emax (Zdigits2 m + e) <= k.
Proof.
  intros H0 Hek Hc Hk HU. unfold fexp, emin, prec, emax.
  assert (Hd : Zdigits2 m <= 53 + (k - e)).
  { apply Zdigits2_le; [lia | lia |].
    rewrite Z.pow_add_r by lia.
    assert (0 < 2 ^ (k - e)) by (apply Z.pow_pos_nonneg; lia). nia. }
  lia.
Qed.

Lemma shr_record_of_loc_m (m : Z) (l : location) : shr_m (shr_record_of_loc m l) = m.
Proof. destruct l as [| []]; reflexivity. Qed.

Lemma shr_record_of_loc_inexact (m : Z) (l : location) :
  shr_r (shr_record_of_loc m l) || shr_s (shr_record_of_loc m l) = true -> l <> loc_Exact.
Proof. destruct l as [| []]; cbn; congruence. Qed.

Lemma shr_fexp_upper (m e c k : Z) (l : location) :
  0 <= m -> e <= k -> 0 < c < 2 ^ 53 -> -1074 <= k ->
  m <= c * 2 ^ (k - e) ->
  (l <> loc_Exact -> m < c * 2 ^ (k - e)) ->
  let mrs' := fst (shr_fexp prec emax m e l) in
  let e' := snd (shr_fexp prec emax m e l) in
  e <= e' <= k
  /\ 0 <= shr_m mrs' <= c * 2 ^ (k - e')
  /\ (shr_r mrs' || shr_s mrs' = true -> shr_m mrs' < c * 2 ^ (k - e')).
Proof.
  intros H0 Hek Hc Hk HU Hin. unfold shr_fexp.
  pose proof (fexp_upper m e c k H0 Hek Hc Hk HU) as Hf.
  apply shr_upper.
  - rewrite shr_record_of_loc_m. exact H0.
  - exact Hek.
  - lia.
  - rewrite shr_record_of_loc_m. exact HU.
  - intros H. rewrite shr_record_of_loc_m. apply Hin.
    exact (shr_record_of_loc_inexact m l H).
Qed.

Lemma round_nearest_even_upper (mrs : shr_record) (U : Z) :
  0 <= shr_m mrs <= U ->
  (shr_r mrs || shr_s mrs = true -> shr_m mrs < U) ->
  0 <= round_nearest_even (shr_m mrs) (loc_of_shr_record mrs) <= U.
Proof.
  destruct mrs as [m [|] [|]]; cbn [shr_m shr_r shr_s loc_of_shr_record round_nearest_even orb];
    intros Hm Hin; try (specialize (Hin eq_refl)); try destruct (Z.even m); lia.
Qed.

(** Rounding never crosses a representable bound: a value of at most
    [c * 2 ^ k], where [c] has at most 53 bits, is rounded to zero or to a
    finite float of at most [c * 2 ^ k]. *)
Lemma binary_round_aux_upper (sx : bool) (mx ex c k : Z) (lx : location) :
  0 <= mx -> ex <= k -> 0 < c < 2 ^ 53 -> -1074 <= k <= 971 ->
  mx <= c * 2 ^ (k - ex) ->
  (lx <> loc_Exact -> mx < c * 2 ^ (k - ex)) ->
  binary_round_aux prec emax sx mx ex lx = S754_zero sx
  \/ exists m e, binary_round_aux prec emax sx mx ex lx = S754_finite sx m e
                 /\ e <= k /\ Z.pos m <= c * 2 ^ (k - e).
Proof.
  intros H0 Hek Hc Hk HU Hin. unfold binary_round_aux.
  destruct (shr_fexp_upper mx ex c k lx H0 Hek Hc ltac:(lia) HU Hin) as [He1 [Hm1 Hin1]].
  destruct (shr_fexp prec emax mx ex lx) as [mrs1 e1]. cbn [fst snd] in He1, Hm1, Hin1.
  pose proof (round_nearest_even_upper mrs1 _ Hm1 Hin1) as Hr.
  set (m1 := round_nearest_even (shr_m mrs1) (loc_of_shr_record mrs1)) in *.
  destruct (shr_fexp_upper m1 e1 c k loc_Exact ltac:(lia) ltac:(lia) Hc ltac:(lia) ltac:(lia)
              ltac:(congruence)) as [He2 [Hm2 _]].
  destruct (shr_fexp prec emax m1 e1 loc_Exact) as [mrs2 e2]. cbn [fst snd] in He2, Hm2.
  destruct (shr_m mrs2) as [| p | p] eqn:Hp.
  - left. reflexivity.
  - right. exists p, e2.
    assert (Hle : (e2 <=? emax - prec) = true) by (apply Z.leb_le; unfold emax, prec; lia).
    rewrite Hle. repeat split; lia.
  - lia.
Qed.


Lemma binary_round_aux_canonical (s : bool) (m : positive) (e : Z) :
  fexp prec emax (Z.pos (digits2_pos m) + e) = e -> e <= 971 ->
  binary_round_aux prec emax s (Z.pos m) e loc_Exact = S754_finite s m e.
Proof.
  intros Hc He. unfold binary_round_aux, shr_fexp. cbn [Zdigits2].
  rewrite Hc, Z.sub_diag.
  cbn [shr shr_record_of_loc shr_m loc_of_shr_record round_nearest_even Zdigits2].
  rewrite Hc, Z.sub_diag. cbn [shr shr_record_of_loc shr_m].
  assert (Hle : (e <=? emax - prec) = true) by (apply Z.leb_le; unfold emax, prec; lia).
  rewrite Hle. reflexivity.
Qed.

Lemma iter_xO (p q : positive) :
  Z.pos (Pos.iter xO p q) = Z.pos p * 2 ^ Z.pos q
  /\ Z.pos (digits2_pos (Pos.iter xO p q)) = Z.pos (digits2_pos p) + Z.pos q.
Proof.
  induction q as [| q [IH1 IH2]] using Pos.peano_ind.
  - cbn [Pos.iter digits2_pos]. rewrite Pos2Z.inj_succ.
    change (Z.pos p~0) with (2 * Z.pos p). rewrite Z.pow_1_r. lia.
  - rewrite Pos.iter_succ. cbn [digits2_pos]. rewrite !Pos2Z.inj_succ, IH2.
    change (Z.pos (Pos.iter xO p q)~0) with (2 * Z.pos (Pos.iter xO p q)).
    rewrite IH1, Z.pow_succ_r by lia. lia.
Qed.

(** A count below [2 ^ 53] is converted exactly, to a normal float. *)
Lemma toNumber_positive (n : Z) :
  1 <= n < 2 ^ 53 ->
  exists m e, Prim2SF (JS.toNumber n) = S754_finite false m e
              /\ -52 <= e <= 0 /\ Z.pos m = n * 2 ^ (- e)
              /\ Z.pos (digits2_pos m) = 53.
Proof.
  intros Hn. unfold JS.toNumber.
  assert (HwB : 2 ^ 53 < wB) by reflexivity.
  rewrite of_uint63_spec, of_Z_spec, Z.mod_small by lia.
  destruct n as [| p | p]; try lia. cbn [binary_normalize]. unfold binary_round, shl_align.
  assert (Hd : 1 <= Z.pos (digits2_pos p) <= 53).
  { split; [lia |]. apply (Zdigits2_le (Z.pos p)); lia. }
  assert (Hf : fexp prec emax (Z.pos (digits2_pos p) + 0) = Z.pos (digits2_pos p) - 53).
  { unfold fexp, emin, prec, emax. lia. }
  rewrite Hf.
  destruct (Z.pos (digits2_pos p) - 53 - 0) as [| q | q] eqn:Hq; try lia.
  - exists p, 0. rewrite binary_round_aux_canonical; [| rewrite Hf; lia | lia].
    repeat split; lia.
  - destruct (iter_xO p q) as [Hv Hdq].
    exists (Pos.iter xO p q), (Z.pos (digits2_pos p) - 53).
    rewrite binary_round_aux_canonical; [| | lia].
    + repeat split; try lia. rewrite Hv. f_equal. f_equal. lia.
    + unfold fexp, emin, prec, emax. lia.
Qed.

Lemma new_location_inexact (nb_steps k : Z) :
  new_location nb_steps k <> loc_Exact -> k <> 0.
Proof.
  intros H Hk. subst k. apply H. unfold new_location, new_location_even, new_location_odd.
  destruct (Z.even nb_steps); reflexivity.
Qed.

(** The quotient of two converted counts [m <= t] is at most one. *)
Lemma SFdiv_upper (mx my : positive) (ex ey m t : Z) :
  -52 <= ex <= 0 -> -52 <= ey <= 0 ->
  Z.pos mx = m * 2 ^ (- ex) -> Z.pos my = t * 2 ^ (- ey) ->
  Z.pos (digits2_pos mx) = 53 -> Z.pos (digits2_pos my) = 53 ->
  m <= t ->
  SFdiv prec emax (S754_finite false mx ex) (S754_finite false my ey) = S754_zero false
  \/ exists mq eq,
       SFdiv prec emax (S754_finite false mx ex) (S754_finite false my ey)
       = S754_finite false mq eq
       /\ eq <= 0 /\ Z.pos mq <= 1 * 2 ^ (0 - eq).
Proof.
  intros Hex Hey Hmx Hmy Hdx Hdy Hmt.
  unfold SFdiv, SFdiv_core_binary. cbn [Zdigits2 xorb]. rewrite Hdx, Hdy.
  assert (He : Z.min (fexp prec emax (53 + ex - (53 + ey))) (ex - ey) = ex - ey - 53).
  { unfold fexp, emin, prec, emax. lia. }
  rewrite He. replace (ex - ey - (ex - ey - 53)) with 53 by lia.
  cbv beta iota. rewrite Z.shiftl_mul_pow2 by lia.
  pose proof (Z_div_mod (Z.pos mx * 2 ^ 53) (Z.pos my) ltac:(lia)) as Hdiv.
  destruct (Z.div_eucl (Z.pos mx * 2 ^ 53) (Z.pos my)) as [q r].
  destruct Hdiv as [Hqr Hr].
  assert (HP : 0 < 2 ^ (53 - ex)) by (apply Z.pow_pos_nonneg; lia).
  assert (Ha : Z.pos mx * 2 ^ 53 = m * 2 ^ (53 - ex)).
  { rewrite Hmx, <- Z.mul_assoc, <- Z.pow_add_r by lia. f_equal. f_equal. lia. }
  assert (Hb : Z.pos my * (1 * 2 ^ (0 - (ex - ey - 53))) = t * 2 ^ (53 - ex)).
  { rewrite Hmy, Z.mul_1_l, <- Z.mul_assoc, <- Z.pow_add_r by lia. f_equal. f_equal. lia. }
  assert (Hq0 : 0 <= q) by nia.
  apply binary_round_aux_upper; try lia.
  - nia.
  - intros Hl. apply new_location_inexact in Hl. nia.
Qed.

(** The product of a float of at most one with [100] is at most [100]. *)
Lemma SFmul_100_upper (mq : positive) (eq : Z) :
  eq <= 0 -> Z.pos mq <= 1 * 2 ^ (0 - eq) ->
  SFmul prec emax (S754_finite false mq eq) (S754_finite false 7036874417766400 (-46))
  = S754_zero false
  \/ exists m e,
       SFmul prec emax (S754_finite false mq eq) (S754_finite false 7036874417766400 (-46))
       = S754_finite false m e
       /\ e <= 2 /\ Z.pos m <= 25 * 2 ^ (2 - e).
Proof.
  intros He Hm. unfold SFmul. cbn [xorb].
  apply binary_round_aux_upper; try lia; [| congruence].
  rewrite Pos2Z.inj_mul.
  replace (2 - (eq + -46)) with (48 + (0 - eq)) by lia.
  rewrite Z.pow_add_r by lia.
  change (Z.pos 7036874417766400) with (25 * 2 ^ 48).
  assert (0 < 2 ^ 48) by reflexivity. nia.
Qed.

Lemma Math_round_upper (x : float) (m : positive) (e : Z) :
  Prim2SF x = S754_finite false m e -> e <= 2 -> Z.pos m <= 25 * 2 ^ (2 - e) ->
  0 <= JS.Math_round x <= 100.
Proof.
  intros Hx He Hm. unfold JS.Math_round. rewrite Hx.
  destruct (0 <=? e) eqn:H0.
  - apply Z.leb_le in H0.
    assert (Hp : 2 ^ (2 - e) * 2 ^ e = 4).
    { rewrite <- Z.pow_add_r by lia. replace (2 - e + e) with 2 by lia. reflexivity. }
    assert (0 < 2 ^ e) by (apply Z.pow_pos_nonneg; lia).
    assert (0 < 2 ^ (2 - e)) by (apply Z.pow_pos_nonneg; lia). nia.
  - apply Z.leb_gt in H0.
    assert (HP : 0 < 2 ^ (- e)) by (apply Z.pow_pos_nonneg; lia).
    assert (H1 : 2 ^ (1 - e) = 2 * 2 ^ (- e)).
    { replace (1 - e) with (Z.succ (- e)) by lia. apply Z.pow_succ_r. lia. }
    assert (H2 : 2 ^ (2 - e) = 4 * 2 ^ (- e)).
    { replace (2 - e) with (2 + - e) by lia. rewrite Z.pow_add_r by lia. reflexivity. }
    rewrite H1. rewrite H2 in Hm. split.
    + apply Z.div_pos; lia.
    + assert (Hlt : (2 * Z.pos m + 2 ^ (- e)) / (2 * 2 ^ (- e)) < 101)
        by (apply Z.div_lt_upper_bound; lia).
      lia.
Qed.

(** [Math.round((m / t) * 100)] lies between 0 and 100 whenever
    [0 <= m <= t], for every positive [t] that a count can be, and is 0 for
    [m = 0]. *)
Lemma percentage_bounded (m t : Z) :
  1 <= t < 2 ^ 53 -> 0 <= m <= t ->
  0 <= JS.percentage m t <= 100 /\ (m = 0 -> JS.percentage m t = 0).
Proof.
  intros Ht Hm.
  assert (H100 : Prim2SF (JS.toNumber 100) = S754_finite false 7036874417766400 (-46))
    by (vm_compute; reflexivity).
  assert (H0 : Prim2SF (JS.toNumber 0) = S754_zero false) by (vm_compute; reflexivity).
  destruct (toNumber_positive t Ht) as [my [ey [Hty [Hey [Hmy Hdy]]]]].
  assert (Hzero : JS.percentage 0 t = 0).
  { unfold JS.percentage, JS.Math_round.
    rewrite FloatAxioms.mul_spec, FloatAxioms.div_spec, H100, H0, Hty. reflexivity. }
  destruct (Z.eq_dec m 0) as [-> | Hm0]; [rewrite Hzero; lia |].
  split; [| lia].
  destruct (toNumber_positive m ltac:(lia)) as [mx [ex [Htx [Hex [Hmx Hdx]]]]].
  destruct (SFdiv_upper mx my ex ey m t Hex Hey Hmx Hmy Hdx Hdy ltac:(lia))
    as [Hq | [mq [eq [Hq [Heq Hmq]]]]].
  - unfold JS.percentage, JS.Math_round.
    rewrite FloatAxioms.mul_spec, FloatAxioms.div_spec, H100, Htx, Hty.
    unfold SF64div. rewrite Hq. cbn. lia.
  - destruct (SFmul_100_upper mq eq Heq Hmq) as [Hp | [mp [ep [Hp [Hep Hmp]]]]].
    + unfold JS.percentage, JS.Math_round.
      rewrite FloatAxioms.mul_spec, FloatAxioms.div_spec, H100, Htx, Hty.
      unfold SF64div, SF64mul. rewrite Hq, Hp. lia.
    + apply (Math_round_upper _ mp ep); [| exact Hep | exact Hmp].
      rewrite FloatAxioms.mul_spec, FloatAxioms.div_spec, H100, Htx, Hty.
      unfold SF64div, SF64mul. rewrite Hq. exact Hp.
Qed.

(** No match scores 0 whatever the total: the quotient of zero is a zero,
    or not a number, and so is its product with 100. *)
Lemma percentage_zero (t : Z) : JS.percentage 0 t = 0.
Proof.
  assert (H100 : Prim2SF (JS.toNumber 100) = S754_finite false 7036874417766400 (-46))
    by (vm_compute; reflexivity).
  assert (H0 : Prim2SF (JS.toNumber 0) = S754_zero false) by (vm_compute; reflexivity).
  unfold JS.percentage, JS.Math_round.
  rewrite FloatAxioms.mul_spec, FloatAxioms.div_spec, H100, H0.
  destruct (Prim2SF (JS.toNumber t)) as [s | s | | s m e]; reflexivity.
Qed.

End Binary64.

(** ** The score *)

Section Score.

Lemma scoreChecks_sound (check : Z -> Z -> bool) (n : nat) :
  Spec.scoreChecks check n = true ->
  forall m t : Z, (1 <= t <= Z.of_nat n)%Z -> (0 <= m <= t)%Z -> check m t = true.
Proof.
  unfold Spec.scoreChecks. intros H m t Ht Hm.
  rewrite forallb_forall in H. specialize (H (Z.to_nat t)).
  rewrite forallb_forall in H. specialize (H ltac:(apply in_seq; lia) (Z.to_nat m)).
  rewrite !Z2Nat.id in H by lia. apply H. apply in_seq. lia.
Qed.

Lemma percentage_inRange_checked : Spec.scoreChecks Spec.inRange Spec.checkedLength = true.
Proof. vm_compute. reflexivity. Qed.

Lemma percentage_isExact_checked : Spec.scoreChecks Spec.isExact Spec.exactLength = true.
Proof. vm_compute. reflexivity. Qed.

Lemma percentage_inRange (m t : Z) :
  (1 <= t <= Z.of_nat Spec.checkedLength)%Z -> (0 <= m <= t)%Z ->
  (0 <= JS.percentage m t <= 100)%Z
  /\ (m = 0%Z -> JS.percentage m t = 0%Z)
  /\ (m = t -> JS.percentage m t = 100%Z).
Proof.
  intros Ht Hm.
  pose proof (scoreChecks_sound _ _ percentage_inRange_checked m t Ht Hm) as H.
  unfold Spec.inRange in H. cbv zeta in H.
  apply andb_true_iff in H. destruct H as [H H100].
  apply andb_true_iff in H. destruct H as [H H0].
  apply andb_true_iff in H. destruct H as [Hlo Hhi].
  apply Z.leb_le in Hlo, Hhi. split; [lia |]. split.
  - intros ->. rewrite Z.eqb_refl in H0. apply Z.eqb_eq in H0. exact H0.
  - intros ->. rewrite Z.eqb_refl in H100. apply Z.eqb_eq in H100. exact H100.
Qed.

Lemma percentage_isExact (m t : Z) :
  (1 <= t <= Z.of_nat Spec.exactLength)%Z -> (0 <= m <= t)%Z ->
  JS.percentage m t = Spec.roundHalfUp m t.
Proof.
  intros Ht Hm.
  pose proof (scoreChecks_sound _ _ percentage_isExact_checked m t Ht Hm) as H.
  unfold Spec.isExact in H. apply Z.eqb_eq in H. exact H.
Qed.

(** On binary64 the percentage is not always the exact quotient rounded:
    23 of 40 is 57.5 exactly and the computed product lies just below it. *)
Lemma percentage_below_half :
  JS.percentage 23 40 = 57%Z /\ Spec.roundHalfUp 23 40 = 58%Z.
Proof. split; vm_compute; reflexivity. Qed.

Lemma satisfied_no_candidate (r : string) : Spec.satisfied [] r = false.
Proof. reflexivity. Qed.

Lemma filter_none (f : string -> bool) (l : list string) :
  (forall x, f x = false) -> filter f l = [].
Proof. intros H. induction l as [| x l IH]; cbn; [reflexivity |]. rewrite H. exact IH. Qed.

Lemma filter_all (f : string -> bool) (l : list string) :
  (forall x, f x = true) -> filter f l = l.
Proof. intros H. induction l as [| x l IH]; cbn; [reflexivity |]. rewrite H, IH. reflexivity. Qed.

(** The score on the required skills an array can hold. *)
Lemma matchScore_bounded (candidates required : list string) :
  (Z.of_nat (List.length required) <= JS.maxArrayLength)%Z ->
  (0 <= Spec.matchScore candidates required <= 100)%Z.
Proof.
  intros Hlen. unfold Spec.matchScore. unfold JS.maxArrayLength in Hlen.
  pose proof (filter_length_le (Spec.satisfied candidates) required) as Hle.
  assert (H32 : (2 ^ 32 - 1 < 2 ^ 53)%Z) by reflexivity.
  apply percentage_bounded; lia.
Qed.

Lemma matchScore_no_candidate (required : list string) : Spec.matchScore [] required = 0%Z.
Proof.
  unfold Spec.matchScore. rewrite filter_none by apply satisfied_no_candidate.
  apply percentage_zero.
Qed.

Lemma matchScore_exact (candidates required : list string) :
  (List.length required < 40)%nat ->
  Spec.matchScore candidates required
  = Spec.roundHalfUp
      (Z.of_nat (List.length (filter (Spec.satisfied candidates) required)))
      (Z.max 1 (Z.of_nat (List.length required))).
Proof.
  intros Hshort. unfold Spec.matchScore.
  pose proof (filter_length_le (Spec.satisfied candidates) required) as Hle.
  apply percentage_isExact; unfold Spec.exactLength; lia.
Qed.

(** C5, as the code has it. The ad-hoc path scores the required list as
    given: the matched count over the length of the list, at least 1, times
    100, rounded by [Math.round]. The bulk path scores the case-folded
    required skills without repetitions: both the matched count and the total
    are counts of distinct case-folded skills. The operations are binary64
    operations; for fewer than 40 required skills (distinct case-folded ones
    in the bulk path) the score is the exact quotient rounded, halves up.
    When nothing is required the score is 0 and nothing is missing. When the
    candidate has no skill the score is 0 and every required skill is missing
    (every distinct case-folded one, capitalised and cut to five, in the bulk
    path). For every list of required skills that an array can hold both
    scores are between 0 and 100. *)
Theorem matchScore_of_both_matchers
    (student : Types.StudentProfile) (roleDef : Types.RoleDefinition) :
  Dashboard.matchScore (Dashboard.dynamicStats student roleDef)
  = Spec.matchScore (Types.rawSkills student) (Types.requiredSkills roleDef)
  /\ fst (GeminiService.bulkMatch (Types.rawSkills student) (Types.requiredSkills roleDef))
     = Spec.matchScore (Types.rawSkills student)
         (JS.newSet (map JS.toLowerCase (Types.requiredSkills roleDef)))
  /\ ((List.length (Types.requiredSkills roleDef) < 40)%nat ->
      Dashboard.matchScore (Dashboard.dynamicStats student roleDef)
      = Spec.roundHalfUp
          (Z.of_nat (List.length (filter (Spec.satisfied (Types.rawSkills student))
                                    (Types.requiredSkills roleDef))))
          (Z.max 1 (Z.of_nat (List.length (Types.requiredSkills roleDef)))))
  /\ ((List.length (JS.newSet (map JS.toLowerCase (Types.requiredSkills roleDef))) < 40)%nat ->
      fst (GeminiService.bulkMatch (Types.rawSkills student) (Types.requiredSkills roleDef))
      = Spec.roundHalfUp
          (Z.of_nat (List.length
                       (filter (Spec.satisfied (Types.rawSkills student))
                          (JS.newSet (map JS.toLowerCase (Types.requiredSkills roleDef))))))
          (Z.max 1 (Z.of_nat (List.length
                                (JS.newSet (map JS.toLowerCase
                                              (Types.requiredSkills roleDef)))))))
  /\ (Types.requiredSkills roleDef = [] ->
      Dashboard.dynamicStats student roleDef
      = {| Dashboard.matchScore := 0; Dashboard.missing := [] |}
      /\ GeminiService.bulkMatch (Types.rawSkills student) (Types.requiredSkills roleDef)
         = (0%Z, []))
  /\ (Types.rawSkills student = [] ->
      Dashboard.dynamicStats student roleDef
      = {| Dashboard.matchScore := 0; Dashboard.missing := Types.requiredSkills roleDef |}
      /\ GeminiService.bulkMatch (Types.rawSkills student) (Types.requiredSkills roleDef)
         = (0%Z,
            firstn 5 (map GeminiService.capitalize
                        (JS.newSet (map JS.toLowerCase (Types.requiredSkills roleDef))))))
  /\ ((Z.of_nat (List.length (Types.requiredSkills roleDef)) <= JS.maxArrayLength)%Z ->
      (0 <= Dashboard.matchScore (Dashboard.dynamicStats student roleDef) <= 100)%Z
      /\ (0 <= fst (GeminiService.bulkMatch (Types.rawSkills student)
                      (Types.requiredSkills roleDef)) <= 100)%Z).
Proof.
  rewrite dynamicStats_unfold, bulkMatch_unfold.
  cbn [Dashboard.matchScore Dashboard.missing fst snd].
  set (candidates := Types.rawSkills student) in *.
  set (required := Types.requiredSkills roleDef) in *.
  fold (Spec.matchScore candidates (JS.newSet (map JS.toLowerCase required))).
  split; [reflexivity |]. split; [reflexivity |].
  split; [apply matchScore_exact |]. split; [apply matchScore_exact |].
  split; [| split].
  - intros Hnil. rewrite Hnil. split.
    + unfold Spec.matchScore. cbn [filter List.length Z.of_nat Z.max Z.compare].
      rewrite percentage_0_1. reflexivity.
    + change (JS.newSet (map JS.toLowerCase [])) with (@nil string).
      unfold Spec.matchScore, Spec.missingSkills.
      cbn [filter List.length Z.of_nat Z.max Z.compare map firstn].
      rewrite percentage_0_1. reflexivity.
  - intros Hnil. rewrite Hnil, !matchScore_no_candidate. unfold Spec.missingSkills.
    rewrite !filter_all by (intros r; reflexivity). split; reflexivity.
  - intros Harr.
    assert (Hset : (Z.of_nat (List.length (JS.newSet (map JS.toLowerCase required)))
                    <= JS.maxArrayLength)%Z).
    { pose proof (newSet_length (map JS.toLowerCase required)) as H.
      rewrite length_map in H. lia. }
    split; apply matchScore_bounded; assumption.
Qed.

Lemma matchScore_of_both_matchers_witness :
  (Z.of_nat (List.length ["Python"; "SQL"; "Java"]) <= JS.maxArrayLength)%Z
  /\ (0 <= Dashboard.matchScore
             (Dashboard.dynamicStats
                {| Types.id := "S1"; Types.department := "CS";
                   Types.rawSkills := ["Python"; "SQL"];
                   Types.matchScore := None; Types.missingSkills := [] |}
                {| Types.title := "Engineer";
                   Types.requiredSkills := ["Python"; "SQL"; "Java"] |}) <= 100)%Z.
Proof.
  assert (Harr : (Z.of_nat (List.length ["Python"; "SQL"; "Java"]) <= JS.maxArrayLength)%Z)
    by (vm_compute; discriminate).
  split.
  - exact Harr.
  - exact (proj1
             (proj2 (proj2 (proj2 (proj2 (proj2 (proj2
                (matchScore_of_both_matchers
                   {| Types.id := "S1"; Types.department := "CS";
                      Types.rawSkills := ["Python"; "SQL"];
                      Types.matchScore := None; Types.missingSkills := [] |}
                   {| Types.title := "Engineer";
                      Types.requiredSkills := ["Python"; "SQL"; "Java"] |}))))))
                Harr)).
Defined.

(** The score of the specification is not that of the bulk path: a required
    skill listed in two casings is one skill there. *)
Lemma bulk_score_counts_distinct_skills :
  fst (GeminiService.bulkMatch ["Python"] ["Python"; "python"; "Java"]) = 50%Z
  /\ Spec.matchScore ["Python"] ["Python"; "python"; "Java"] = 67%Z
  /\ Spec.roundHalfUp 2 3 = 67%Z
  /\ fst (GeminiService.bulkMatch ["Python"] ["Python"; "python"; "Java"])
     <> Spec.matchScore ["Python"] ["Python"; "python"; "Java"].
Proof.
  split; [vm_compute; reflexivity |]. split; [vm_compute; reflexivity |].
  split; [vm_compute; reflexivity |]. vm_compute. discriminate.
Qed.

End Score.


(** * Further properties of the code *)

(** ** The upload pass as a whole *)

Section UploadPass.

Import Dashboard.

Lemma indexed_length (rows : list RawRow) (index : nat) :
  List.length (Spec.indexed index rows) = List.length rows.
Proof.
  revert index. induction rows as [| row rows IH]; intros index; cbn; [reflexivity |].
  rewrite IH. reflexivity.
Qed.

Lemma processAndUpload_students (rawData : list RawRow) (elapsed : Z) :
  rawStudents (processAndUpload rawData elapsed)
  = map (fun p => normalizeRow (snd p) (fst p)) (Spec.indexed 0 rawData).
Proof. unfold processAndUpload. cbn [rawStudents]. rewrite forEachRow_students. reflexivity. Qed.

(** X1: the pass pushes one record per row, rows without keys included, in
    the order of the rows; the record of a row is what the row gives alone
    at its position, whatever the other rows hold. *)
Theorem one_record_per_row (rawData : list RawRow) (elapsed : Z) :
  List.length (rawStudents (processAndUpload rawData elapsed)) = List.length rawData
  /\ (forall k,
        nth_error (rawStudents (processAndUpload rawData elapsed)) k
        = option_map (fun row => normalizeRow row k) (nth_error rawData k))
  /\ (forall k row others,
        nth_error rawData k = Some row ->
        nth_error others k = Some row ->
        nth_error (rawStudents (processAndUpload rawData elapsed)) k
        = nth_error (rawStudents (processAndUpload others elapsed)) k).
Proof.
  assert (Hnth : forall data k,
             nth_error (rawStudents (processAndUpload data elapsed)) k
             = option_map (fun row => normalizeRow row k) (nth_error data k)).
  { intros data k. rewrite processAndUpload_students, nth_error_map, nth_error_indexed.
    destruct (nth_error data k); reflexivity. }
  split; [| split].
  - rewrite processAndUpload_students, length_map. apply indexed_length.
  - apply Hnth.
  - intros k row others H1 H2. rewrite !Hnth, H1, H2. reflexivity.
Qed.

Lemma forEachRow_validRows (rows : list RawRow) (index : nat) (a : Acc) :
  accValidRows (forEachRow rows index a)
  = (accValidRows a
     + Z.of_nat (List.length (filter (fun row => (0 <? List.length row)%nat) rows)))%Z.
Proof.
  revert index a. induction rows as [| row rows IH]; intros index a; cbn [forEachRow filter].
  - cbn. lia.
  - rewrite IH. unfold rowStep at 1. cbn [accValidRows].
    destruct (0 <? List.length row)%nat; cbn [List.length]; lia.
Qed.

(** X2: the counters of the cleaning report. [totalRows] is the number of
    rows, [validRows] the number of rows with at least one key, so at most
    [totalRows]; [missingValuesFixed] is always 0; [uniqueSkillsFound] is the
    number of distinct admitted tokens, [__proto__] left out. *)
Theorem cleaning_report_counters (rawData : list RawRow) (elapsed : Z) :
  Types.totalRows (report (processAndUpload rawData elapsed)) = Z.of_nat (List.length rawData)
  /\ Types.validRows (report (processAndUpload rawData elapsed))
     = Z.of_nat (List.length (filter (fun row => (0 <? List.length row)%nat) rawData))
  /\ (0 <= Types.validRows (report (processAndUpload rawData elapsed))
      <= Types.totalRows (report (processAndUpload rawData elapsed)))%Z
  /\ Types.missingValuesFixed (report (processAndUpload rawData elapsed)) = 0%Z
  /\ Types.uniqueSkillsFound (report (processAndUpload rawData elapsed))
     = Z.of_nat (List.length
                   (JS.newSet (filter (fun t => negb (t =? "__proto__")%string)
                                 (flat_map Spec.rowSkills rawData))))
  /\ Types.processingTimeMs (report (processAndUpload rawData elapsed)) = elapsed.
Proof.
  unfold processAndUpload.
  cbn [report Types.totalRows Types.validRows Types.missingValuesFixed
       Types.uniqueSkillsFound Types.processingTimeMs].
  rewrite forEachRow_validRows. cbn [accValidRows Z.add].
  split; [reflexivity |]. split; [reflexivity |].
  split.
  { match goal with
    | |- context [List.length (filter ?f rawData)] =>
        pose proof (filter_length_le f rawData) as Hle
    end.
    split; [apply Nat2Z.is_nonneg | apply Nat2Z.inj_le; exact Hle]. }
  split; [reflexivity |].
  split; [| reflexivity].
  fold (skillFreqOf rawData).
  rewrite <- (length_map fst (skillFreqOf rawData)), skillFreqOf_bumpAll, keys_bumpAll.
  reflexivity.
Qed.

(** X3: the skill set of a record holds the admitted tokens of the skill
    columns of its row, each once, in the order in which they first occur. *)
Theorem skills_are_first_occurrences (row : RawRow) (index : nat) :
  skills (normalizeRow row index) = JS.newSet (Spec.rowSkills row)
  /\ NoDup (skills (normalizeRow row index))
  /\ (forall S, In S (skills (normalizeRow row index)) <-> In S (Spec.rowSkills row)).
Proof.
  rewrite normalizeRow_skills, <- newSet_addAll.
  split; [reflexivity |]. split; [apply newSet_NoDup |].
  intros S. apply In_newSet.
Qed.

(** The case analysis of [cellStep], as in the first part. *)
Ltac cellCases key val :=
  unfold cellStep, Ref.isIdentifierCell, Ref.isDepartmentCell; cbn [fst snd];
  destruct (JS.truthy val); cbn [negb andb];
  [ destruct (isIdentifierKey (JS.toLowerCase key)); cbn [negb andb];
    [ | destruct (isDepartmentKey (JS.toLowerCase key)); cbn [negb andb];
        [ | destruct ((1 <? String.length (JS.trim (JS.StringOf val)))%nat
                      && negb (JS.includes (JS.toLowerCase key) "name")) ] ]
  | ].

Lemma cellStep_studentId (v : RowVars) (entry : string * JS.Value) :
  studentId (cellStep v entry)
  = if Ref.isIdentifierCell entry then JS.trim (JS.StringOf (snd entry)) else studentId v.
Proof.
  destruct entry as [key val]. cellCases key val; rewrite ?fold_tokenStep; reflexivity.
Qed.

Lemma cellStep_rowDepartment (v : RowVars) (entry : string * JS.Value) :
  rowDepartment (cellStep v entry)
  = if Ref.isDepartmentCell entry then JS.trim (JS.StringOf (snd entry)) else rowDepartment v.
Proof.
  destruct entry as [key val]. cellCases key val; rewrite ?fold_tokenStep; reflexivity.
Qed.

Lemma find_last (A : Type) (f : A -> bool) (l : list A) (x : A) :
  find f (l ++ [x])
  = match find f l with
    | Some y => Some y
    | None => if f x then Some x else None
    end.
Proof.
  induction l as [| y l IH]; cbn; [reflexivity |].
  destruct (f y); [reflexivity | exact IH].
Qed.

Lemma fold_cellStep_last
    (field : RowVars -> string) (kind : string * JS.Value -> bool) :
  (forall v entry,
      field (cellStep v entry)
      = if kind entry then JS.trim (JS.StringOf (snd entry)) else field v) ->
  forall row v,
    field (fold_left cellStep row v)
    = match Ref.lastValue kind row with
      | Some text => text
      | None => field v
      end.
Proof.
  intros Hstep row. unfold Ref.lastValue.
  induction row as [| entry row IH]; intros v; [reflexivity |].
  cbn [fold_left rev]. rewrite IH, find_last, Hstep.
  destruct (find kind (rev row)); cbn [option_map]; [reflexivity |].
  destruct (kind entry); reflexivity.
Qed.

(** X4: the last column wins. The identifier of a record is the trimmed
    text of the last cell of the row that is truthy and whose name is an
    identifier name, and the positional default without such a cell; the
    department is the trimmed text of the last truthy cell whose name is a
    department name and not an identifier name, and General without one. *)
Theorem identifier_and_department_last_wins (row : RawRow) (index : nat) :
  id (normalizeRow row index)
  = match Ref.lastValue Ref.isIdentifierCell row with
    | Some text => text
    | None => ("Student-" ++ JS.stringOfInt (Z.of_nat index + 1))%string
    end
  /\ department (normalizeRow row index)
     = match Ref.lastValue Ref.isDepartmentCell row with
       | Some text => text
       | None => "General"
       end.
Proof.
  unfold normalizeRow, rowVars. cbn [id department].
  rewrite (fold_cellStep_last studentId Ref.isIdentifierCell cellStep_studentId).
  rewrite (fold_cellStep_last rowDepartment Ref.isDepartmentCell cellStep_rowDepartment).
  split; reflexivity.
Qed.

(** X5: a column that is no identifier and no department column is
    ignored altogether when its name contains name, or when its trimmed
    value has at most one character. *)
Theorem name_column_or_short_value_is_ignored
    (key : string) (val : JS.Value) (v : RowVars)
    (Hid : isIdentifierKey (JS.toLowerCase key) = false)
    (Hdep : isDepartmentKey (JS.toLowerCase key) = false)
    (Hskip : JS.includes (JS.toLowerCase key) "name" = true
             \/ (String.length (JS.trim (JS.StringOf val)) <= 1)%nat) :
  cellStep v (key, val) = v.
Proof.
  unfold cellStep. destruct (JS.truthy val); cbn [negb]; [| reflexivity].
  rewrite Hid, Hdep.
  destruct Hskip as [Hname | Hshort].
  - rewrite Hname. cbn [negb]. rewrite andb_false_r. reflexivity.
  - apply Nat.ltb_ge in Hshort. rewrite Hshort. reflexivity.
Qed.

Lemma name_column_or_short_value_is_ignored_witness :
  isIdentifierKey (JS.toLowerCase "Full Name") = false
  /\ isDepartmentKey (JS.toLowerCase "Full Name") = false
  /\ cellStep
       {| studentId := "S1"; rowDepartment := "CS"; studentSkills := ["Python"];
          skillFreq := [("Python", 1%Z)] |}
       ("Full Name", JS.VStr "Ada Lovelace, Countess")
     = {| studentId := "S1"; rowDepartment := "CS"; studentSkills := ["Python"];
          skillFreq := [("Python", 1%Z)] |}.
Proof.
  split; [reflexivity |]. split; [reflexivity |].
  apply (name_column_or_short_value_is_ignored "Full Name"
           (JS.VStr "Ada Lovelace, Countess")).
  - reflexivity.
  - reflexivity.
  - left. reflexivity.
Defined.

End UploadPass.

(** ** The table and the ranking, further *)

Section TableInvariants.

Import Dashboard.

Lemma bumpOwn_positive (k : string) (table : JS.Table) :
  Forall (fun e => (1 <= snd e)%Z) table ->
  Forall (fun e => (1 <= snd e)%Z) (JS.bumpOwn k table).
Proof.
  induction 1 as [| [k' n] table Hn Hrest IH]; cbn.
  - constructor; [cbn; lia | constructor].
  - destruct (k' =? k)%string; constructor; cbn in *; try lia; assumption.
Qed.

Lemma total_bumpOwn (k : string) (table : JS.Table) :
  Ref.total (JS.bumpOwn k table) = (Ref.total table + 1)%Z.
Proof.
  unfold Ref.total. induction table as [| [k' n] table IH]; cbn; [reflexivity |].
  destruct (k' =? k)%string; cbn; lia.
Qed.

Lemma bumpAll_invariants (tokens : list string) (table : JS.Table) :
  Forall (fun e => (1 <= snd e)%Z) table ->
  Forall (fun e => (1 <= snd e)%Z) (Spec.bumpAll tokens table)
  /\ Ref.total (Spec.bumpAll tokens table)
     = (Ref.total table
        + Z.of_nat (List.length (filter (fun t => negb (t =? "__proto__")%string) tokens)))%Z.
Proof.
  revert table. induction tokens as [| t tokens IH]; intros table Hpos.
  - unfold Spec.bumpAll. cbn [fold_left filter List.length Z.of_nat].
    split; [exact Hpos | rewrite Z.add_0_r; reflexivity].
  - unfold Spec.bumpAll in *. cbn [fold_left filter].
    destruct (t =? "__proto__")%string eqn:Ht; cbn [negb].
    + assert (Hb : JS.bump t table = table) by (unfold JS.bump; rewrite Ht; reflexivity).
      rewrite Hb. apply IH. exact Hpos.
    + assert (Hb : JS.bump t table = JS.bumpOwn t table)
        by (unfold JS.bump; rewrite Ht; reflexivity).
      rewrite Hb.
      destruct (IH (JS.bumpOwn t table) (bumpOwn_positive t table Hpos)) as [H1 H2].
      split; [exact H1 |]. rewrite H2, total_bumpOwn. cbn [List.length]. lia.
Qed.

Lemma NoDup_firstn (A : Type) (n : nat) (l : list A) : NoDup l -> NoDup (firstn n l).
Proof.
  intros H. rewrite <- (firstn_skipn n l) in H. apply NoDup_app_remove_r in H. exact H.
Qed.

Lemma In_firstn (A : Type) (n : nat) (l : list A) (x : A) : In x (firstn n l) -> In x l.
Proof. intros H. rewrite <- (firstn_skipn n l). apply in_or_app. left. exact H. Qed.

(** X6: what the table keeps. No skill has two entries, every entry counts
    at least 1, and the counts add up to the number of admitted tokens of
    the dataset ([__proto__] left out). Every entry of [topSkills] is an
    entry of the table, and no skill is ranked twice. *)
Theorem skill_table_invariants (rawData : list RawRow) (elapsed : Z) :
  NoDup (map fst (skillFreqOf rawData))
  /\ Forall (fun e => (1 <= snd e)%Z) (skillFreqOf rawData)
  /\ Ref.total (skillFreqOf rawData)
     = Z.of_nat (List.length (filter (fun t => negb (t =? "__proto__")%string)
                                (flat_map Spec.rowSkills rawData)))
  /\ Forall (fun e => In e (skillFreqOf rawData)
                      /\ Spec.countOf (fst e) (skillFreqOf rawData) = snd e)
       (topSkills (processAndUpload rawData elapsed))
  /\ NoDup (map fst (topSkills (processAndUpload rawData elapsed))).
Proof.
  assert (Hkeys : NoDup (map fst (skillFreqOf rawData))).
  { rewrite skillFreqOf_bumpAll, keys_bumpAll. cbn [map]. rewrite <- newSet_addAll.
    apply newSet_NoDup. }
  destruct (bumpAll_invariants (flat_map Spec.rowSkills rawData) [] (Forall_nil _))
    as [Hpos Htotal].
  rewrite <- skillFreqOf_bumpAll in Hpos, Htotal.
  assert (Hget : forall e, In e (skillFreqOf rawData) ->
                           Spec.countOf (fst e) (skillFreqOf rawData) = snd e).
  { unfold Spec.countOf. revert Hkeys. generalize (skillFreqOf rawData) as table.
    induction table as [| [k n] table IH]; intros Hnd e Hin; [contradiction |].
    cbn [map fst] in Hnd. inversion Hnd as [| ? ? Hk Hrest]; subst.
    destruct Hin as [<- | Hin]; cbn [JS.get fst snd].
    - rewrite String.eqb_refl. reflexivity.
    - destruct (k =? fst e)%string eqn:Heq; [| apply IH; assumption].
      apply String.eqb_eq in Heq. subst k. exfalso. apply Hk.
      apply in_map. exact Hin. }
  split; [exact Hkeys |]. split; [exact Hpos |]. split; [exact Htotal |].
  unfold processAndUpload. cbn [topSkills]. fold (skillFreqOf rawData). unfold sortedSkills.
  split.
  - apply Forall_forall. intros e He. apply In_firstn in He.
    apply (Permutation_in e (sortByCount_perm (skillFreqOf rawData))) in He.
    split; [exact He | apply Hget; exact He].
  - rewrite <- firstn_map. apply NoDup_firstn.
    apply (Permutation_NoDup
             (Permutation_sym (Permutation_map fst (sortByCount_perm (skillFreqOf rawData))))).
    exact Hkeys.
Qed.

Lemma StronglySorted_app_inv (A : Type) (R : A -> A -> Prop) (l1 l2 : list A) :
  StronglySorted R (l1 ++ l2) -> forall x y, In x l1 -> In y l2 -> R x y.
Proof.
  induction l1 as [| a l1 IH]; intros Hs x y Hx Hy; [contradiction |].
  cbn in Hs. apply StronglySorted_inv in Hs. destruct Hs as [Hs Ha].
  destruct Hx as [<- | Hx].
  - rewrite Forall_forall in Ha. apply Ha. apply in_or_app. right. exact Hy.
  - apply (IH Hs x y Hx Hy).
Qed.

(** X7: [topSkills] is a top: a skill of the table that is left out counts
    no more than any skill that is ranked; with at most 50 skills nothing is
    left out, and with more exactly 50 are ranked. *)
Theorem topSkills_dominates_the_rest (rawData : list RawRow) (elapsed : Z) :
  (forall e e',
      In e (topSkills (processAndUpload rawData elapsed)) ->
      In e' (skillFreqOf rawData) ->
      ~ In e' (topSkills (processAndUpload rawData elapsed)) ->
      (snd e' <= snd e)%Z)
  /\ ((List.length (skillFreqOf rawData) <= 50)%nat ->
      Permutation (topSkills (processAndUpload rawData elapsed)) (skillFreqOf rawData))
  /\ ((50 <= List.length (skillFreqOf rawData))%nat ->
      List.length (topSkills (processAndUpload rawData elapsed)) = 50%nat).
Proof.
  unfold processAndUpload. cbn [topSkills]. fold (skillFreqOf rawData). unfold sortedSkills.
  pose proof (sortByCount_perm (skillFreqOf rawData)) as Hperm.
  pose proof (sortByCount_sorted (skillFreqOf rawData)) as Hsorted.
  split; [| split].
  - intros e e' He He' Hout.
    apply (Permutation_in e' (Permutation_sym Hperm)) in He'.
    rewrite <- (firstn_skipn 50 (sortByCount (skillFreqOf rawData))) in He', Hsorted.
    apply in_app_or in He'. destruct He' as [He' | He']; [contradiction |].
    apply (StronglySorted_app_inv _ _ _ _ Hsorted e e' He He').
  - intros Hlen. rewrite firstn_all2; [exact Hperm |].
    rewrite (Permutation_length Hperm). exact Hlen.
  - intros Hlen. rewrite length_firstn, (Permutation_length Hperm). lia.
Qed.

End TableInvariants.

(** ** The matchers, further *)

Section MatcherLaws.

Lemma percentage_isSharp_checked : Spec.scoreChecks Ref.isSharp Spec.checkedLength = true.
Proof. vm_compute. reflexivity. Qed.

Lemma percentage_isMonotone_checked :
  Spec.scoreChecks Ref.isMonotone Spec.checkedLength = true.
Proof. vm_compute. reflexivity. Qed.

Lemma percentage_sharp (m t : Z) :
  (1 <= t <= Z.of_nat Spec.checkedLength)%Z -> (0 <= m <= t)%Z ->
  (JS.percentage m t = 100%Z <-> m = t) /\ (JS.percentage m t = 0%Z <-> m = 0%Z).
Proof.
  intros Ht Hm.
  pose proof (scoreChecks_sound _ _ percentage_isSharp_checked m t Ht Hm) as H.
  unfold Ref.isSharp in H. apply andb_true_iff in H. destruct H as [H100 H0].
  apply Bool.eqb_prop in H100, H0. split.
  - rewrite <- Z.eqb_eq, H100, Z.eqb_eq. reflexivity.
  - rewrite <- Z.eqb_eq, H0, Z.eqb_eq. reflexivity.
Qed.

Lemma percentage_monotone (m m' t : Z) :
  (1 <= t <= Z.of_nat Spec.checkedLength)%Z -> (0 <= m <= m')%Z -> (m' <= t)%Z ->
  (JS.percentage m t <= JS.percentage m' t)%Z.
Proof.
  intros Ht Hm Hm'.
  assert (Hstep : forall k, (0 <= k)%Z -> (m + k <= t)%Z ->
                            (JS.percentage m t <= JS.percentage (m + k) t)%Z).
  { intros k Hk. pattern k. apply natlike_ind; [| | exact Hk].
    - intros _. rewrite Z.add_0_r. lia.
    - intros x Hx IH Hle.
      pose proof (scoreChecks_sound _ _ percentage_isMonotone_checked (m + x)%Z t Ht
                    ltac:(lia)) as H.
      unfold Ref.isMonotone in H. apply orb_true_iff in H. destruct H as [H | H].
      + apply Z.leb_le in H. lia.
      + apply Z.leb_le in H. replace (m + Z.succ x)%Z with (m + x + 1)%Z by lia.
        specialize (IH ltac:(lia)). lia. }
  replace m' with (m + (m' - m))%Z by lia. apply Hstep; lia.
Qed.

Lemma filter_partition_length (f : string -> bool) (l : list string) :
  (List.length (filter f l) + List.length (filter (fun x => negb (f x)) l))%nat
  = List.length l.
Proof.
  induction l as [| x l IH]; cbn; [reflexivity |]. destruct (f x); cbn; lia.
Qed.

Lemma filter_same_length (f : string -> bool) (l : list string) :
  List.length (filter f l) = List.length l -> filter f l = l.
Proof.
  intros H. apply forallb_filter_id. apply filter_length_forallb. exact H.
Qed.

Lemma filter_empty_iff (f : string -> bool) (l : list string) :
  filter (fun x => negb (f x)) l = [] <-> List.length (filter f l) = List.length l.
Proof.
  pose proof (filter_partition_length f l) as Hp. split; intros H.
  - rewrite H in Hp. cbn in Hp. lia.
  - apply length_zero_iff_nil. lia.
Qed.

Lemma filter_full_iff (f : string -> bool) (l : list string) :
  filter (fun x => negb (f x)) l = l <-> List.length (filter f l) = 0%nat.
Proof.
  pose proof (filter_partition_length f l) as Hp. split; intros H.
  - rewrite H in Hp. lia.
  - apply filter_same_length. lia.
Qed.

Lemma newSet_nil_iff (xs : list string) : JS.newSet xs = [] <-> xs = [].
Proof.
  split; [| intros ->; reflexivity].
  intros H. destruct xs as [| x xs]; [reflexivity |].
  assert (Hin : In x (JS.newSet (x :: xs))) by (apply In_newSet; left; reflexivity).
  rewrite H in Hin. contradiction.
Qed.

Lemma firstn_nil_iff (A : Type) (n : nat) (l : list A) : firstn (S n) l = [] <-> l = [].
Proof. destruct l; cbn; split; intros H; try reflexivity; discriminate. Qed.

Lemma map_nil_iff (A B : Type) (f : A -> B) (l : list A) : map f l = [] <-> l = [].
Proof. destruct l; cbn; split; intros H; try reflexivity; discriminate. Qed.

(** X8: every required skill is either matched or missing, whatever the
    length of the list. On a list of at most 100 required skills the score
    tells the two ends apart: the ad-hoc score is 0 exactly when every
    required skill is missing, and, when something is required, the ad-hoc
    score is 100 exactly when nothing is missing and the bulk score is 100
    exactly when the bulk list is empty. *)
Theorem score_tells_full_and_no_match
    (student : Types.StudentProfile) (roleDef : Types.RoleDefinition) :
  (List.length (filter (Spec.satisfied (Types.rawSkills student))
                  (Types.requiredSkills roleDef))
   + List.length (Dashboard.missing (Dashboard.dynamicStats student roleDef)))%nat
  = List.length (Types.requiredSkills roleDef)
  /\ ((List.length (Types.requiredSkills roleDef) <= Spec.checkedLength)%nat ->
      (Dashboard.matchScore (Dashboard.dynamicStats student roleDef) = 0%Z
       <-> Dashboard.missing (Dashboard.dynamicStats student roleDef)
           = Types.requiredSkills roleDef)
      /\ (Types.requiredSkills roleDef <> [] ->
          (Dashboard.matchScore (Dashboard.dynamicStats student roleDef) = 100%Z
           <-> Dashboard.missing (Dashboard.dynamicStats student roleDef) = []))
      /\ (Types.requiredSkills roleDef <> [] ->
          (fst (GeminiService.bulkMatch (Types.rawSkills student)
                  (Types.requiredSkills roleDef)) = 100%Z
           <-> snd (GeminiService.bulkMatch (Types.rawSkills student)
                      (Types.requiredSkills roleDef)) = [])))
  /\ GeminiService.bulkMatch (Types.rawSkills student) [] = (0%Z, []).
Proof.
  rewrite dynamicStats_unfold, bulkMatch_unfold.
  cbn [Dashboard.matchScore Dashboard.missing fst snd].
  set (candidates := Types.rawSkills student) in *.
  set (required := Types.requiredSkills roleDef) in *.
  assert (Hpos : (1 <= Spec.checkedLength)%nat) by (unfold Spec.checkedLength; lia).
  pose proof (filter_partition_length (Spec.satisfied candidates) required) as Hpart.
  pose proof (filter_length_le (Spec.satisfied candidates) required) as Hle.
  assert (Hsharp :
            forall l, (List.length l <= Spec.checkedLength)%nat ->
                      (Spec.matchScore candidates l = 0%Z
                       <-> List.length (filter (Spec.satisfied candidates) l) = 0%nat)
                      /\ (l <> [] ->
                          (Spec.matchScore candidates l = 100%Z
                           <-> List.length (filter (Spec.satisfied candidates) l)
                               = List.length l))).
  { intros l Hl. unfold Spec.matchScore.
    pose proof (filter_length_le (Spec.satisfied candidates) l) as Hl'.
    destruct (percentage_sharp
                (Z.of_nat (List.length (filter (Spec.satisfied candidates) l)))
                (Z.max 1 (Z.of_nat (List.length l)))) as [H100 H0]; try lia.
    split.
    - rewrite H0. lia.
    - intros Hne. rewrite H100.
      assert (List.length l <> 0%nat) by (rewrite length_zero_iff_nil; exact Hne). lia. }
  split; [exact Hpart |]. split; [| apply bulkMatch_no_requirement].
  intros Hlen. destruct (Hsharp required Hlen) as [H0 H100].
  split; [| split].
  - rewrite H0, filter_full_iff. reflexivity.
  - intros Hne. rewrite (H100 Hne), filter_empty_iff. reflexivity.
  - intros Hne.
    assert (Hset : (List.length (JS.newSet (map JS.toLowerCase required))
                    <= Spec.checkedLength)%nat).
    { pose proof (newSet_length (map JS.toLowerCase required)) as H.
      rewrite length_map in H. lia. }
    assert (Hsetne : JS.newSet (map JS.toLowerCase required) <> []).
    { rewrite newSet_nil_iff, map_nil_iff. exact Hne. }
    destruct (Hsharp _ Hset) as [_ H100'].
    fold (Spec.matchScore candidates (JS.newSet (map JS.toLowerCase required))).
    rewrite (H100' Hsetne). unfold Spec.missingSkills.
    rewrite firstn_nil_iff, map_nil_iff, filter_empty_iff. reflexivity.
Qed.

Lemma score_tells_full_and_no_match_witness :
  (List.length ["Python"; "SQL"] <= Spec.checkedLength)%nat
  /\ (Dashboard.matchScore
        (Dashboard.dynamicStats
           {| Types.id := "S1"; Types.department := "CS"; Types.rawSkills := ["Java"];
              Types.matchScore := None; Types.missingSkills := [] |}
           {| Types.title := "Analyst"; Types.requiredSkills := ["Python"; "SQL"] |}) = 0%Z
      <-> Dashboard.missing
            (Dashboard.dynamicStats
               {| Types.id := "S1"; Types.department := "CS"; Types.rawSkills := ["Java"];
                  Types.matchScore := None; Types.missingSkills := [] |}
               {| Types.title := "Analyst"; Types.requiredSkills := ["Python"; "SQL"] |})
          = ["Python"; "SQL"]).
Proof.
  assert (Hlen : (List.length ["Python"; "SQL"] <= Spec.checkedLength)%nat)
    by (unfold Spec.checkedLength; cbn; lia).
  split; [exact Hlen |].
  exact (proj1 (proj1 (proj2 (score_tells_full_and_no_match
           {| Types.id := "S1"; Types.department := "CS"; Types.rawSkills := ["Java"];
              Types.matchScore := None; Types.missingSkills := [] |}
           {| Types.title := "Analyst"; Types.requiredSkills := ["Python"; "SQL"] |}))
           Hlen)).
Defined.

Lemma satisfied_monotone (c1 c2 : list string) (r : string) :
  incl (map JS.toLowerCase c1) (map JS.toLowerCase c2) ->
  Spec.satisfied c1 r = true -> Spec.satisfied c2 r = true.
Proof.
  unfold Spec.satisfied. intros Hincl H. apply orb_true_iff in H. apply orb_true_iff.
  destruct H as [H | H].
  - left. apply has_In. apply Hincl. apply has_In. exact H.
  - right. apply existsb_exists in H. destruct H as [x [Hx Hf]].
    apply existsb_exists. exists x. split; [apply Hincl; exact Hx | exact Hf].
Qed.

Lemma filter_length_monotone (f g : string -> bool) (l : list string) :
  (forall x, f x = true -> g x = true) ->
  (List.length (filter f l) <= List.length (filter g l))%nat.
Proof.
  intros H. induction l as [| x l IH]; cbn; [lia |].
  destruct (f x) eqn:Hf.
  - rewrite (H x Hf). cbn. lia.
  - destruct (g x); cbn; lia.
Qed.

Lemma matchScore_monotone (c1 c2 l : list string) :
  (List.length l <= Spec.checkedLength)%nat ->
  incl (map JS.toLowerCase c1) (map JS.toLowerCase c2) ->
  (Spec.matchScore c1 l <= Spec.matchScore c2 l)%Z.
Proof.
  intros Hl Hincl. unfold Spec.matchScore.
  assert (Hpos : (1 <= Spec.checkedLength)%nat) by (unfold Spec.checkedLength; lia).
  pose proof (filter_length_monotone (Spec.satisfied c1) (Spec.satisfied c2) l
                (fun r => satisfied_monotone c1 c2 r Hincl)) as Hm.
  pose proof (filter_length_le (Spec.satisfied c2) l) as Hle.
  apply percentage_monotone; lia.
Qed.

(** X9: more skills never hurt. When every case-folded skill of one student
    is a case-folded skill of another, each required skill satisfied by the
    first is satisfied by the second and the missing list of the second is
    part of that of the first, whatever the length of the list; on a list of
    at most 100 required skills neither score of the second is lower. *)
Theorem more_skills_never_lower_the_score
    (s1 s2 : Types.StudentProfile) (roleDef : Types.RoleDefinition)
    (Hmore : incl (map JS.toLowerCase (Types.rawSkills s1))
                  (map JS.toLowerCase (Types.rawSkills s2))) :
  (forall r, Spec.satisfied (Types.rawSkills s1) r = true ->
             Spec.satisfied (Types.rawSkills s2) r = true)
  /\ incl (Dashboard.missing (Dashboard.dynamicStats s2 roleDef))
          (Dashboard.missing (Dashboard.dynamicStats s1 roleDef))
  /\ ((List.length (Types.requiredSkills roleDef) <= Spec.checkedLength)%nat ->
      (Dashboard.matchScore (Dashboard.dynamicStats s1 roleDef)
       <= Dashboard.matchScore (Dashboard.dynamicStats s2 roleDef))%Z
      /\ (fst (GeminiService.bulkMatch (Types.rawSkills s1) (Types.requiredSkills roleDef))
          <= fst (GeminiService.bulkMatch (Types.rawSkills s2)
                    (Types.requiredSkills roleDef)))%Z).
Proof.
  rewrite !dynamicStats_unfold, !bulkMatch_unfold.
  cbn [Dashboard.matchScore Dashboard.missing fst].
  split; [intros r; apply satisfied_monotone; exact Hmore |].
  split.
  - intros r Hr. apply filter_In in Hr. destruct Hr as [Hin Hun].
    apply filter_In. split; [exact Hin |].
    apply negb_true_iff in Hun. apply negb_true_iff.
    destruct (Spec.satisfied (Types.rawSkills s1) r) eqn:H1; [| reflexivity].
    rewrite (satisfied_monotone _ _ r Hmore H1) in Hun. discriminate.
  - intros Hlen. split.
    + apply matchScore_monotone; assumption.
    + apply (matchScore_monotone (Types.rawSkills s1) (Types.rawSkills s2)); [| exact Hmore].
      pose proof (newSet_length (map JS.toLowerCase (Types.requiredSkills roleDef))) as H.
      rewrite length_map in H. lia.
Qed.

Lemma more_skills_never_lower_the_score_witness :
  (List.length ["Python"; "SQL"] <= Spec.checkedLength)%nat
  /\ incl (map JS.toLowerCase ["sql"]) (map JS.toLowerCase ["Python"; "SQL"])
  /\ (Dashboard.matchScore
        (Dashboard.dynamicStats
           {| Types.id := "S1"; Types.department := "CS"; Types.rawSkills := ["sql"];
              Types.matchScore := None; Types.missingSkills := [] |}
           {| Types.title := "Analyst"; Types.requiredSkills := ["Python"; "SQL"] |})
      <= Dashboard.matchScore
           (Dashboard.dynamicStats
              {| Types.id := "S2"; Types.department := "CS";
                 Types.rawSkills := ["Python"; "SQL"];
                 Types.matchScore := None; Types.missingSkills := [] |}
              {| Types.title := "Analyst"; Types.requiredSkills := ["Python"; "SQL"] |}))%Z.
Proof.
  assert (Hlen : (List.length ["Python"; "SQL"] <= Spec.checkedLength)%nat)
    by (unfold Spec.checkedLength; cbn; lia).
  assert (Hmore : incl (map JS.toLowerCase ["sql"]) (map JS.toLowerCase ["Python"; "SQL"])).
  { intros x [<- | []]. right. left. reflexivity. }
  split; [exact Hlen |]. split; [exact Hmore |].
  exact (proj1 (proj2 (proj2 (more_skills_never_lower_the_score
           {| Types.id := "S1"; Types.department := "CS"; Types.rawSkills := ["sql"];
              Types.matchScore := None; Types.missingSkills := [] |}
           {| Types.id := "S2"; Types.department := "CS";
              Types.rawSkills := ["Python"; "SQL"];
              Types.matchScore := None; Types.missingSkills := [] |}
           {| Types.title := "Analyst"; Types.requiredSkills := ["Python"; "SQL"] |}
           Hmore)) Hlen)).
Defined.

End MatcherLaws.

(** ** The two matchers against each other *)

Section MatcherAgreement.

Lemma addAll_fresh (tokens set : list string) :
  NoDup (set ++ tokens) -> Spec.addAll tokens set = set ++ tokens.
Proof.
  revert set. induction tokens as [| t tokens IH]; intros set Hnd.
  - cbn. rewrite app_nil_r. reflexivity.
  - unfold Spec.addAll in *. cbn [fold_left].
    assert (Hfresh : JS.has set t = false).
    { destruct (JS.has set t) eqn:Hhas; [| reflexivity].
      apply has_In in Hhas. apply NoDup_remove_2 in Hnd. exfalso. apply Hnd.
      apply in_or_app. left. exact Hhas. }
    unfold JS.add at 2. rewrite Hfresh.
    rewrite IH; rewrite <- app_assoc; [reflexivity | exact Hnd].
Qed.

Lemma newSet_of_distinct (xs : list string) : NoDup xs -> JS.newSet xs = xs.
Proof. intros H. rewrite newSet_addAll. apply (addAll_fresh xs []). exact H. Qed.

Lemma satisfied_folded (candidates : list string) (r : string) :
  Spec.satisfied candidates (JS.toLowerCase r) = Spec.satisfied candidates r.
Proof. unfold Spec.satisfied. rewrite toLowerCase_idempotent. reflexivity. Qed.

Lemma filter_map_comm (A B : Type) (f : B -> bool) (g : A -> B) (l : list A) :
  filter f (map g l) = map g (filter (fun x => f (g x)) l).
Proof.
  induction l as [| x l IH]; cbn; [reflexivity |].
  destruct (f (g x)); cbn; rewrite IH; reflexivity.
Qed.

(** X10: the two call sites agree up to casing. When no two required
    skills of the role fold to the same string, the bulk score is the ad-hoc
    score, and the bulk list is the first five of the ad-hoc list, each
    skill folded and capitalised. *)
Theorem bulk_agrees_with_adhoc_on_distinct_requirements
    (student : Types.StudentProfile) (roleDef : Types.RoleDefinition)
    (Hdistinct : NoDup (map JS.toLowerCase (Types.requiredSkills roleDef))) :
  fst (GeminiService.bulkMatch (Types.rawSkills student) (Types.requiredSkills roleDef))
  = Dashboard.matchScore (Dashboard.dynamicStats student roleDef)
  /\ snd (GeminiService.bulkMatch (Types.rawSkills student) (Types.requiredSkills roleDef))
     = firstn 5 (map (fun r => GeminiService.capitalize (JS.toLowerCase r))
                   (Dashboard.missing (Dashboard.dynamicStats student roleDef))).
Proof.
  rewrite dynamicStats_unfold, bulkMatch_unfold.
  cbn [Dashboard.matchScore Dashboard.missing fst snd].
  rewrite (newSet_of_distinct _ Hdistinct).
  unfold Spec.matchScore, Spec.missingSkills.
  rewrite !filter_map_comm, !length_map, map_map.
  rewrite (filter_ext (fun x => Spec.satisfied (Types.rawSkills student) (JS.toLowerCase x))
             (Spec.satisfied (Types.rawSkills student)))
    by (intros r; apply satisfied_folded).
  rewrite (filter_ext
             (fun x => negb (Spec.satisfied (Types.rawSkills student) (JS.toLowerCase x)))
             (fun r => negb (Spec.satisfied (Types.rawSkills student) r)))
    by (intros r; rewrite satisfied_folded; reflexivity).
  split; reflexivity.
Qed.

Lemma bulk_agrees_with_adhoc_on_distinct_requirements_witness :
  NoDup (map JS.toLowerCase ["Python"; "JavaScript"; "SQL"])
  /\ fst (GeminiService.bulkMatch ["Java"] ["Python"; "JavaScript"; "SQL"])
     = Dashboard.matchScore
         (Dashboard.dynamicStats
            {| Types.id := "S1"; Types.department := "CS"; Types.rawSkills := ["Java"];
               Types.matchScore := None; Types.missingSkills := [] |}
            {| Types.title := "Engineer";
               Types.requiredSkills := ["Python"; "JavaScript"; "SQL"] |}).
Proof.
  assert (Hd : NoDup (map JS.toLowerCase ["Python"; "JavaScript"; "SQL"])).
  { cbn. repeat constructor; cbn; intuition discriminate. }
  split; [exact Hd |].
  exact (proj1 (bulk_agrees_with_adhoc_on_distinct_requirements
           {| Types.id := "S1"; Types.department := "CS"; Types.rawSkills := ["Java"];
              Types.matchScore := None; Types.missingSkills := [] |}
           {| Types.title := "Engineer";
              Types.requiredSkills := ["Python"; "JavaScript"; "SQL"] |}
           Hd)).
Defined.

Lemma satisfied_same_candidates (c1 c2 : list string) (r : string) :
  (forall x, In x (map JS.toLowerCase c1) <-> In x (map JS.toLowerCase c2)) ->
  Spec.satisfied c1 r = Spec.satisfied c2 r.
Proof.
  intros H. unfold Spec.satisfied. f_equal.
  - unfold JS.has. apply existsb_same_elements. exact H.
  - apply existsb_same_elements. exact H.
Qed.

(** X11: the result of a match does not depend on how the skills of the
    student are written, ordered or repeated. Two students whose case-folded
    skills are the same strings get the same score and the same missing list
    for every role, in both call sites; in particular the scan that stops at
    its first hit yields nothing that depends on the order of the set. *)
Theorem match_depends_on_folded_skill_set
    (s1 s2 : Types.StudentProfile) (roleDef : Types.RoleDefinition)
    (Hsame : forall x, In x (map JS.toLowerCase (Types.rawSkills s1))
                       <-> In x (map JS.toLowerCase (Types.rawSkills s2))) :
  Dashboard.dynamicStats s1 roleDef = Dashboard.dynamicStats s2 roleDef
  /\ GeminiService.bulkMatch (Types.rawSkills s1) (Types.requiredSkills roleDef)
     = GeminiService.bulkMatch (Types.rawSkills s2) (Types.requiredSkills roleDef).
Proof.
  rewrite !dynamicStats_unfold, !bulkMatch_unfold.
  unfold Spec.matchScore, Spec.missingSkills.
  assert (Hsat : forall l, filter (Spec.satisfied (Types.rawSkills s1)) l
                           = filter (Spec.satisfied (Types.rawSkills s2)) l).
  { intros l. apply filter_ext. intros r. apply satisfied_same_candidates. exact Hsame. }
  assert (Hun : forall l,
             filter (fun r => negb (Spec.satisfied (Types.rawSkills s1) r)) l
             = filter (fun r => negb (Spec.satisfied (Types.rawSkills s2) r)) l).
  { intros l. apply filter_ext. intros r.
    rewrite (satisfied_same_candidates _ _ r Hsame). reflexivity. }
  rewrite !Hsat, !Hun. split; reflexivity.
Qed.

Lemma match_depends_on_folded_skill_set_witness :
  (forall x, In x (map JS.toLowerCase ["SQL"; "python"; "sql"])
             <-> In x (map JS.toLowerCase ["Python"; "Sql"]))
  /\ Dashboard.dynamicStats
       {| Types.id := "S1"; Types.department := "CS";
          Types.rawSkills := ["SQL"; "python"; "sql"];
          Types.matchScore := None; Types.missingSkills := [] |}
       {| Types.title := "Analyst"; Types.requiredSkills := ["Python"; "Excel"] |}
     = Dashboard.dynamicStats
         {| Types.id := "S2"; Types.department := "IT"; Types.rawSkills := ["Python"; "Sql"];
            Types.matchScore := None; Types.missingSkills := [] |}
         {| Types.title := "Analyst"; Types.requiredSkills := ["Python"; "Excel"] |}.
Proof.
  assert (Hsame : forall x, In x (map JS.toLowerCase ["SQL"; "python"; "sql"])
                            <-> In x (map JS.toLowerCase ["Python"; "Sql"])).
  { intros x. cbn. intuition. }
  split; [exact Hsame |].
  exact (proj1 (match_depends_on_folded_skill_set
           {| Types.id := "S1"; Types.department := "CS";
              Types.rawSkills := ["SQL"; "python"; "sql"];
              Types.matchScore := None; Types.missingSkills := [] |}
           {| Types.id := "S2"; Types.department := "IT"; Types.rawSkills := ["Python"; "Sql"];
              Types.matchScore := None; Types.missingSkills := [] |}
           {| Types.title := "Analyst"; Types.requiredSkills := ["Python"; "Excel"] |}
           Hsame)).
Defined.

End MatcherAgreement.

(** ** The bulk report *)

Section BulkReport.

Import GeminiService.

Lemma includes_empty (s : string) : JS.includes s "" = true.
Proof. destruct s; reflexivity. Qed.

(** X12: the department mapping the bulk path scores against. It is one of
    the mappings, and there is one unless there is no mapping at all; it is
    the first mapping whose department contains the student's or is contained
    in it, case folded, and the first mapping of all when none does. A
    student without a department text gets the first mapping. *)
Theorem deptMap_is_first_match_or_first (ms : list Types.DepartmentMapping) (dep : string) :
  (deptMap (Some ms) dep = None <-> ms = [])
  /\ (forall d, deptMap (Some ms) dep = Some d -> In d ms)
  /\ (forall d, find (matchesDepartment dep) ms = Some d -> deptMap (Some ms) dep = Some d)
  /\ (Forall (fun m => matchesDepartment dep m = false) ms ->
      deptMap (Some ms) dep = hd_error ms)
  /\ (forall d, deptMap (Some ms) dep = Some d ->
                matchesDepartment dep d = true
                \/ Forall (fun m => matchesDepartment dep m = false) ms)
  /\ deptMap (Some ms) "" = hd_error ms
  /\ deptMap None dep = None.
Proof.
  unfold deptMap.
  split; [| split; [| split; [| split; [| split; [| split]]]]].
  - destruct (find (matchesDepartment dep) ms) eqn:Hf.
    + split; [discriminate |]. intros ->. discriminate.
    + destruct ms; cbn; split; intros H; try reflexivity; discriminate.
  - intros d. destruct (find (matchesDepartment dep) ms) eqn:Hf.
    + intros H. injection H as <-. apply find_some in Hf. tauto.
    + destruct ms; cbn; [discriminate |]. intros H. injection H as <-. left. reflexivity.
  - intros d ->. reflexivity.
  - intros Hnone. destruct (find (matchesDepartment dep) ms) eqn:Hf; [| reflexivity].
    apply find_some in Hf. destruct Hf as [Hin Ht]. rewrite Forall_forall in Hnone.
    rewrite (Hnone _ Hin) in Ht. discriminate.
  - intros d. destruct (find (matchesDepartment dep) ms) eqn:Hf.
    + intros H. injection H as <-. apply find_some in Hf. tauto.
    + intros _. right. apply Forall_forall. apply (find_none _ _ Hf).
  - destruct ms as [| m ms]; [reflexivity |]. cbn [find hd_error].
    unfold matchesDepartment. cbn [JS.toLowerCase]. rewrite includes_empty. reflexivity.
  - reflexivity.
Qed.

(** X13: upload and analysis together. Whatever the taxonomy, the report
    has one profile per row of the dataset, in order, with the identifier,
    the department and the skill set the row normalises to; every profile
    carries a score and at most five missing skills, and the cleaning report
    of the pass is handed through. *)
Theorem report_has_one_profile_per_row
    (mappings : option (list Types.DepartmentMapping))
    (rawData : list Dashboard.RawRow) (elapsed : Z) :
  List.length (students (analyzeSkillset mappings (Dashboard.processAndUpload rawData elapsed)))
  = List.length rawData
  /\ (forall k,
        option_map (fun p => (Types.id p, Types.department p, Types.rawSkills p))
          (nth_error
             (students (analyzeSkillset mappings (Dashboard.processAndUpload rawData elapsed)))
             k)
        = option_map (fun row =>
                        (Dashboard.id (Dashboard.normalizeRow row k),
                         Dashboard.department (Dashboard.normalizeRow row k),
                         Dashboard.skills (Dashboard.normalizeRow row k)))
            (nth_error rawData k))
  /\ Forall (fun p => Types.matchScore p <> None
                      /\ (List.length (Types.missingSkills p) <= 5)%nat)
       (students (analyzeSkillset mappings (Dashboard.processAndUpload rawData elapsed)))
  /\ Types.totalRows
       (cleaningReport (analyzeSkillset mappings (Dashboard.processAndUpload rawData elapsed)))
     = Z.of_nat (List.length rawData).
Proof.
  unfold analyzeSkillset. cbn [students cleaningReport].
  rewrite processAndUpload_students.
  split; [| split; [| split]].
  - rewrite !length_map. apply indexed_length.
  - intros k. rewrite !nth_error_map, nth_error_indexed.
    destruct (nth_error rawData k) as [row |]; cbn [option_map fst snd]; [| reflexivity].
    unfold studentProfile.
    destruct (bulkMatch _ _). reflexivity.
  - apply Forall_map. apply Forall_forall. intros raw _.
    unfold studentProfile.
    assert (Hcap : (List.length
                      (snd (bulkMatch (Dashboard.skills raw)
                              (requiredOf (defaultRole
                                             (deptMap mappings (Dashboard.department raw))))))
                    <= 5)%nat)
      by (rewrite bulkMatch_unfold; apply firstn_le_length).
    destruct (bulkMatch _ _) as [score missing5].
    cbn [Types.matchScore Types.missingSkills snd] in *. split; [discriminate | exact Hcap].
  - reflexivity.
Qed.

End BulkReport.

(** ** Selecting a student and a role *)

Section Selection.

Import DashboardView.

Lemma findRole_some (ms : list Types.DepartmentMapping) (t : string) (r : Types.RoleDefinition) :
  findRole ms t = Some r ->
  Types.title r = t /\ exists m, In m ms /\ In r (Types.possibleRoles m).
Proof.
  induction ms as [| m ms IH]; cbn; [discriminate |].
  destruct (find (fun r0 => (Types.title r0 =? t)%string) (Types.possibleRoles m)) eqn:Hf.
  - intros H. injection H as <-. apply find_some in Hf. destruct Hf as [Hin Ht].
    apply String.eqb_eq in Ht. split; [exact Ht |]. exists m. split; [left; reflexivity | exact Hin].
  - intros H. destruct (IH H) as [Ht [m' [Hm' Hr]]].
    split; [exact Ht |]. exists m'. split; [right; exact Hm' | exact Hr].
Qed.

Lemma findRole_none (ms : list Types.DepartmentMapping) (t : string) :
  findRole ms t = None <->
  forall m r, In m ms -> In r (Types.possibleRoles m) -> Types.title r <> t.
Proof.
  induction ms as [| m ms IH]; cbn.
  - split; [intros _ m r [] | reflexivity].
  - destruct (find (fun r0 => (Types.title r0 =? t)%string) (Types.possibleRoles m)) eqn:Hf.
    + split; [discriminate |]. intros H. exfalso.
      apply find_some in Hf. destruct Hf as [Hin Ht]. apply String.eqb_eq in Ht.
      apply (H m r (or_introl eq_refl) Hin Ht).
    + rewrite IH. split.
      * intros H m' r [<- | Hm'] Hr.
        -- apply (find_none _ _ Hf) in Hr. apply String.eqb_neq in Hr. exact Hr.
        -- apply (H m' r Hm' Hr).
      * intros H m' r Hm' Hr. apply (H m' r (or_intror Hm') Hr).
Qed.

(** X14: the role the effect scores against. It is a role of one of the
    departments and bears the selected title; none is found exactly when no
    department has a role of that title; among several it is the one met
    first, departments and roles taken in order. *)
Theorem findRole_is_first_role_with_title (ms : list Types.DepartmentMapping) (t : string) :
  (forall r, findRole ms t = Some r ->
             Types.title r = t /\ exists m, In m ms /\ In r (Types.possibleRoles m))
  /\ (findRole ms t = None <->
      forall m r, In m ms -> In r (Types.possibleRoles m) -> Types.title r <> t)
  /\ findRole ms t
     = find (fun r => (Types.title r =? t)%string) (flat_map Types.possibleRoles ms).
Proof.
  split; [intros r; apply findRole_some |]. split; [apply findRole_none |].
  induction ms as [| m ms IH]; cbn [findRole flat_map]; [reflexivity |].
  rewrite IH. generalize (Types.possibleRoles m) as roles.
  induction roles as [| r roles IHr]; cbn; [reflexivity |].
  destruct (Types.title r =? t)%string; [reflexivity | exact IHr].
Qed.

Lemma availableRoles_from_mappings (d : GeminiService.AnalysisResult) (sid : string)
    (r : Types.RoleDefinition) :
  In r (availableRoles (Some d) sid) ->
  sid <> ""
  /\ (exists student, findStudent d sid = Some student)
  /\ exists m, In m (mappingsOf d) /\ In r (Types.possibleRoles m).
Proof.
  unfold availableRoles, mappingsOf.
  destruct (sid =? "")%string eqn:Hsid; [intros [] |].
  apply String.eqb_neq in Hsid.
  destruct (findStudent d sid) as [student |]; [| intros []].
  destruct (GeminiService.departmentMappings d) as [ms |]; [| intros []].
  intros Hin. split; [exact Hsid |]. split; [eauto |].
  destruct (find _ ms) as [mapping |] eqn:Hf.
  - apply find_some in Hf. exists mapping. tauto.
  - apply in_flat_map in Hin. exact Hin.
Qed.

(** X15: a role offered in the list can always be scored. When a role with
    a title is among the roles offered for the selected student, the effect
    finds that student and a role of that title and sets the statistics,
    whatever they were before. The student found bears the selected
    identifier. *)
Theorem offered_role_is_scored
    (d : GeminiService.AnalysisResult) (sid : string) (r : Types.RoleDefinition)
    (previous : option Stats)
    (Hoffered : In r (availableRoles (Some d) sid))
    (Htitle : Types.title r <> "") :
  exists student roleDef,
    findStudent d sid = Some student
    /\ Types.id student = sid
    /\ findRole (mappingsOf d) (Types.title r) = Some roleDef
    /\ Types.title roleDef = Types.title r
    /\ matchEffect (Some d) sid (Types.title r) previous
       = Some {| computed := Dashboard.dynamicStats student roleDef;
                 radarData :=
                   comparisonData
                     (JS.newSet (map JS.toLowerCase (Types.rawSkills student)))
                     (Types.requiredSkills roleDef) |}.
Proof.
  destruct (availableRoles_from_mappings d sid r Hoffered) as [Hsid [[student Hst] [m [Hm Hr]]]].
  destruct (findRole (mappingsOf d) (Types.title r)) as [roleDef |] eqn:Hrole.
  - exists student, roleDef.
    split; [exact Hst |]. split.
    { unfold findStudent in Hst. apply find_some in Hst. destruct Hst as [_ Heq].
      apply String.eqb_eq in Heq. exact Heq. }
    split; [reflexivity |]. split; [apply (findRole_some _ _ _ Hrole) |].
    unfold matchEffect. rewrite Hst, Hrole.
    apply String.eqb_neq in Hsid, Htitle. rewrite Hsid, Htitle. reflexivity.
  - exfalso. rewrite findRole_none in Hrole. apply (Hrole m r Hm Hr). reflexivity.
Qed.

Lemma offered_role_is_scored_witness :
  In {| Types.title := "Analyst"; Types.requiredSkills := ["SQL"] |}
     (availableRoles
        (Some {| GeminiService.departmentMappings :=
                   Some [{| Types.mappingDepartment := "cs";
                            Types.possibleRoles :=
                              [{| Types.title := "Analyst"; Types.requiredSkills := ["SQL"] |}] |}];
                 GeminiService.students :=
                   [{| Types.id := "S1"; Types.department := "CS"; Types.rawSkills := ["Sql"];
                       Types.matchScore := Some 100%Z; Types.missingSkills := [] |}];
                 GeminiService.cleaningReport :=
                   {| Types.totalRows := 1; Types.validRows := 1; Types.missingValuesFixed := 0;
                      Types.uniqueSkillsFound := 1; Types.processingTimeMs := 0 |} |})
        "S1")
  /\ exists student roleDef,
       matchEffect
         (Some {| GeminiService.departmentMappings :=
                    Some [{| Types.mappingDepartment := "cs";
                             Types.possibleRoles :=
                               [{| Types.title := "Analyst"; Types.requiredSkills := ["SQL"] |}] |}];
                  GeminiService.students :=
                    [{| Types.id := "S1"; Types.department := "CS"; Types.rawSkills := ["Sql"];
                        Types.matchScore := Some 100%Z; Types.missingSkills := [] |}];
                  GeminiService.cleaningReport :=
                    {| Types.totalRows := 1; Types.validRows := 1; Types.missingValuesFixed := 0;
                       Types.uniqueSkillsFound := 1; Types.processingTimeMs := 0 |} |})
         "S1" "Analyst" None
       = Some {| computed := Dashboard.dynamicStats student roleDef;
                 radarData :=
                   comparisonData
                     (JS.newSet (map JS.toLowerCase (Types.rawSkills student)))
                     (Types.requiredSkills roleDef) |}.
Proof.
  assert (Hin : In {| Types.title := "Analyst"; Types.requiredSkills := ["SQL"] |}
     (availableRoles
        (Some {| GeminiService.departmentMappings :=
                   Some [{| Types.mappingDepartment := "cs";
                            Types.possibleRoles :=
                              [{| Types.title := "Analyst"; Types.requiredSkills := ["SQL"] |}] |}];
                 GeminiService.students :=
                   [{| Types.id := "S1"; Types.department := "CS"; Types.rawSkills := ["Sql"];
                       Types.matchScore := Some 100%Z; Types.missingSkills := [] |}];
                 GeminiService.cleaningReport :=
                   {| Types.totalRows := 1; Types.validRows := 1; Types.missingValuesFixed := 0;
                      Types.uniqueSkillsFound := 1; Types.processingTimeMs := 0 |} |})
        "S1")) by (left; reflexivity).
  split; [exact Hin |].
  destruct (offered_role_is_scored _ "S1"
              {| Types.title := "Analyst"; Types.requiredSkills := ["SQL"] |} None Hin
              ltac:(discriminate)) as [student [roleDef [_ [_ [_ [_ H]]]]]].
  exists student, roleDef. exact H.
Defined.

(** X16: the radar against the score. The chart has a point for each of
    the first six required skills, in order; a point shows 80 for the
    student exactly when the folded skill is one of the student's folded
    skills, else 20; so a skill shown at 80 is never in the missing list,
    while a skill matched by containment alone is shown at 20. *)
Theorem radar_marks_exact_matches
    (student : Types.StudentProfile) (roleDef : Types.RoleDefinition) :
  map subject (comparisonData (JS.newSet (map JS.toLowerCase (Types.rawSkills student)))
                 (Types.requiredSkills roleDef))
  = firstn 6 (Types.requiredSkills roleDef)
  /\ List.length (comparisonData (JS.newSet (map JS.toLowerCase (Types.rawSkills student)))
                    (Types.requiredSkills roleDef))
     = Nat.min 6 (List.length (Types.requiredSkills roleDef))
  /\ Forall (fun p =>
               (Student p = 80%Z
                <-> In (JS.toLowerCase (subject p))
                       (map JS.toLowerCase (Types.rawSkills student)))
               /\ (Student p = 80%Z \/ Student p = 20%Z)
               /\ Required p = 100%Z /\ fullMark p = 100%Z
               /\ (Student p = 80%Z ->
                   ~ In (subject p)
                        (Dashboard.missing (Dashboard.dynamicStats student roleDef)))
               /\ (Student p = 20%Z ->
                   Dashboard.found
                     (JS.newSet (map JS.toLowerCase (Types.rawSkills student)))
                     (JS.toLowerCase (subject p)) = true ->
                   exists c, In c (Types.rawSkills student)
                             /\ JS.toLowerCase c <> JS.toLowerCase (subject p)
                             /\ (Spec.Substring (JS.toLowerCase (subject p)) (JS.toLowerCase c)
                                 \/ Spec.Substring (JS.toLowerCase c)
                                      (JS.toLowerCase (subject p)))))
       (comparisonData (JS.newSet (map JS.toLowerCase (Types.rawSkills student)))
          (Types.requiredSkills roleDef)).
Proof.
  unfold comparisonData. split; [| split].
  - rewrite map_map. cbn [subject]. apply map_id.
  - rewrite length_map, length_firstn. reflexivity.
  - apply Forall_map. apply Forall_forall. intros req _. cbn [subject Student Required fullMark].
    rewrite has_newSet.
    destruct (JS.has (map JS.toLowerCase (Types.rawSkills student)) (JS.toLowerCase req))
      eqn:Hhas.
    + pose proof (proj1 (has_In _ _) Hhas) as Hin.
      split; [tauto |]. split; [left; reflexivity |]. split; [reflexivity |].
      split; [reflexivity |]. split; [| discriminate].
      intros _ Hmiss. rewrite dynamicStats_missing in Hmiss. apply filter_In in Hmiss.
      destruct Hmiss as [_ Hun]. unfold Spec.satisfied in Hun. rewrite Hhas in Hun.
      discriminate.
    + assert (Hnot : ~ In (JS.toLowerCase req) (map JS.toLowerCase (Types.rawSkills student))).
      { intros Hin. apply has_In in Hin. congruence. }
      split; [split; [discriminate | contradiction] |].
      split; [right; reflexivity |]. split; [reflexivity |]. split; [reflexivity |].
      split; [discriminate |].
      intros _ Hfound. rewrite found_satisfied in Hfound. apply satisfied_iff in Hfound.
      destruct Hfound as [Hin | [c [Hc Hsub]]]; [contradiction |].
      exists c. split; [exact Hc |]. split; [| exact Hsub].
      intros Heq. apply Hnot. rewrite <- Heq. apply in_map. exact Hc.
Qed.

End Selection.

(** ** Cleaning the answer of the service *)

Section CleanJson.

Import Service.

Lemma append_assoc_s (a b c : string) : ((a ++ b) ++ c)%string = (a ++ (b ++ c))%string.
Proof. induction a as [| x a IH]; cbn; [reflexivity | rewrite IH; reflexivity]. Qed.

Lemma length_append_s (a b : string) :
  String.length (a ++ b)%string = (String.length a + String.length b)%nat.
Proof. induction a as [| x a IH]; cbn; [reflexivity | rewrite IH; reflexivity]. Qed.

Lemma removeOcc_skip (pat a s : string) :
  removeOcc pat (String.length a) (a ++ s)%string = removeOcc pat 0 s.
Proof. induction a as [| x a IH]; cbn [append String.length removeOcc]; [reflexivity | exact IH]. Qed.

Lemma removeOcc_match (pat rest : string) :
  pat <> "" -> removeOcc pat 0 (pat ++ rest)%string = removeOcc pat 0 rest.
Proof.
  destruct pat as [| c pat']; [intros H; contradiction |]. intros _.
  assert (Hp : prefix (String c pat') (String c pat' ++ rest)%string = true)
    by (apply prefix_append; exists rest; reflexivity).
  cbn [append] in *. cbn [removeOcc]. rewrite Hp.
  cbn [String.length].
  replace (S (String.length pat') - 1)%nat with (String.length pat') by lia.
  apply removeOcc_skip.
Qed.

Lemma removeOcc_keep (pat : string) (c : ascii) (r : string) :
  prefix pat (String c r) = false ->
  removeOcc pat 0 (String c r) = String c (removeOcc pat 0 r).
Proof. intros H. cbn [removeOcc]. rewrite H. reflexivity. Qed.

Lemma prefix_head (p0 c : ascii) (pat r : string) :
  (c =? p0)%char = false -> prefix (String p0 pat) (String c r) = false.
Proof.
  intros H. cbn. destruct (ascii_dec p0 c) as [-> | _]; [| reflexivity].
  rewrite Ascii.eqb_refl in H. discriminate.
Qed.

Lemma prefix_cons (a b : ascii) (p s : string) :
  prefix (String a p) (String b s) = (b =? a)%char && prefix p s.
Proof.
  cbn [prefix]. destruct (ascii_dec a b) as [-> | Hne].
  - rewrite Ascii.eqb_refl. reflexivity.
  - assert (H : (b =? a)%char = false) by (apply Ascii.eqb_neq; congruence).
    rewrite H. reflexivity.
Qed.

Lemma prefix_fence (s : string) : prefix fence s = true <-> (3 <= Ref.leadTicks s)%nat.
Proof.
  unfold fence.
  destruct s as [| c1 s]; [cbn; split; [discriminate | lia] |].
  rewrite prefix_cons. cbn [Ref.leadTicks].
  destruct (c1 =? "`")%char; cbn [andb]; [| split; [discriminate | lia]].
  destruct s as [| c2 s]; [cbn; split; [discriminate | lia] |].
  rewrite prefix_cons. cbn [Ref.leadTicks].
  destruct (c2 =? "`")%char; cbn [andb]; [| split; [discriminate | lia]].
  destruct s as [| c3 s]; [cbn; split; [discriminate | lia] |].
  rewrite prefix_cons. cbn [Ref.leadTicks prefix].
  destruct (c3 =? "`")%char; cbn [andb]; split; intros H.
  - lia.
  - destruct s; reflexivity.
  - discriminate H.
  - exfalso. lia.
Qed.

Lemma prefix_fence_false (s : string) :
  prefix fence s = false <-> (Ref.leadTicks s <= 2)%nat.
Proof.
  pose proof (prefix_fence s) as H. destruct (prefix fence s).
  - split; [discriminate |]. intros Hle. assert (3 <= Ref.leadTicks s)%nat by (apply H; reflexivity). lia.
  - split; [| reflexivity]. intros _.
    destruct (Nat.le_gt_cases (Ref.leadTicks s) 2) as [Hle | Hgt]; [exact Hle |].
    assert (false = true) by (apply H; lia). discriminate.
Qed.

(** A run of at most two backticks at the start is kept as it is. *)
Lemma leadTicks_kept (s : string) :
  (Ref.leadTicks s <= 2)%nat -> Ref.leadTicks (removeOcc fence 0 s) = Ref.leadTicks s.
Proof.
  induction s as [| c s IH]; intros Hle; [reflexivity |].
  rewrite removeOcc_keep by (apply prefix_fence_false; exact Hle).
  cbn [Ref.leadTicks] in *. destruct (c =? "`")%char; [| reflexivity].
  rewrite IH by lia. reflexivity.
Qed.

Lemma fence_split (s : string) :
  prefix fence s = true -> exists rest, s = (fence ++ rest)%string.
Proof. intros H. apply prefix_append. exact H. Qed.

Lemma fence_not_empty : fence <> "".
Proof. discriminate. Qed.

Lemma leadTicks_after (n : nat) (s : string) :
  (String.length s <= n)%nat -> (Ref.leadTicks (removeOcc fence 0 s) <= 2)%nat.
Proof.
  revert s. induction n as [| n IH]; intros s Hn.
  - destruct s; [cbn; lia | cbn in Hn; lia].
  - destruct (prefix fence s) eqn:Hp.
    + destruct (fence_split s Hp) as [rest ->].
      rewrite (removeOcc_match fence rest fence_not_empty). apply IH.
      rewrite length_append_s in Hn. cbn in Hn. lia.
    + apply prefix_fence_false in Hp. rewrite leadTicks_kept; assumption.
Qed.

Lemma no_fence_after (n : nat) (s : string) :
  (String.length s <= n)%nat -> JS.includes (removeOcc fence 0 s) fence = false.
Proof.
  revert s. induction n as [| n IH]; intros s Hn.
  - destruct s; [reflexivity | cbn in Hn; lia].
  - destruct (prefix fence s) eqn:Hp.
    + destruct (fence_split s Hp) as [rest ->].
      rewrite (removeOcc_match fence rest fence_not_empty). apply IH.
      rewrite length_append_s in Hn. cbn in Hn. lia.
    + destruct s as [| c s]; [reflexivity |].
      pose proof (leadTicks_after (S n) (String c s) Hn) as Hlead.
      rewrite removeOcc_keep in * by exact Hp.
      cbn [JS.includes]. apply orb_false_iff. split.
      * apply prefix_fence_false. exact Hlead.
      * apply IH. cbn in Hn. lia.
Qed.

Lemma trimStart_suffix (s : string) : exists pre, s = (pre ++ JS.trimStart s)%string.
Proof.
  induction s as [| c s [pre IH]]; cbn; [exists EmptyString; reflexivity |].
  destruct (JS.isWhiteSpace c).
  - exists (String c pre). cbn. rewrite <- IH. reflexivity.
  - exists EmptyString. reflexivity.
Qed.

Lemma trimEnd_prefix (s : string) : exists post, s = (JS.trimEnd s ++ post)%string.
Proof.
  induction s as [| c s [post IH]]; cbn; [exists EmptyString; reflexivity |].
  destruct (JS.trimEnd s) as [| c' s'] eqn:Ht.
  - destruct (JS.isWhiteSpace c).
    + exists (String c s). reflexivity.
    + exists s. reflexivity.
  - exists post. cbn in *. rewrite <- IH. reflexivity.
Qed.

Lemma trim_Substring (s : string) : Spec.Substring (JS.trim s) s.
Proof.
  unfold JS.trim. destruct (trimStart_suffix s) as [pre Hpre].
  destruct (trimEnd_prefix (JS.trimStart s)) as [post Hpost].
  exists pre, post. rewrite <- Hpost. exact Hpre.
Qed.

Lemma Substring_trans (a b c : string) :
  Spec.Substring a b -> Spec.Substring b c -> Spec.Substring a c.
Proof.
  intros [p1 [q1 H1]] [p2 [q2 H2]]. exists (p2 ++ p1)%string, (q1 ++ q2)%string.
  rewrite H2, H1. rewrite !append_assoc_s. reflexivity.
Qed.

Lemma includes_trim (s pat : string) :
  JS.includes s pat = false -> JS.includes (JS.trim s) pat = false.
Proof.
  intros H. destruct (JS.includes (JS.trim s) pat) eqn:Ht; [| reflexivity].
  apply includes_Substring in Ht.
  assert (Hs : JS.includes s pat = true).
  { apply includes_Substring. apply (Substring_trans _ _ _ Ht (trim_Substring s)). }
  congruence.
Qed.

(** X17: the cleaned text never holds a code fence. Whatever the text,
    three backticks in a row do not occur in [cleanJson(text)]; a text
    without a fence is returned as it is, not even trimmed, and the empty
    text gives the empty object. *)
Theorem cleanJson_leaves_no_fence (text : string) :
  JS.includes (cleanJson text) fence = false
  /\ (JS.includes text fence = false -> text <> "" -> cleanJson text = text)
  /\ cleanJson "" = "{}".
Proof.
  split; [| split].
  - unfold cleanJson. destruct (text =? "")%string; [reflexivity |].
    destruct (JS.includes text fence) eqn:Hinc; [| exact Hinc].
    apply includes_trim. apply (no_fence_after _ _ (Nat.le_refl _)).
  - intros Hinc Hne. unfold cleanJson. apply String.eqb_neq in Hne. rewrite Hne, Hinc.
    reflexivity.
  - reflexivity.
Qed.

End CleanJson.

(** ** Unwrapping a fenced answer, and the job listings *)

Section ServiceHelpers.

Import Service.

Lemma anyChar_app (p : ascii -> bool) (a b : string) :
  JS.anyChar p (a ++ b)%string = JS.anyChar p a || JS.anyChar p b.
Proof.
  induction a as [| c a IH]; cbn; [reflexivity |]. rewrite IH, orb_assoc. reflexivity.
Qed.

Lemma whiteSpace_not_tick (c : ascii) : JS.isWhiteSpace c = true -> (c =? "`")%char = false.
Proof. destruct c as [[] [] [] [] [] [] [] []]; cbn; intros H; try discriminate; reflexivity. Qed.

Lemma whiteSpace_no_tick (w : string) :
  JS.allChars JS.isWhiteSpace w = true -> JS.anyChar (fun c => (c =? "`")%char) w = false.
Proof.
  induction w as [| c w IH]; cbn; [reflexivity |].
  intros H. apply andb_true_iff in H. destruct H as [Hc Hw].
  rewrite (whiteSpace_not_tick c Hc), (IH Hw). reflexivity.
Qed.

Lemma removeOcc_no_head (p0 : ascii) (pat a s : string) :
  JS.anyChar (fun c => (c =? p0)%char) a = false ->
  removeOcc (String p0 pat) 0 (a ++ s)%string = (a ++ removeOcc (String p0 pat) 0 s)%string.
Proof.
  induction a as [| c a IH]; intros H; [reflexivity |].
  cbn in H. apply orb_false_iff in H. destruct H as [Hc Ha].
  cbn [append]. rewrite removeOcc_keep by (apply prefix_head; exact Hc).
  rewrite (IH Ha). reflexivity.
Qed.

Lemma trimStart_ws (w : string) : JS.allChars JS.isWhiteSpace w = true -> JS.trimStart w = "".
Proof.
  induction w as [| c w IH]; cbn; [reflexivity |].
  intros H. apply andb_true_iff in H. destruct H as [Hc Hw]. rewrite Hc. exact (IH Hw).
Qed.

Lemma trimEnd_ws (w : string) : JS.allChars JS.isWhiteSpace w = true -> JS.trimEnd w = "".
Proof.
  induction w as [| c w IH]; cbn; [reflexivity |].
  intros H. apply andb_true_iff in H. destruct H as [Hc Hw]. rewrite (IH Hw), Hc. reflexivity.
Qed.

Lemma trimStart_ws_app (w s : string) :
  JS.allChars JS.isWhiteSpace w = true -> JS.trimStart (w ++ s)%string = JS.trimStart s.
Proof.
  induction w as [| c w IH]; cbn; [reflexivity |].
  intros H. apply andb_true_iff in H. destruct H as [Hc Hw]. rewrite Hc. exact (IH Hw).
Qed.

Lemma trimEnd_app_ws (s w : string) :
  JS.allChars JS.isWhiteSpace w = true -> JS.trimEnd (s ++ w)%string = JS.trimEnd s.
Proof.
  intros Hw. induction s as [| c s IH]; cbn [append JS.trimEnd].
  - apply trimEnd_ws. exact Hw.
  - rewrite IH. reflexivity.
Qed.

Lemma trim_app_ws (s w : string) :
  JS.allChars JS.isWhiteSpace w = true -> JS.trim (s ++ w)%string = JS.trim s.
Proof.
  intros Hw. unfold JS.trim. induction s as [| c s IH]; cbn [append JS.trimStart].
  - rewrite (trimStart_ws w Hw). reflexivity.
  - destruct (JS.isWhiteSpace c); [exact IH |].
    change (String c (s ++ w)%string) with (String c s ++ w)%string.
    apply trimEnd_app_ws. exact Hw.
Qed.

(** X18: a fenced answer is unwrapped. For a body without a backtick, set
    between a fence marked json and a closing fence, with any white space
    around it, [cleanJson] returns the body, trimmed. *)
Theorem cleanJson_unwraps_fenced_body (w1 body w2 : string)
    (Hw1 : JS.allChars JS.isWhiteSpace w1 = true)
    (Hw2 : JS.allChars JS.isWhiteSpace w2 = true)
    (Hbody : JS.anyChar (fun c => (c =? "`")%char) body = false) :
  cleanJson (fenceJson ++ w1 ++ body ++ w2 ++ fence)%string = JS.trim body.
Proof.
  assert (Hclean : JS.anyChar (fun c => (c =? "`")%char) (w1 ++ body ++ w2)%string = false).
  { rewrite !anyChar_app, Hbody, (whiteSpace_no_tick w1 Hw1), (whiteSpace_no_tick w2 Hw2).
    reflexivity. }
  assert (Hshape : (w1 ++ body ++ w2 ++ fence)%string = ((w1 ++ body ++ w2) ++ fence)%string)
    by (rewrite !append_assoc_s; reflexivity).
  unfold cleanJson.
  assert (Hne : ((fenceJson ++ w1 ++ body ++ w2 ++ fence)%string =? "")%string = false)
    by reflexivity.
  assert (Hinc : JS.includes (fenceJson ++ w1 ++ body ++ w2 ++ fence)%string fence = true).
  { apply includes_Substring. exists EmptyString, ("json" ++ w1 ++ body ++ w2 ++ fence)%string.
    reflexivity. }
  rewrite Hne, Hinc.
  rewrite (removeOcc_match fenceJson _ ltac:(discriminate)), Hshape.
  unfold fenceJson at 1. rewrite (removeOcc_no_head _ _ _ _ Hclean).
  change (removeOcc "```json" 0 fence) with fence.
  unfold fence at 1. rewrite (removeOcc_no_head _ _ _ _ Hclean).
  change (removeOcc "```" 0 fence) with EmptyString.
  rewrite append_empty.
  rewrite <- append_assoc_s, (trim_app_ws _ w2 Hw2).
  unfold JS.trim. rewrite (trimStart_ws_app w1 body Hw1). reflexivity.
Qed.

Lemma cleanJson_unwraps_fenced_body_witness :
  JS.allChars JS.isWhiteSpace ResumeAnalyzer.newline = true
  /\ JS.allChars JS.isWhiteSpace " " = true
  /\ JS.anyChar (fun c => (c =? "`")%char) "[1, 2]" = false
  /\ cleanJson (fenceJson ++ ResumeAnalyzer.newline ++ "[1, 2]" ++ " " ++ fence)%string
     = "[1, 2]".
Proof.
  split; [reflexivity |]. split; [reflexivity |]. split; [reflexivity |].
  apply (cleanJson_unwraps_fenced_body ResumeAnalyzer.newline "[1, 2]" " "); reflexivity.
Defined.

Lemma fold_chunkStep (chunks : list (option Web)) (listings : list JobListing) :
  fold_left chunkStep chunks listings
  = listings ++ flat_map (fun web => chunkStep [] web) chunks.
Proof.
  revert listings. induction chunks as [| web chunks IH]; intros listings; cbn [fold_left flat_map].
  - rewrite app_nil_r. reflexivity.
  - rewrite IH. destruct web as [w |]; cbn [chunkStep app].
    + rewrite <- app_assoc. reflexivity.
    + reflexivity.
Qed.

Lemma titleOr_not_empty (t : option string) : titleOr t <> "".
Proof. destruct t as [[| c t] |]; discriminate. Qed.

(** X19: the listings of a job search. There is one listing per grounding
    chunk that has a page, in the order of the chunks, with the address of
    the page; no listing has an empty title, a page without a title or with
    an empty one being listed as Job Opening; the company is always See Link.
    A failed request and an answer without chunks give no listing. *)
Theorem searchJobs_lists_every_page (chunks : list (option Web)) :
  map url (searchJobs (Some (Some chunks)))
  = map uri (flat_map (fun web => match web with Some w => [w] | None => [] end) chunks)
  /\ (List.length (searchJobs (Some (Some chunks))) <= List.length chunks)%nat
  /\ Forall (fun j => title j <> ""
                      /\ company j = "See Link"
                      /\ snippet j = "Click to view details from source.")
       (searchJobs (Some (Some chunks)))
  /\ (forall j, In j (searchJobs (Some (Some chunks))) ->
                exists w, In (Some w) chunks /\ url j = uri w
                          /\ (title j = "Job Opening" \/ webTitle w = Some (title j)))
  /\ searchJobs None = []
  /\ searchJobs (Some None) = [].
Proof.
  unfold searchJobs. rewrite fold_chunkStep. cbn [app].
  split; [| split; [| split; [| split; [| split]]]]; try reflexivity.
  - induction chunks as [| [w |] chunks IH]; cbn; [reflexivity | | exact IH].
    rewrite IH. reflexivity.
  - induction chunks as [| [w |] chunks IH]; cbn; lia.
  - apply Forall_flat_map. apply Forall_forall. intros [w |] _; cbn; [| constructor].
    constructor; [| constructor]. cbn. split; [apply titleOr_not_empty |]. split; reflexivity.
  - intros j Hj. apply in_flat_map in Hj. destruct Hj as [[w |] [Hin Hj]]; cbn in Hj;
      [| contradiction].
    destruct Hj as [<- | []]. exists w. split; [exact Hin |]. split; [reflexivity |].
    cbn [title]. destruct (webTitle w) as [[| c t] |]; cbn; auto.
Qed.

End ServiceHelpers.

(** ** The text of a resume *)

Section ResumeText.

Import ResumeAnalyzer.

Lemma not_whiteSpace_not_space (c : ascii) :
  JS.isWhiteSpace c = false -> (c =? " ")%char = false.
Proof.
  intros H. destruct (c =? " ")%char eqn:Hc; [| reflexivity].
  apply Ascii.eqb_eq in Hc. subst c. discriminate H.
Qed.

Lemma collapse_only_spaces (s : string) (inRun : bool) :
  JS.allChars (fun c => negb (JS.isWhiteSpace c) || (c =? " ")%char) (collapse inRun s) = true.
Proof.
  revert inRun. induction s as [| c s IH]; intros inRun; cbn; [reflexivity |].
  destruct (JS.isWhiteSpace c) eqn:Hc.
  - destruct inRun; [apply IH |]. cbn. apply IH.
  - cbn. rewrite Hc. cbn. apply IH.
Qed.

(** After white space the collapsed text goes on with a character that is
    not white space, or ends. *)
Lemma collapse_true_head (s : string) :
  JS.trimStart (collapse true s) = collapse true s
  /\ prefix " " (collapse true s) = false.
Proof.
  induction s as [| c s IH]; cbn [collapse]; [split; reflexivity |].
  destruct (JS.isWhiteSpace c) eqn:Hc; [exact IH |].
  split.
  - cbn. rewrite Hc. reflexivity.
  - rewrite prefix_cons, (not_whiteSpace_not_space c Hc). reflexivity.
Qed.

Lemma collapse_no_double_space (s : string) (inRun : bool) :
  JS.includes (collapse inRun s) "  " = false.
Proof.
  revert inRun. induction s as [| c s IH]; intros inRun; cbn [collapse]; [reflexivity |].
  destruct (JS.isWhiteSpace c) eqn:Hc.
  - destruct inRun; [apply IH |].
    cbn [JS.includes]. rewrite prefix_cons, (proj2 (collapse_true_head s)), IH. reflexivity.
  - cbn [JS.includes]. rewrite prefix_cons, (not_whiteSpace_not_space c Hc), IH. reflexivity.
Qed.

Lemma allChars_trimStart (p : ascii -> bool) (s : string) :
  JS.allChars p s = true -> JS.allChars p (JS.trimStart s) = true.
Proof.
  induction s as [| c s IH]; cbn; [reflexivity |].
  intros H. destruct (JS.isWhiteSpace c); [| exact H].
  apply andb_true_iff in H. apply IH. tauto.
Qed.

Lemma allChars_trimEnd (p : ascii -> bool) (s : string) :
  JS.allChars p s = true -> JS.allChars p (JS.trimEnd s) = true.
Proof.
  induction s as [| c s IH]; cbn; [reflexivity |].
  intros H. apply andb_true_iff in H. destruct H as [Hc Hs]. specialize (IH Hs).
  destruct (JS.trimEnd s).
  - destruct (JS.isWhiteSpace c); cbn; [reflexivity | rewrite Hc; reflexivity].
  - cbn in *. rewrite Hc. exact IH.
Qed.

Lemma trimStart_idempotent (s : string) : JS.trimStart (JS.trimStart s) = JS.trimStart s.
Proof.
  induction s as [| c s IH]; cbn; [reflexivity |].
  destruct (JS.isWhiteSpace c) eqn:Hc; [exact IH |]. cbn. rewrite Hc. reflexivity.
Qed.

Lemma trimEnd_idempotent (s : string) : JS.trimEnd (JS.trimEnd s) = JS.trimEnd s.
Proof.
  induction s as [| c s IH]; cbn [JS.trimEnd]; [reflexivity |].
  destruct (JS.trimEnd s) as [| c' s'] eqn:Ht.
  - destruct (JS.isWhiteSpace c) eqn:Hc; cbn; [reflexivity | rewrite Hc; reflexivity].
  - cbn [JS.trimEnd] in *. rewrite IH. reflexivity.
Qed.

Lemma trimStart_length (s : string) : (String.length (JS.trimStart s) <= String.length s)%nat.
Proof. induction s as [| c s IH]; cbn; [lia |]. destruct (JS.isWhiteSpace c); cbn; lia. Qed.

Lemma trimStart_of_trimEnd (s : string) :
  JS.trimStart s = s -> JS.trimStart (JS.trimEnd s) = JS.trimEnd s.
Proof.
  destruct s as [| c s]; [reflexivity |]. intros H.
  assert (Hc : JS.isWhiteSpace c = false).
  { destruct (JS.isWhiteSpace c) eqn:Hc; [| reflexivity]. exfalso.
    cbn in H. rewrite Hc in H. pose proof (trimStart_length s) as Hl.
    rewrite H in Hl. cbn in Hl. lia. }
  cbn [JS.trimEnd]. destruct (JS.trimEnd s); rewrite ?Hc; cbn; rewrite Hc; reflexivity.
Qed.

Lemma trim_idempotent (s : string) : JS.trim (JS.trim s) = JS.trim s.
Proof.
  unfold JS.trim.
  rewrite (trimStart_of_trimEnd (JS.trimStart s) (trimStart_idempotent s)).
  apply trimEnd_idempotent.
Qed.

(** X20: what [extractTextFromPdf] hands on. A text it returns has at
    least 50 characters, holds no white space but single spaces, does not
    start or end with white space, and passes the length test of
    [handleFileUpload] unchanged; otherwise the error is the scan message,
    prefixed once. *)
Theorem extracted_text_is_normalised (pages : list (list string)) :
  match extractTextFromPdf pages with
  | inl text =>
      (50 <= String.length text)%nat
      /\ JS.allChars (fun c => negb (JS.isWhiteSpace c) || (c =? " ")%char) text = true
      /\ JS.includes text "  " = false
      /\ JS.trim text = text
      /\ accepted text = true
  | inr message =>
      message
      = "Could not read PDF: This PDF appears to be an image or scan. Please convert it to a text-based PDF or TXT file."
      /\ (String.length (JS.trim (collapse false (fullTextOf pages))) < 50)%nat
  end.
Proof.
  unfold extractTextFromPdf. cbv zeta.
  destruct (String.length (JS.trim (collapse false (fullTextOf pages))) <? 50)%nat eqn:Hlen.
  - apply Nat.ltb_lt in Hlen. split; [reflexivity | exact Hlen].
  - apply Nat.ltb_ge in Hlen.
    split; [exact Hlen |]. split.
    { unfold JS.trim. apply allChars_trimEnd, allChars_trimStart, collapse_only_spaces. }
    split; [apply includes_trim, collapse_no_double_space |].
    split; [apply trim_idempotent |].
    unfold accepted. rewrite trim_idempotent.
    assert (Hl : (String.length (JS.trim (collapse false (fullTextOf pages))) <? 50)%nat = false)
      by (apply Nat.ltb_ge; exact Hlen).
    rewrite Hl.
    destruct (JS.trim (collapse false (fullTextOf pages))); [cbn in Hlen; lia | reflexivity].
Qed.

Example extractTextFromPdf_sample :
  extractTextFromPdf
    [["Experienced"; "data"; "analyst"; "with"; "Python,"; "SQL"; "and"; "Tableau."];
     []; ["Skills:"; " statistics "; "reporting"]]
  = inl "Experienced data analyst with Python, SQL and Tableau. Skills: statistics reporting".
Proof. vm_compute. reflexivity. Qed.

(** *** The text as its words *)

Lemma trimEnd_app (a b : string) :
  JS.trimEnd (a ++ b)%string
  = match JS.trimEnd b with
    | EmptyString => JS.trimEnd a
    | t => (a ++ t)%string
    end.
Proof.
  induction a as [| c a IH]; cbn [append JS.trimEnd].
  - destruct (JS.trimEnd b); reflexivity.
  - rewrite IH. destruct (JS.trimEnd b) as [| x t]; [reflexivity |].
    destruct a; reflexivity.
Qed.

Lemma trimEnd_clean (w : string) :
  JS.anyChar JS.isWhiteSpace w = false -> JS.trimEnd w = w.
Proof.
  induction w as [| c w IH]; cbn; [reflexivity |].
  intros H. apply orb_false_iff in H. destruct H as [Hc Hw].
  rewrite (IH Hw), Hc. destruct w; reflexivity.
Qed.

Lemma trim_collapse_true (s : string) :
  JS.trim (collapse true s) = JS.trim (collapse false s).
Proof.
  destruct s as [| c s]; [reflexivity |]. cbn [collapse].
  destruct (JS.isWhiteSpace c); reflexivity.
Qed.

Lemma wordsFrom_not_empty (s : string) (word : string) :
  Forall (fun w => w <> "") (Ref.wordsFrom word s).
Proof.
  revert word. induction s as [| c s IH]; intros word; cbn.
  - destruct word; constructor; [discriminate | constructor].
  - destruct (JS.isWhiteSpace c); [| apply IH].
    destruct word; [apply IH |]. constructor; [discriminate | apply IH].
Qed.

Lemma concat_empty_iff (l : list string) :
  Forall (fun w => w <> "") l -> String.concat " " l = "" -> l = [].
Proof.
  destruct l as [| x l]; [reflexivity |]. intros Hall H. exfalso.
  inversion Hall as [| ? ? Hx _]; subst. apply Hx.
  cbn in H. destruct l; [exact H |]. destruct x; [reflexivity | discriminate].
Qed.

Lemma concat_cons (x : string) (l : list string) :
  l <> [] -> String.concat " " (x :: l) = (x ++ " " ++ String.concat " " l)%string.
Proof. destruct l; [intros H; contradiction | reflexivity]. Qed.

Lemma collapse_words (s : string) :
  forall word,
    JS.anyChar JS.isWhiteSpace word = false ->
    (word <> "" ->
     JS.trimEnd (word ++ collapse false s)%string = String.concat " " (Ref.wordsFrom word s))
    /\ JS.trim (collapse false s) = String.concat " " (Ref.wordsFrom EmptyString s).
Proof.
  induction s as [| c s IH]; intros word Hclean.
  - cbn [collapse Ref.wordsFrom]. split; [| reflexivity].
    intros Hne. rewrite append_empty, (trimEnd_clean word Hclean).
    destruct word; [contradiction | reflexivity].
  - cbn [collapse Ref.wordsFrom]. destruct (JS.isWhiteSpace c) eqn:Hc.
    + destruct (IH EmptyString eq_refl) as [_ IHempty].
      assert (Hrest : JS.trim (collapse true s)
                      = String.concat " " (Ref.wordsFrom EmptyString s))
        by (rewrite trim_collapse_true; exact IHempty).
      split.
      * intros Hne. destruct word as [| w0 word']; [contradiction |].
        unfold JS.trim in Hrest. rewrite (proj1 (collapse_true_head s)) in Hrest.
        change (String w0 word' ++ String " " (collapse true s))%string
          with (String w0 word' ++ (" " ++ collapse true s))%string.
        rewrite <- append_assoc_s, trimEnd_app, Hrest.
        destruct (String.concat " " (Ref.wordsFrom EmptyString s)) as [| x t] eqn:Hwords.
        -- rewrite (concat_empty_iff _ (wordsFrom_not_empty s EmptyString) Hwords).
           rewrite (trimEnd_app_ws (String w0 word') " " eq_refl).
           rewrite (trimEnd_clean _ Hclean). reflexivity.
        -- rewrite concat_cons.
           ++ rewrite Hwords, append_assoc_s. reflexivity.
           ++ intros Hnil. rewrite Hnil in Hwords. discriminate.
      * unfold JS.trim. cbn [JS.trimStart]. change (JS.isWhiteSpace " ") with true. cbv iota.
        exact Hrest.
    + assert (Hclean' : JS.anyChar JS.isWhiteSpace (word ++ String c EmptyString)%string = false).
      { rewrite anyChar_app, Hclean. cbn. rewrite Hc. reflexivity. }
      assert (Hne' : forall w, (w ++ String c EmptyString)%string <> "")
        by (intros [| x w]; discriminate).
      split.
      * intros _. destruct (IH _ Hclean') as [IHword _].
        rewrite <- (IHword (Hne' word)), append_assoc_s. reflexivity.
      * destruct (IH (String c EmptyString) ltac:(cbn; rewrite Hc; reflexivity)) as [IHword _].
        unfold JS.trim. cbn [JS.trimStart]. rewrite Hc.
        change (String c (collapse false s)) with (String c EmptyString ++ collapse false s)%string.
        apply IHword. discriminate.
Qed.

(** X21: collapsing and trimming leaves the words. The white-space runs of
    a text become single spaces and the ends are trimmed: the result is the
    words of the text, in order, joined by one space; so the text that
    [extractTextFromPdf] returns is the words of all the pages joined by one
    space. *)
Theorem collapsed_text_is_its_words (s : string) (pages : list (list string)) :
  JS.trim (collapse false s) = String.concat " " (Ref.wordsOf s)
  /\ Forall (fun w => w <> "" /\ JS.anyChar JS.isWhiteSpace w = false) (Ref.wordsOf s)
  /\ (forall text, extractTextFromPdf pages = inl text ->
                   text = String.concat " " (Ref.wordsOf (fullTextOf pages))).
Proof.
  assert (Hwords : forall t, JS.trim (collapse false t) = String.concat " " (Ref.wordsOf t))
    by (intros t; apply (collapse_words t EmptyString eq_refl)).
  split; [apply Hwords |]. split.
  - unfold Ref.wordsOf.
    assert (H : forall t word, JS.anyChar JS.isWhiteSpace word = false ->
                  Forall (fun w => w <> "" /\ JS.anyChar JS.isWhiteSpace w = false)
                    (Ref.wordsFrom word t)).
    { induction t as [| c t IH]; intros word Hclean; cbn.
      - destruct word; constructor; [split; [discriminate | exact Hclean] | constructor].
      - destruct (JS.isWhiteSpace c) eqn:Hc.
        + destruct word; [apply IH; reflexivity |].
          constructor; [split; [discriminate | exact Hclean] | apply IH; reflexivity].
        + apply IH. rewrite anyChar_app, Hclean. cbn. rewrite Hc. reflexivity. }
    apply H. reflexivity.
  - intros text. unfold extractTextFromPdf. cbv zeta.
    destruct (String.length (JS.trim (collapse false (fullTextOf pages))) <? 50)%nat;
      [discriminate |].
    intros H. injection H as <-. apply Hwords.
Qed.

End ResumeText.

(** ** The items of the pages *)

Section PageItems.

Import ResumeAnalyzer.

Lemma fullTextOf_from (pages : list (list string)) (start : string) :
  fold_left (fun fullText items =>
               (fullText ++ (String.concat " " items ++ newline ++ newline))%string)
            pages start
  = (start ++ fullTextOf pages)%string.
Proof.
  unfold fullTextOf. revert start. induction pages as [| items pages IH]; intros start.
  - cbn. rewrite append_empty. reflexivity.
  - cbn [fold_left]. rewrite IH, (IH (EmptyString ++ _)%string).
    cbn [append]. rewrite append_assoc_s. reflexivity.
Qed.

Lemma fullTextOf_cons (items : list string) (pages : list (list string)) :
  fullTextOf (items :: pages)
  = (String.concat " " items ++ newline ++ newline ++ fullTextOf pages)%string.
Proof.
  unfold fullTextOf at 1. cbn [fold_left]. rewrite fullTextOf_from.
  cbn [append]. rewrite !append_assoc_s. reflexivity.
Qed.

Lemma wordsFrom_clean (a s word : string) :
  JS.anyChar JS.isWhiteSpace a = false ->
  Ref.wordsFrom word (a ++ s)%string = Ref.wordsFrom (word ++ a)%string s.
Proof.
  revert word. induction a as [| c a IH]; intros word Hclean.
  - rewrite append_empty. reflexivity.
  - cbn in Hclean. apply orb_false_iff in Hclean. destruct Hclean as [Hc Ha].
    cbn [append Ref.wordsFrom]. rewrite Hc, (IH _ Ha), append_assoc_s. reflexivity.
Qed.

Lemma wordsFrom_newlines (rest : string) :
  Ref.wordsFrom EmptyString (newline ++ newline ++ rest)%string
  = Ref.wordsFrom EmptyString rest.
Proof. reflexivity. Qed.

Lemma wordsFrom_page (items : list string) (rest : string) :
  Forall (fun w => w <> "" /\ JS.anyChar JS.isWhiteSpace w = false) items ->
  Ref.wordsFrom EmptyString (String.concat " " items ++ newline ++ newline ++ rest)%string
  = items ++ Ref.wordsFrom EmptyString rest.
Proof.
  induction 1 as [| x items [Hne Hclean] Hitems IH].
  - reflexivity.
  - destruct items as [| y items].
    + cbn [String.concat app]. rewrite (wordsFrom_clean x _ EmptyString Hclean).
      cbn [append]. destruct x as [| x0 x]; [contradiction |]. reflexivity.
    + rewrite concat_cons by discriminate. rewrite !append_assoc_s.
      rewrite (wordsFrom_clean x _ EmptyString Hclean). cbn [append].
      destruct x as [| x0 x]; [contradiction |].
      cbn [Ref.wordsFrom]. change (JS.isWhiteSpace " ") with true. cbv iota.
      rewrite <- !append_assoc_s in IH. rewrite <- !append_assoc_s.
      rewrite IH. reflexivity.
Qed.

(** X22: from the items to the text. When every text item of every page is
    a word, not empty and without white space, the collapsed and trimmed text
    is the items of all pages, in order, joined by one space: the page breaks
    leave no trace. *)
Theorem page_items_are_joined_by_spaces (pages : list (list string))
    (Hwords : Forall (Forall (fun w => w <> "" /\ JS.anyChar JS.isWhiteSpace w = false)) pages) :
  JS.trim (collapse false (fullTextOf pages)) = String.concat " " (List.concat pages)
  /\ (forall text, extractTextFromPdf pages = inl text ->
                   text = String.concat " " (List.concat pages)).
Proof.
  assert (Hall : Ref.wordsOf (fullTextOf pages) = List.concat pages).
  { unfold Ref.wordsOf. induction Hwords as [| items pages Hitems _ IH]; [reflexivity |].
    rewrite fullTextOf_cons, (wordsFrom_page items _ Hitems), IH. reflexivity. }
  assert (Htext : JS.trim (collapse false (fullTextOf pages))
                  = String.concat " " (List.concat pages)).
  { rewrite <- Hall. apply (collapse_words (fullTextOf pages) EmptyString eq_refl). }
  split; [exact Htext |].
  intros text. unfold extractTextFromPdf. cbv zeta.
  destruct (String.length (JS.trim (collapse false (fullTextOf pages))) <? 50)%nat;
    [discriminate |].
  intros H. injection H as <-. exact Htext.
Qed.

Lemma page_items_are_joined_by_spaces_witness :
  Forall (Forall (fun w => w <> "" /\ JS.anyChar JS.isWhiteSpace w = false))
    [["Data"; "analyst"]; []; ["Python"]]
  /\ JS.trim (collapse false (fullTextOf [["Data"; "analyst"]; []; ["Python"]]))
     = "Data analyst Python".
Proof.
  assert (H : Forall (Forall (fun w => w <> "" /\ JS.anyChar JS.isWhiteSpace w = false))
                [["Data"; "analyst"]; []; ["Python"]]).
  { repeat constructor; discriminate. }
  split; [exact H |].
  exact (proj1 (page_items_are_joined_by_spaces [["Data"; "analyst"]; []; ["Python"]] H)).
Defined.

End PageItems.

(** ** The characters of a skill *)

Section SkillCharacters.

Import Dashboard.

Lemma anyChar_allChars (p : ascii -> bool) (s : string) :
  JS.anyChar p s = negb (JS.allChars (fun c => negb (p c)) s).
Proof.
  induction s as [| c s IH]; cbn; [reflexivity |].
  rewrite IH. destruct (p c); reflexivity.
Qed.

Lemma anyChar_trim (p : ascii -> bool) (s : string) :
  JS.anyChar p s = false -> JS.anyChar p (JS.trim s) = false.
Proof.
  rewrite !anyChar_allChars, !negb_false_iff. intros H.
  unfold JS.trim. apply allChars_trimEnd, allChars_trimStart. exact H.
Qed.

Lemma anyChar_removeAll (p cls : ascii -> bool) (s : string) :
  JS.anyChar p s = false -> JS.anyChar p (JS.removeAll cls s) = false.
Proof.
  induction s as [| c s IH]; cbn; [reflexivity |].
  intros H. apply orb_false_iff in H. destruct H as [Hc Hs].
  destruct (cls c); [exact (IH Hs) |]. cbn. rewrite Hc. exact (IH Hs).
Qed.

Lemma separator_case (c : ascii) :
  isSeparator (JS.upperChar c) = isSeparator c /\ isSeparator (JS.lowerChar c) = isSeparator c.
Proof. destruct c as [[] [] [] [] [] [] [] []]; split; reflexivity. Qed.

Lemma quote_case (c : ascii) :
  isQuote (JS.upperChar c) = isQuote c /\ isQuote (JS.lowerChar c) = isQuote c.
Proof. destruct c as [[] [] [] [] [] [] [] []]; split; reflexivity. Qed.

Lemma anyChar_normalize (p : ascii -> bool) (t : string) :
  (forall c, p (JS.upperChar c) = p c /\ p (JS.lowerChar c) = p c) ->
  JS.anyChar p (normalize t) = JS.anyChar p t.
Proof.
  intros Hp. destruct t as [| c t]; [reflexivity |]. unfold normalize. cbn.
  rewrite (proj1 (Hp c)). f_equal.
  induction t as [| x t IH]; cbn; [reflexivity |]. rewrite (proj2 (Hp x)), IH. reflexivity.
Qed.

Lemma tokensOf_characters (valueStr : string) :
  Forall (fun t => JS.anyChar isSeparator t = false /\ JS.anyChar isQuote t = false)
    (tokensOf valueStr).
Proof.
  unfold tokensOf. apply Forall_map.
  pose proof (split_pieces isSeparator valueStr) as Hpieces.
  eapply Forall_impl; [| exact Hpieces]. intros piece Hp. cbn beta. split.
  - apply anyChar_removeAll, anyChar_trim. exact Hp.
  - apply removeAll_clean.
Qed.

Lemma rowSkills_characters (row : RawRow) :
  Forall (fun S => JS.anyChar isSeparator S = false /\ JS.anyChar isQuote S = false)
    (Spec.rowSkills row).
Proof.
  unfold Spec.rowSkills. apply Forall_flat_map. apply Forall_forall. intros [key val] _.
  unfold Spec.cellSkills.
  match goal with |- Forall _ (if ?b then _ else _) => destruct b end; [| constructor].
  apply Forall_map. apply Forall_forall. intros t Ht. apply filter_In in Ht.
  destruct Ht as [Ht _].
  pose proof (tokensOf_characters (JS.trim (JS.StringOf val))) as Hall.
  rewrite Forall_forall in Hall. destruct (Hall t Ht) as [Hsep Hquote].
  rewrite (anyChar_normalize _ t separator_case), (anyChar_normalize _ t quote_case).
  split; assumption.
Qed.

(** X23: what a skill never holds. No skill of a record, and no key of the
    frequency table, contains a comma, a semicolon, an apostrophe or a double
    quote, whatever the cells of the dataset hold. *)
Theorem skills_hold_no_separator_or_quote (rawData : list RawRow) (row : RawRow) (index : nat) :
  Forall (fun S => JS.anyChar isSeparator S = false /\ JS.anyChar isQuote S = false)
    (skills (normalizeRow row index))
  /\ Forall (fun S => JS.anyChar isSeparator S = false /\ JS.anyChar isQuote S = false)
       (map fst (skillFreqOf rawData)).
Proof.
  split.
  - apply Forall_forall. intros S HS.
    apply has_In, has_skills_rowSkills in HS.
    pose proof (rowSkills_characters row) as H. rewrite Forall_forall in H. apply H, HS.
  - rewrite skillFreqOf_bumpAll, keys_bumpAll. apply Forall_forall. intros S HS.
    apply In_addAll in HS. destruct HS as [[] | HS]. apply filter_In in HS.
    destruct HS as [HS _]. apply in_flat_map in HS. destruct HS as [r [_ HS]].
    pose proof (rowSkills_characters r) as H. rewrite Forall_forall in H. apply H, HS.
Qed.

End SkillCharacters.
